(** * Dataset ingestion and analysis-request pipeline

    A shallow embedding of the front end of the data-analytics application:

    - [frontend/src/components/UploadDataset.tsx]: [processFile], the
      post-processing of the rows tokenized from an uploaded file (empty-row
      elision, cell sanitization);
    - [frontend/src/services/api.ts]: [testBackendConnection],
      [convertToCSV], [convertToCSVLocal] and [analyzeData], the encoding of a
      dataset as CSV and the probe-then-send sequence against the back end,
      with its translation of failures into user-facing messages;
    - [frontend/src/services/deepseekAnalytics.ts]: [analyzeDataWithDeepseek];
    - the application component ([checkBackendStatus], [handleQuery]), the
      key input ([saveApiKey], [clearSavedApiKey] and the effect on mount) and
      the state of the upload component.

    Strings are modelled by [string]; one character stands for one UTF-16
    code unit below 256, which is all that [trim], [includes], [replace] and
    [join] inspect in the source.  The built-ins of the JavaScript run time
    whose output depends on floating point or on the calendar (number and date
    formatting, the JSON text of nested structures) are the fields of the
    class [JsRuntime]. *)

From Stdlib Require Import String Ascii List Bool ZArith Lia.
From Stdlib Require DecimalString.
Import ListNotations.

Local Open Scope list_scope.
Local Open Scope string_scope.

(** ** JavaScript strings *)

(** [s.includes(sub)] *)
Fixpoint includes (s sub : string) : bool :=
  if String.prefix sub s then true
  else match s with
       | EmptyString => false
       | String _ s' => includes s' sub
       end.

(** [s.replace(/c/g, by)] for a one-character pattern [c]. *)
Fixpoint replaceAll (c : ascii) (by_ : string) (s : string) : string :=
  match s with
  | EmptyString => EmptyString
  | String a s' =>
      if Ascii.eqb a c then by_ ++ replaceAll c by_ s'
      else String a (replaceAll c by_ s')
  end.

(** [xs.join(sep)] on an array of strings. *)
Definition join (sep : string) (xs : list string) : string :=
  String.concat sep xs.

(** The white space and line terminators removed by [String.prototype.trim],
    among the code units below 256: TAB, LF, VT, FF, CR, SP and NBSP. *)
Definition isWhiteSpace (a : ascii) : bool :=
  let n := nat_of_ascii a in
  (Nat.leb 9 n && Nat.leb n 13) || Nat.eqb n 32 || Nat.eqb n 160.

Fixpoint trimStart (s : string) : string :=
  match s with
  | EmptyString => EmptyString
  | String a s' => if isWhiteSpace a then trimStart s' else s
  end.

Fixpoint trimEnd (s : string) : string :=
  match s with
  | EmptyString => EmptyString
  | String a s' =>
      match trimEnd s' with
      | EmptyString => if isWhiteSpace a then EmptyString else String a EmptyString
      | t => String a t
      end
  end.

Definition trim (s : string) : string := trimEnd (trimStart s).

(** Truthiness of a string: only the empty string is falsy. *)
Definition truthy (s : string) : bool :=
  match s with
  | EmptyString => false
  | String _ _ => true
  end.

(** [s.endsWith(suffix)] *)
Fixpoint endsWith (s suffix : string) : bool :=
  if String.eqb s suffix then true
  else match s with
       | EmptyString => false
       | String _ s' => endsWith s' suffix
       end.

Definition comma : ascii := ","%char.
Definition dquote : ascii := ascii_of_nat 34.
Definition LF : ascii := ascii_of_nat 10.
Definition CR : ascii := ascii_of_nat 13.

(** ** JavaScript values held by cells *)

(** The built-ins of the run time that the source calls on cell values. *)
Class JsRuntime : Type := {
  Number : Type;
  DateObj : Type;
  Obj : Type;
  (** [String(n)] *)
  Number_toString : Number -> string;
  (** [JSON.stringify(n)] *)
  Number_toJSON : Number -> string;
  (** [JSON.stringify(s)] on a string *)
  String_toJSON : string -> string;
  (** [d.toISOString()]; [None] is the [RangeError] of an invalid date *)
  Date_toISOString : DateObj -> option string;
  (** [String(d)] and [JSON.stringify(d)] on a date *)
  Date_toString : DateObj -> string;
  Date_toJSON : DateObj -> string;
  (** [String(o)] and [JSON.stringify(o)] on an array or a plain object *)
  Obj_toString : Obj -> string;
  Obj_toJSON : Obj -> string
}.

(** What the run time guarantees about the text it produces: the decimal form
    of a number and an ISO date are not empty and hold no line break, and the
    JSON text of an object is not empty. *)
Definition noLineBreak (s : string) : Prop :=
  forall a, In a (list_ascii_of_string s) -> a <> LF /\ a <> CR.

Record JsRuntimeLaws (R : JsRuntime) : Prop := {
  Number_toString_nonempty : forall n, Number_toString n <> "";
  Number_toString_line : forall n, noLineBreak (Number_toString n);
  Date_toISOString_nonempty : forall d s, Date_toISOString d = Some s -> s <> "";
  Obj_toJSON_nonempty : forall o, Obj_toJSON o <> ""
}.

Section Values.
Context {R : JsRuntime}.

(** A cell of type [any]. *)
Inductive JsValue : Type :=
| JsUndefined
| JsNull
| JsBoolean (b : bool)
| JsNumber (n : Number)
| JsString (s : string)
| JsDate (d : DateObj)
| JsObject (o : Obj).

(** [typeof v] *)
Definition typeof (v : JsValue) : string :=
  match v with
  | JsUndefined => "undefined"
  | JsNull => "object"
  | JsBoolean _ => "boolean"
  | JsNumber _ => "number"
  | JsString _ => "string"
  | JsDate _ => "object"
  | JsObject _ => "object"
  end.

(** [v instanceof Date] *)
Definition instanceofDate (v : JsValue) : bool :=
  match v with
  | JsDate _ => true
  | _ => false
  end.

(** [String(v)] *)
Definition String_ (v : JsValue) : string :=
  match v with
  | JsUndefined => "undefined"
  | JsNull => "null"
  | JsBoolean b => if b then "true" else "false"
  | JsNumber n => Number_toString n
  | JsString s => s
  | JsDate d => Date_toString d
  | JsObject o => Obj_toString o
  end.

(** [JSON.stringify(v)]; [None] is the result [undefined]. *)
Definition JSON_stringify (v : JsValue) : option string :=
  match v with
  | JsUndefined => None
  | JsNull => Some "null"
  | JsBoolean b => Some (if b then "true" else "false")
  | JsNumber n => Some (Number_toJSON n)
  | JsString s => Some (String_toJSON s)
  | JsDate d => Some (Date_toJSON d)
  | JsObject o => Some (Obj_toJSON o)
  end.

(** A [string | undefined] result as a value. *)
Definition ofStringOrUndefined (r : option string) : JsValue :=
  match r with
  | Some s => JsString s
  | None => JsUndefined
  end.

End Values.

(** [v === null], [v === undefined] and [v === s] for a string [s]. *)
Definition isNull `{JsRuntime} (v : JsValue) : bool :=
  match v with
  | JsNull => true
  | _ => false
  end.

Definition isUndefined `{JsRuntime} (v : JsValue) : bool :=
  match v with
  | JsUndefined => true
  | _ => false
  end.

Definition isString `{JsRuntime} (v : JsValue) (s : string) : bool :=
  match v with
  | JsString t => String.eqb t s
  | _ => false
  end.

(** [xs.map(f)] where [f] may throw: the first exception aborts the map. *)
Fixpoint mapM {A B : Type} (f : A -> option B) (xs : list A) : option (list B) :=
  match xs with
  | [] => Some []
  | x :: xs' =>
      match f x with
      | None => None
      | Some y =>
          match mapM f xs' with
          | None => None
          | Some ys => Some (y :: ys)
          end
      end
  end.

(** ** UploadDataset.tsx *)

Module Upload.
Section ProcessFile.
Context {R : JsRuntime}.

Definition Row : Type := list JsValue.

(** The object literal [{ headers, rows: sanitizedRows }] handed to
    [onFileUpload].  The headers are the first tokenized row, cast to
    [string[]] without any conversion. *)
Record FileData : Type := {
  headers : Row;
  rows : list Row
}.

Record FileStats : Type := {
  stat_rows : nat;
  stat_columns : nat
}.

(** [cell => cell !== null && cell !== undefined && cell !== ''] *)
Definition nonEmptyCell (cell : JsValue) : bool :=
  negb (isNull cell) && negb (isUndefined cell) && negb (isString cell "").

(** [rows.filter(row => row.some(nonEmptyCell))] *)
Definition filterRows (rows : list Row) : list Row :=
  filter (fun row => existsb nonEmptyCell row) rows.

(** The cell sanitizer:
    [cell instanceof Date ? cell.toISOString() :
     typeof cell === 'object' ? JSON.stringify(cell) : cell].
    [None] is the [RangeError] thrown by [toISOString]. *)
Definition sanitizeCell (cell : JsValue) : option JsValue :=
  match cell with
  | JsDate d => option_map JsString (Date_toISOString d)
  | _ =>
      if String.eqb (typeof cell) "object"
      then Some (ofStringOrUndefined (JSON_stringify cell))
      else Some cell
  end.

Definition sanitizeRows (filteredRows : list Row) : option (list Row) :=
  mapM (mapM sanitizeCell) filteredRows.

(** The statements shared, word for word, by the [complete] callback of the
    CSV branch and by the spreadsheet branch: [data] is [results.data], resp.
    [jsonData].  [None] is an exception: the [RangeError] of the sanitizer, or
    the [TypeError] of [headers.length] when there is no first row. *)
Definition buildFileData (data : list Row) : option (FileData * FileStats) :=
  match data with
  | [] => None
  | headers :: rows =>
      let filteredRows := filterRows rows in
      match sanitizeRows filteredRows with
      | None => None
      | Some sanitizedRows =>
          let fileData := {| headers := headers; rows := sanitizedRows |} in
          Some (fileData,
                {| stat_rows := length sanitizedRows;
                   stat_columns := length headers |})
      end
  end.

(** What a decoder returns on the bytes of a file: the tokenized rows, or a
    failure ([error] callback of the CSV parser, exception of the workbook
    reader). *)
Inductive Decoded : Type :=
| Tokens (data : list Row)
| DecodeFailure.

(** An uploaded file, seen through its name and through what each decoder
    makes of its content. *)
Record File : Type := {
  name : string;
  papa_parse : Decoded;
  sheet_to_json : Decoded
}.

Inductive Outcome : Type :=
| Uploaded (fileData : FileData) (stats : FileStats)
| UploadError (message : string)
| UncaughtException.

Definition processFile (file : File) : Outcome :=
  if endsWith (name file) ".csv" then
    match papa_parse file with
    | Tokens data =>
        match buildFileData data with
        | Some (fileData, stats) => Uploaded fileData stats
        | None => UncaughtException
        end
    | DecodeFailure =>
        UploadError "Error processing CSV file. Please check the file format."
    end
  else if endsWith (name file) ".xlsx" || endsWith (name file) ".xls" then
    match sheet_to_json file with
    | Tokens jsonData =>
        match buildFileData jsonData with
        | Some (fileData, stats) => Uploaded fileData stats
        | None =>
            UploadError "Error processing Excel file. Please check the file format."
        end
    | DecodeFailure =>
        UploadError "Error processing Excel file. Please check the file format."
    end
  else
    UploadError "Unsupported file format. Please upload a CSV, XLSX, or XLS file.".

End ProcessFile.
End Upload.

(** ** api.ts *)

Module Api.
Section Service.
Context {R : JsRuntime}.

(** [FileData] of types.ts. *)
Record FileData : Type := {
  headers : list string;
  rows : list (list JsValue)
}.

Inductive ChartType : Type := bar | line | pie.

Record DataPoint : Type := {
  point_name : string;
  point_value : Number
}.

Record VisualizationData : Type := {
  chart_type : ChartType;
  chart_data : list DataPoint
}.

(** A response body, with the fields the client reads: [csv] (conversion
    endpoint), [detail] (error bodies) and the [AnalyticsResponse] proper. *)
Record ResponseData : Type := {
  csv : option string;
  detail : option string;
  answer : string;
  visualization : option VisualizationData
}.

(** *** The convertToCSVLocal encoder *)

Definition quote : string := String dquote EmptyString.

(** The callback of the inner [row.map]; [None] is the [TypeError] of
    [cellStr.includes] on an [undefined] [cellStr]. *)
Definition encodeCell (cell : JsValue) : option string :=
  if isNull cell || isUndefined cell then Some ""
  else
    match (if String.eqb (typeof cell) "object"
           then JSON_stringify cell
           else Some (String_ cell)) with
    | None => None
    | Some cellStr =>
        if includes cellStr "," || includes cellStr quote
        then Some (quote ++ replaceAll dquote (quote ++ quote) cellStr ++ quote)
        else Some cellStr
    end.

Definition encodeRow (row : list JsValue) : option string :=
  option_map (join ",") (mapM encodeCell row).

Definition newline : string := String LF EmptyString.

Definition convertToCSVLocal (data : FileData) : option string :=
  let headerRow := join "," (headers data) in
  match mapM encodeRow (rows data) with
  | None => None
  | Some dataRows => Some (join newline (headerRow :: dataRows))
  end.

(** *** Requests, responses and the axios instance *)

Inductive Method : Type := GET | POST.

Inductive FormValue : Type :=
| FormText (value : string)
| FormBlob (content : string) (mime : string) (filename : string).

Inductive Payload : Type :=
| NoBody
| JsonBody (data : FileData)
| FormData (parts : list (string * FormValue)).

(** A request as it leaves the client: the URL is the base URL of the axios
    instance at that moment followed by the path. *)
Record Request : Type := {
  method : Method;
  url : string;
  body : Payload
}.

Record ErrorResponse : Type := {
  status : Z;
  error_data : option ResponseData
}.

(** [AxiosError]: the [code] and the optional [response]. *)
Record AxiosError : Type := {
  code : option string;
  response : option ErrorResponse
}.

(** How a request ends: resolved with a 2xx response and its [data] ([None]
    for a falsy body), or rejected with an [AxiosError]. *)
Inductive Settled : Type :=
| Resolved (data : option ResponseData)
| Rejected (error : AxiosError).

(** The world outside the client during one call: what the network answers to
    a request, given the requests already made, and [navigator.onLine]. *)
Record Env : Type := {
  respond : list Request -> Request -> Settled;
  onLine : bool
}.

(** The mutable state: [api.defaults.baseURL] and the requests made so far,
    oldest first. *)
Record World : Type := {
  baseURL : string;
  log : list Request
}.

Definition primaryURL : string := "http://localhost:8000/api".
Definition fallbackURL : string := "http://127.0.0.1:8000/api".

(** The state when the module is loaded: [axios.create({ baseURL: ... })]. *)
Definition initialWorld : World := {| baseURL := primaryURL; log := [] |}.

(** Thrown values. *)
Inductive Exn : Type :=
| AxiosErr (error : AxiosError)
| Error (message : string).

Inductive Result (A : Type) : Type :=
| Ok (value : A)
| Thrown (e : Exn).
Arguments Ok {A} value.
Arguments Thrown {A} e.

(** Computations of the service: state passing with exceptions. *)
Definition M (A : Type) : Type := World -> Result A * World.

Definition ret {A : Type} (a : A) : M A := fun w => (Ok a, w).

Definition throw {A : Type} (e : Exn) : M A := fun w => (Thrown e, w).

Definition bind {A B : Type} (m : M A) (k : A -> M B) : M B :=
  fun w =>
    match m w with
    | (Ok a, w') => k a w'
    | (Thrown e, w') => (Thrown e, w')
    end.

Definition tryCatch {A : Type} (m : M A) (handler : Exn -> M A) : M A :=
  fun w =>
    match m w with
    | (Ok a, w') => (Ok a, w')
    | (Thrown e, w') => handler e w'
    end.

Definition setBaseURL (u : string) : M unit :=
  fun w => (Ok tt, {| baseURL := u; log := log w |}).

Notation "x <- m ;; k" := (bind m (fun x => k))
  (at level 61, m at next level, right associativity).
Notation "m ;;; k" := (bind m (fun _ => k))
  (at level 61, right associativity).

Variable env : Env.

(** [api.get(path)] and [api.post(path, body)]. *)
Definition send (m : Method) (path : string) (b : Payload) : M (option ResponseData) :=
  fun w =>
    let request := {| method := m; url := baseURL w ++ path; body := b |} in
    let w' := {| baseURL := baseURL w; log := (log w ++ [request])%list |} in
    match respond env (log w) request with
    | Resolved data => (Ok data, w')
    | Rejected error => (Thrown (AxiosErr error), w')
    end.

Definition api_get (path : string) : M (option ResponseData) := send GET path NoBody.
Definition api_post (path : string) (b : Payload) : M (option ResponseData) :=
  send POST path b.

(** *** The messages of the failures *)

Definition MissingCredential : string := "API key is required".
Definition MissingQuery : string := "Query is required".
Definition InvalidDataset : string := "Invalid or empty data file".
Definition ProbesFailed : string :=
  "Cannot connect to the backend API. Please make sure the backend server is running.".
Definition BackendUnreachable : string :=
  "Cannot connect to the API. Please check your internet connection and make sure the backend server is running.".
Definition Timeout : string := "Request timed out. Please try again.".
Definition InvalidRequest : string :=
  "Invalid request. Please check your query and data format.".
Definition InvalidCredential : string :=
  "Invalid API key. Please check your DeepSeek API key.".
Definition AccessDenied : string :=
  "Access denied. Please check your API key permissions.".
Definition EndpointNotFound : string :=
  "API endpoint not found. Please check if the backend server is running correctly.".
Definition RateLimited : string :=
  "Too many requests. Please wait a moment and try again.".
Definition PayloadTooLarge : string :=
  "Data file is too large. Please try a smaller file.".
Definition ServerError : string := "Server error. Please try again later.".
Definition ServiceUnavailable : string :=
  "Service temporarily unavailable. Please try again later.".
Definition ServerMessage (detail : string) : string := "API Error: " ++ detail.
Definition EmptyResponse : string := "No data received from the API".
Definition Unexpected : string := "An unexpected error occurred. Please try again.".

(** [`${n}`] for an integer status. *)
Definition decimal (n : Z) : string :=
  DecimalString.NilZero.string_of_int (Z.to_int n).

(** [error.response?.status || 'unknown status'] inside the last message. *)
Definition UnknownFailure (st : option Z) : string :=
  "Request failed (" ++
  match st with
  | Some n => if Z.eqb n 0 then "unknown status" else decimal n
  | None => "unknown status"
  end ++ "). Please try again.".

(** *** testBackendConnection *)

Definition testBackendConnection : M bool :=
  tryCatch (api_get "/health" ;;; ret true)
           (fun _ => ret false).

(** *** convertToCSV *)

Definition liftThrowing {A : Type} (r : option A) : M A :=
  match r with
  | Some a => ret a
  | None => throw (Error "TypeError")
  end.

Definition convertToCSV (data : FileData) : M string :=
  tryCatch
    (response <- api_post "/convert-to-csv" (JsonBody data) ;;
     match response with
     | Some d =>
         match csv d with
         | Some text =>
             if truthy text then ret text
             else throw (Error "Invalid response from CSV conversion endpoint")
         | None => throw (Error "Invalid response from CSV conversion endpoint")
         end
     | None => throw (Error "Invalid response from CSV conversion endpoint")
     end)
    (fun _ => liftThrowing (convertToCSVLocal data)).

(** *** analyzeData *)

(** The [data] argument at run time: [null], or an object whose [headers] and
    [rows] may be missing. *)
Record DataArg : Type := {
  arg_headers : option (list string);
  arg_rows : option (list (list JsValue))
}.

Definition codeIs (e : AxiosError) (c : string) : bool :=
  match code e with
  | Some c' => String.eqb c' c
  | None => false
  end.

(** [error.response?.status] *)
Definition statusOf (e : AxiosError) : option Z :=
  option_map status (response e).

(** [(error.response?.data as { detail: string })?.detail] *)
Definition detailOf (e : AxiosError) : option string :=
  match response e with
  | Some r =>
      match error_data r with
      | Some d => detail d
      | None => None
      end
  | None => None
  end.

(** The [catch (healthError)] block around the probes. *)
Definition healthCatch {A : Type} (healthError : Exn) : M A :=
  match healthError with
  | AxiosErr e =>
      if negb (onLine env) || codeIs e "ERR_NETWORK"
      then throw (Error BackendUnreachable)
      else throw healthError
  | Error _ => throw healthError
  end.

(** The [switch (error.response?.status)] of the outer [catch]; [None] when no
    case matches. *)
Definition statusMessage (st : option Z) : option string :=
  match st with
  | Some 400%Z => Some InvalidRequest
  | Some 401%Z => Some InvalidCredential
  | Some 403%Z => Some AccessDenied
  | Some 404%Z => Some EndpointNotFound
  | Some 429%Z => Some RateLimited
  | Some 413%Z => Some PayloadTooLarge
  | Some 500%Z => Some ServerError
  | Some 503%Z => Some ServiceUnavailable
  | _ => None
  end.

(** The outer [catch (error)] block. *)
Definition analyzeCatch {A : Type} (error : Exn) : M A :=
  match error with
  | AxiosErr e =>
      if negb (onLine env) || codeIs e "ERR_NETWORK"
      then throw (Error BackendUnreachable)
      else if codeIs e "ECONNABORTED"
      then throw (Error Timeout)
      else
        match statusMessage (statusOf e) with
        | Some message => throw (Error message)
        | None =>
            match detailOf e with
            | Some d =>
                if truthy d then throw (Error (ServerMessage d))
                else throw (Error (UnknownFailure (statusOf e)))
            | None => throw (Error (UnknownFailure (statusOf e)))
            end
        end
  | Error _ => throw (Error Unexpected)
  end.

(** The probe of the active address and, on failure, of the alternative one. *)
Definition probeBackend : M unit :=
  tryCatch
    (isConnected <- testBackendConnection ;;
     if negb isConnected then
       setBaseURL fallbackURL ;;;
       isConnectedAlt <- testBackendConnection ;;
       if negb isConnectedAlt then throw (Error ProbesFailed)
       else ret tt
     else ret tt)
    healthCatch.

Definition analyzeData (query : string) (data : option DataArg) (apiKey : string)
  : M ResponseData :=
  if negb (truthy (trim apiKey)) then throw (Error MissingCredential)
  else if negb (truthy (trim query)) then throw (Error MissingQuery)
  else
    match data with
    | None => throw (Error InvalidDataset)
    | Some {| arg_headers := None |} => throw (Error InvalidDataset)
    | Some {| arg_rows := None |} => throw (Error InvalidDataset)
    | Some {| arg_headers := Some hs; arg_rows := Some rs |} =>
        if Nat.eqb (length rs) 0 then throw (Error InvalidDataset)
        else
          let data := {| headers := hs; rows := rs |} in
          tryCatch
            (fileContent <- convertToCSV data ;;
             let formData :=
               FormData [("query", FormText query);
                         ("api_key", FormText apiKey);
                         ("file", FormBlob fileContent "text/csv" "data.csv")] in
             probeBackend ;;;
             response <- api_post "/analyze" formData ;;
             match response with
             | None => throw (Error EmptyResponse)
             | Some d => ret d
             end)
            analyzeCatch
    end.

End Service.

Arguments Ok {R A} value.
Arguments Thrown {R A} e.

End Api.

(** ** The CSV decoder *)

Module Csv.

(** Modelled from the spec: the delimited-text decoder called by the CSV
    branch of [processFile] is the library tokenizer, whose code is not part
    of the repository.  The spec takes it to be a standard RFC-4180-compatible
    tokenizer: fields are separated by commas and records by line breaks (LF
    or CRLF); a field that opens with a double quote runs to its closing
    quote, a doubled quote inside it standing for one quote character; the
    first record is the header row.  Malformed or unterminated quoting is a
    decode error.  A line break at the very end of the text is followed by one
    last record made of a single empty field, and an empty text holds no
    record at all. *)

Inductive Mode : Type :=
| FieldStart   (* at the first character of a field *)
| Unquoted     (* inside a field that did not open with a quote *)
| Quoted       (* inside a quoted field *)
| QuoteSeen.   (* just after a quote met inside a quoted field *)

(** The field in progress, the fields that follow it in its record, and the
    records after that one. *)
Definition Tail : Type := (string * list string * list (list string))%type.

Definition pushChar (a : ascii) (t : option Tail) : option Tail :=
  match t with
  | Some (f, fs, rs) => Some (String a f, fs, rs)
  | None => None
  end.

Definition endField (t : option Tail) : option Tail :=
  match t with
  | Some (f, fs, rs) => Some (EmptyString, f :: fs, rs)
  | None => None
  end.

Definition endRecord (t : option Tail) : option Tail :=
  match t with
  | Some (f, fs, rs) => Some (EmptyString, [], (f :: fs) :: rs)
  | None => None
  end.

Fixpoint tokenize (mode : Mode) (input : string) : option Tail :=
  match input with
  | EmptyString =>
      match mode with
      | Quoted => None
      | _ => Some (EmptyString, [], [])
      end
  | String a rest =>
      match mode with
      | Quoted =>
          if Ascii.eqb a dquote then tokenize QuoteSeen rest
          else pushChar a (tokenize Quoted rest)
      | _ =>
          if Ascii.eqb a dquote then
            match mode with
            | FieldStart => tokenize Quoted rest
            | QuoteSeen => pushChar dquote (tokenize Quoted rest)
            | _ => None
            end
          else if Ascii.eqb a comma then endField (tokenize FieldStart rest)
          else if Ascii.eqb a LF then endRecord (tokenize FieldStart rest)
          else
            let ordinary :=
              match mode with
              | QuoteSeen => None
              | _ => pushChar a (tokenize Unquoted rest)
              end in
            match rest with
            | String b rest' =>
                if Ascii.eqb a CR && Ascii.eqb b LF
                then endRecord (tokenize FieldStart rest')
                else ordinary
            | EmptyString => ordinary
            end
      end
  end.

Definition parse (text : string) : option (list (list string)) :=
  match text with
  | EmptyString => Some []
  | _ =>
      match tokenize FieldStart text with
      | Some (f, fs, rs) => Some ((f :: fs) :: rs)
      | None => None
      end
  end.

(** Without type inference every tokenized field is a string. *)
Definition decode `{JsRuntime} (text : string) : Upload.Decoded :=
  match parse text with
  | Some records => Upload.Tokens (map (map JsString) records)
  | None => Upload.DecodeFailure
  end.

(** A CSV file with the given name and text. *)
Definition file `{JsRuntime} (name text : string) : Upload.File :=
  {| Upload.name := name;
     Upload.papa_parse := decode text;
     Upload.sheet_to_json := Upload.DecodeFailure |}.

End Csv.

(** ** deepseekAnalytics.ts *)

Module Deepseek.
Section Service.
Context {R : JsRuntime}.
Variable env : Api.Env.

Definition MissingCredential : string := "DeepSeek API key is required".

(** [analyzeDataWithDeepseek]: the three checks again, then the call of
    [analyzeData] inside a [try] whose [catch] throws the error on. *)
Definition analyzeDataWithDeepseek (query : string) (data : option Api.DataArg)
  (apiKey : string) : Api.M Api.ResponseData :=
  if negb (truthy (trim apiKey)) then Api.throw (Api.Error MissingCredential)
  else if negb (truthy (trim query)) then Api.throw (Api.Error Api.MissingQuery)
  else
    match data with
    | None => Api.throw (Api.Error Api.InvalidDataset)
    | Some {| Api.arg_headers := None |} => Api.throw (Api.Error Api.InvalidDataset)
    | Some {| Api.arg_rows := None |} => Api.throw (Api.Error Api.InvalidDataset)
    | Some {| Api.arg_headers := Some _; Api.arg_rows := Some rs |} =>
        if Nat.eqb (length rs) 0 then Api.throw (Api.Error Api.InvalidDataset)
        else
          Api.tryCatch (Api.analyzeData env query data apiKey)
                       (fun error => Api.throw error)
    end.

End Service.
End Deepseek.

(** ** App.tsx *)

Module App.
Section Component.
Context {R : JsRuntime}.

Inductive BackendStatus : Type := checking | online | offline.

Inductive TabType : Type := analytics | upload.

(** The state of the component, one field per [useState]. *)
Record State : Type := {
  fileData : option Api.FileData;
  apiKey : string;
  isLoading : bool;
  result : option Api.ResponseData;
  error : option string;
  currentQuery : string;
  backendStatus : BackendStatus;
  activeTab : TabType
}.

(** The state on mount. *)
Definition initialState : State :=
  {| fileData := None; apiKey := ""; isLoading := false; result := None;
     error := None; currentQuery := ""; backendStatus := checking;
     activeTab := analytics |}.


Definition setApiKey (v : string) (s : State) : State :=
  {| fileData := fileData s; apiKey := v; isLoading := isLoading s;
     result := result s; error := error s; currentQuery := currentQuery s;
     backendStatus := backendStatus s; activeTab := activeTab s |}.

Definition setIsLoading (v : bool) (s : State) : State :=
  {| fileData := fileData s; apiKey := apiKey s; isLoading := v;
     result := result s; error := error s; currentQuery := currentQuery s;
     backendStatus := backendStatus s; activeTab := activeTab s |}.

Definition setResult (v : option Api.ResponseData) (s : State) : State :=
  {| fileData := fileData s; apiKey := apiKey s; isLoading := isLoading s;
     result := v; error := error s; currentQuery := currentQuery s;
     backendStatus := backendStatus s; activeTab := activeTab s |}.

Definition setError (v : option string) (s : State) : State :=
  {| fileData := fileData s; apiKey := apiKey s; isLoading := isLoading s;
     result := result s; error := v; currentQuery := currentQuery s;
     backendStatus := backendStatus s; activeTab := activeTab s |}.

Definition setCurrentQuery (v : string) (s : State) : State :=
  {| fileData := fileData s; apiKey := apiKey s; isLoading := isLoading s;
     result := result s; error := error s; currentQuery := v;
     backendStatus := backendStatus s; activeTab := activeTab s |}.

Definition setBackendStatus (v : BackendStatus) (s : State) : State :=
  {| fileData := fileData s; apiKey := apiKey s; isLoading := isLoading s;
     result := result s; error := error s; currentQuery := currentQuery s;
     backendStatus := v; activeTab := activeTab s |}.

Definition UploadFirst : string := "Please upload a file first".
Definition EnterKey : string := "Please enter your DeepSeek API key".
Definition CannotConnect : string :=
  "Cannot connect to the backend server. Please make sure the backend is running.".
Definition TimedOut : string :=
  "Request timed out. The analysis may be taking too long or the server is overloaded.".
Definition TooLarge : string :=
  "The dataset is too large for processing. Please try one of the following:" ++
  String LF ("1. Use a more specific query that focuses on fewer columns" ++
  String LF ("2. Reduce your dataset size before uploading" ++
  String LF "3. Try analyzing a subset of your data")).

Variable env : Api.Env.

(** [error.message] of an error of the HTTP client. *)
Variable axiosMessage : Api.AxiosError -> string.

Definition messageOf (error : Api.Exn) : string :=
  match error with
  | Api.Error message => message
  | Api.AxiosErr e => axiosMessage e
  end.

(** [checkBackendStatus]: the probe through the axios instance, then a
    [fetch] of the health endpoint of the alternative address, which counts
    when its response is [ok].  [Api.respond] tells how a request ends for the
    axios instance; [fetch] resolves with [ok] exactly for the statuses with
    which axios resolves, resolves without [ok] for the other statuses and
    rejects when there is no response: the last two both leave the back end
    marked off line. *)
Definition checkBackendStatus (s : State) (w : Api.World) : State * Api.World :=
  match Api.testBackendConnection env w with
  | (Api.Ok true, w1) => (setBackendStatus online s, w1)
  | (Api.Ok false, w1) =>
      let request :=
        {| Api.method := Api.GET;
           Api.url := "http://127.0.0.1:8000/api/health";
           Api.body := Api.NoBody |} in
      let w2 := {| Api.baseURL := Api.baseURL w1;
                   Api.log := (Api.log w1 ++ [request])%list |} in
      match Api.respond env (Api.log w1) request with
      | Api.Resolved _ => (setBackendStatus online s, w2)
      | Api.Rejected _ => (setBackendStatus offline s, w2)
      end
  | (Api.Thrown _, w1) => (setBackendStatus offline s, w1)
  end.

(** The [catch (error)] block of [handleQuery]. *)
Definition queryCatch (error : Api.Exn) (s : State) : State :=
  let message := messageOf error in
  if includes message "network" || includes message "ECONNREFUSED" ||
     includes message "ENOTFOUND" || includes message "Connection" ||
     negb (Api.onLine env)
  then setBackendStatus offline (setError (Some CannotConnect) s)
  else if includes message "timeout" then setError (Some TimedOut) s
  else if includes message "maximum context length" ||
          includes message "token limit"
  then setError (Some TooLarge) s
  else setError (Some message) s.

(** The dataset of the state as the argument of the service. *)
Definition argOf (d : Api.FileData) : option Api.DataArg :=
  Some {| Api.arg_headers := Some (Api.headers d);
          Api.arg_rows := Some (Api.rows d) |}.

(** The statements of [handleQuery] from [setIsLoading(true)] to the
    [finally] block; [d] and [key] are the dataset and the key of the
    rendering in which the query was submitted. *)
Definition runAnalysis (query : string) (d : Api.FileData) (key : string)
  (s1 : State) (w1 : Api.World) : State * Api.World :=
  let s2 := setCurrentQuery query (setError None (setIsLoading true s1)) in
  match Deepseek.analyzeDataWithDeepseek env query (argOf d) key w1 with
  | (Api.Ok response, w2) =>
      (setIsLoading false (setResult (Some response) s2), w2)
  | (Api.Thrown e, w2) => (setIsLoading false (queryCatch e s2), w2)
  end.

Definition handleQuery (query : string) (s : State) (w : Api.World)
  : State * Api.World :=
  match fileData s with
  | None => (setError (Some UploadFirst) s, w)
  | Some d =>
      if negb (truthy (trim (apiKey s))) then (setError (Some EnterKey) s, w)
      else
        match backendStatus s with
        | offline =>
            match Api.testBackendConnection env w with
            | (Api.Ok true, w1) =>
                runAnalysis query d (apiKey s) (setBackendStatus online s) w1
            | (_, w1) => (setError (Some CannotConnect) s, w1)
            end
        | _ => runAnalysis query d (apiKey s) s w
        end
  end.

End Component.
End App.

(** ** ApiKeyInput *)

Module ApiKeyInput.

(** [localStorage]: the pairs of a key and its value, one pair per key. *)
Definition Storage : Type := list (string * string).

Fixpoint getItem (k : string) (st : Storage) : option string :=
  match st with
  | [] => None
  | (k', v) :: st' => if String.eqb k' k then Some v else getItem k st'
  end.

Fixpoint removeItem (k : string) (st : Storage) : Storage :=
  match st with
  | [] => []
  | (k', v) :: st' =>
      if String.eqb k' k then removeItem k st' else (k', v) :: removeItem k st'
  end.

Definition setItem (k v : string) (st : Storage) : Storage :=
  (k, v) :: removeItem k st.

Definition API_KEY_STORAGE_KEY : string := "deepseek_api_key".

(** The key held by the parent ([apiKey], changed through [onApiKeyChange]),
    the two pieces of state of the component, and the storage of the
    browser. *)
Record State : Type := {
  apiKey : string;
  showApiKey : bool;
  isSaved : bool;
  localStorage : Storage
}.

(** The component when it mounts in a browser whose storage is [storage],
    the parent holding no key yet. *)
Definition fresh (storage : Storage) : State :=
  {| apiKey := ""; showApiKey := false; isSaved := false;
     localStorage := storage |}.

(** The effect run on mount. *)
Definition onMount (s : State) : State :=
  match getItem API_KEY_STORAGE_KEY (localStorage s) with
  | Some savedApiKey =>
      if truthy savedApiKey
      then {| apiKey := savedApiKey; showApiKey := showApiKey s;
              isSaved := true; localStorage := localStorage s |}
      else s
  | None => s
  end.

Definition saveApiKey (s : State) : State :=
  if truthy (trim (apiKey s))
  then {| apiKey := apiKey s; showApiKey := showApiKey s; isSaved := true;
          localStorage := setItem API_KEY_STORAGE_KEY (apiKey s) (localStorage s) |}
  else s.

Definition clearSavedApiKey (s : State) : State :=
  {| apiKey := ""; showApiKey := showApiKey s; isSaved := false;
     localStorage := removeItem API_KEY_STORAGE_KEY (localStorage s) |}.

(** [onChange] of the input. *)
Definition onChange (value : string) (s : State) : State :=
  {| apiKey := value; showApiKey := showApiKey s; isSaved := isSaved s;
     localStorage := localStorage s |}.

Definition toggleShow (s : State) : State :=
  {| apiKey := apiKey s; showApiKey := negb (showApiKey s); isSaved := isSaved s;
     localStorage := localStorage s |}.

(** What the user can do with the mounted component. *)
Inductive Action : Type :=
| Type_ (value : string)
| Save
| Clear
| Toggle.

Definition act (a : Action) (s : State) : State :=
  match a with
  | Type_ value => onChange value s
  | Save => saveApiKey s
  | Clear => clearSavedApiKey s
  | Toggle => toggleShow s
  end.

(** A session: the mount, then the actions in order. *)
Definition session (storage : Storage) (actions : list Action) : State :=
  fold_left (fun s a => act a s) actions (onMount (fresh storage)).

End ApiKeyInput.

(** ** The state of UploadDataset *)

Module UploadView.
Section Component.
Context {R : JsRuntime}.

Inductive Status : Type := idle | success | error.

Record State : Type := {
  isUploading : bool;
  uploadStatus : Status;
  fileName : option string;
  fileStats : option Upload.FileStats;
  errorMessage : option string
}.

Definition initialState : State :=
  {| isUploading := false; uploadStatus := idle; fileName := None;
     fileStats := None; errorMessage := None |}.

(** The setters that [processFile] calls before the file is read. *)
Definition start (file : Upload.File) (s : State) : State :=
  {| isUploading := true; uploadStatus := idle;
     fileName := Some (Upload.name file);
     fileStats := fileStats s; errorMessage := None |}.

(** The setters called once the file has been read, in the branch that the
    outcome of [Upload.processFile] stands for; the second component lists the
    calls of [onFileUpload].  When an exception escapes the callback of the
    CSV parser no setter runs. *)
Definition finish (outcome : Upload.Outcome) (s : State)
  : State * list Upload.FileData :=
  match outcome with
  | Upload.Uploaded fileData stats =>
      ({| isUploading := false; uploadStatus := success;
          fileName := fileName s; fileStats := Some stats;
          errorMessage := errorMessage s |},
       [fileData])
  | Upload.UploadError message =>
      ({| isUploading := false; uploadStatus := error;
          fileName := fileName s; fileStats := fileStats s;
          errorMessage := Some message |},
       [])
  | Upload.UncaughtException => (s, [])
  end.

(** [processFile] when nothing else happens while the file is read. *)
Definition processFile (file : Upload.File) (s : State)
  : State * list Upload.FileData :=
  finish (Upload.processFile file) (start file s).

(** The button shown after a success. *)
Definition uploadAnother (s : State) : State :=
  {| isUploading := isUploading s; uploadStatus := idle; fileName := None;
     fileStats := None; errorMessage := errorMessage s |}.

(** The button shown after a failure. *)
Definition tryAgain (s : State) : State :=
  {| isUploading := isUploading s; uploadStatus := idle; fileName := fileName s;
     fileStats := fileStats s; errorMessage := None |}.

(** The component with the files that are being read: reading is
    asynchronous, so other events may come before a file is done. *)
Record View : Type := {
  state : State;
  pending : list Upload.Outcome
}.

Definition initialView : View := {| state := initialState; pending := [] |}.

(** A file dropped or chosen ([handleDrop], [handleChange]: nothing happens
    without a file), the end of the reading of the [n]-th file in progress,
    and the two buttons, each of which exists only in its own status. *)
Inductive Event : Type :=
| Choose (file : option Upload.File)
| Settle (n : nat)
| UploadAnother
| TryAgain.

Definition step (e : Event) (v : View) : View :=
  match e with
  | Choose (Some file) =>
      {| state := start file (state v);
         pending := (pending v ++ [Upload.processFile file])%list |}
  | Choose None => v
  | Settle n =>
      match nth_error (pending v) n with
      | Some outcome =>
          {| state := fst (finish outcome (state v));
             pending := (firstn n (pending v) ++ skipn (S n) (pending v))%list |}
      | None => v
      end
  | UploadAnother =>
      match uploadStatus (state v) with
      | success => {| state := uploadAnother (state v); pending := pending v |}
      | _ => v
      end
  | TryAgain =>
      match uploadStatus (state v) with
      | error => {| state := tryAgain (state v); pending := pending v |}
      | _ => v
      end
  end.

Definition run (events : list Event) : View :=
  fold_left (fun v e => step e v) events initialView.

End Component.
End UploadView.

(** ** A run time for the examples *)

(** Numbers are the integers in decimal notation; a date is either the epoch
    instant ([true]) or an invalid date ([false]); the only object is the
    empty object literal.  JSON strings are given for texts that need no
    escape beyond the backslash and the quote. *)
Definition backslash : ascii := ascii_of_nat 92.

Definition sampleStringToJSON (s : string) : string :=
  let bs := String backslash EmptyString in
  let dq := String dquote EmptyString in
  dq ++ replaceAll dquote (bs ++ dq) (replaceAll backslash (bs ++ bs) s) ++ dq.

Definition epochISO : string := "1970-01-01T00:00:00.000Z".

#[export] Instance sampleRuntime : JsRuntime := {|
  Number := Z;
  DateObj := bool;
  Obj := unit;
  Number_toString := Api.decimal;
  Number_toJSON := Api.decimal;
  String_toJSON := sampleStringToJSON;
  Date_toISOString := fun d => if d then Some epochISO else None;
  Date_toString := fun d =>
    if d then "Thu Jan 01 1970 00:00:00 GMT+0000 (Coordinated Universal Time)"
    else "Invalid Date";
  Date_toJSON := fun d =>
    if d then String dquote epochISO ++ String dquote EmptyString else "null";
  Obj_toString := fun _ => "[object Object]";
  Obj_toJSON := fun _ => "{}"
|}.

(** ** Vocabulary of the properties *)

Section Vocabulary.
Context {R : JsRuntime}.

(** A cell that counts as empty: the empty string, [null] or [undefined]. *)
Definition emptyCell (cell : JsValue) : Prop :=
  cell = JsString "" \/ cell = JsNull \/ cell = JsUndefined.

(** An all-empty row. *)
Definition allEmpty (row : list JsValue) : Prop := Forall emptyCell row.

(** [Elided rows kept]: [kept] is [rows] without its all-empty rows, the
    others in their original order. *)
Inductive Elided : list (list JsValue) -> list (list JsValue) -> Prop :=
| Elided_nil : Elided [] []
| Elided_drop row rows kept :
    allEmpty row -> Elided rows kept -> Elided (row :: rows) kept
| Elided_keep row rows kept :
    ~ allEmpty row -> Elided rows kept -> Elided (row :: rows) (row :: kept).

(** [tokenized file data]: [data] is what the decoder selected by the name of
    the file returns on it, the header row first. *)
Definition tokenized (file : Upload.File) (data : list (list JsValue)) : Prop :=
  (endsWith (Upload.name file) ".csv" = true /\
   Upload.papa_parse file = Upload.Tokens data) \/
  (endsWith (Upload.name file) ".csv" = false /\
   (endsWith (Upload.name file) ".xlsx" = true \/
    endsWith (Upload.name file) ".xls" = true) /\
   Upload.sheet_to_json file = Upload.Tokens data).

(** A scalar cell: a string, a number, a boolean, [null] or [undefined]. *)
Definition scalar (cell : JsValue) : Prop :=
  match cell with
  | JsDate _ | JsObject _ => False
  | _ => True
  end.

(** Control characters: the code units below 32 and from 127 to 159. *)
Definition controlChar (a : ascii) : Prop :=
  nat_of_ascii a < 32 \/ 127 <= nat_of_ascii a < 160.

Definition occurs (a : ascii) (s : string) : Prop :=
  In a (list_ascii_of_string s).

Definition noControl (s : string) : Prop :=
  forall a, occurs a s -> ~ controlChar a.

(** The string form of a cell in the encoder: empty for [null] and
    [undefined], the JSON text for object-shaped values, the natural string
    form otherwise. *)
Definition stringForm (cell : JsValue) : string :=
  match cell with
  | JsNull | JsUndefined => ""
  | JsDate d => Date_toJSON d
  | JsObject o => Obj_toJSON o
  | JsBoolean _ | JsNumber _ | JsString _ => String_ cell
  end.

(** A field that has to be quoted, and its quoted form: wrapped in double
    quotes, every double quote inside written twice. *)
Definition needsQuote (field : string) : Prop :=
  occurs comma field \/ occurs dquote field.

Definition doubleQuotes (field : string) : string :=
  string_of_list_ascii
    (flat_map (fun a => if Ascii.eqb a dquote then [dquote; dquote] else [a])
              (list_ascii_of_string field)).

Definition quoted (field : string) : string :=
  String dquote (doubleQuotes field ++ String dquote EmptyString).

(** The field that the encoder writes for a string form. *)
Definition encodeField (s : string) : string :=
  if includes s "," || includes s Api.quote then quoted s else s.

(** The text of the encoder for a dataset: the header line, then one line
    per row, joined by line feeds. *)
Definition encode (data : Api.FileData) : string :=
  join Api.newline
       (join "," (Api.headers data) ::
        map (fun row => join "," (map (fun cell => encodeField (stringForm cell)) row))
            (Api.rows data)).

(** The world after more requests have been made. *)
Definition extend (w : Api.World) (requests : list Api.Request) : Api.World :=
  {| Api.baseURL := Api.baseURL w; Api.log := (Api.log w ++ requests)%list |}.

Definition switchTo (base : string) (w : Api.World) : Api.World :=
  {| Api.baseURL := base; Api.log := Api.log w |}.

(** The tokenizer state [t] with the text [s] put in front of its field in
    progress. *)
Definition prepend (s : string) (t : option Csv.Tail) : option Csv.Tail :=
  match t with
  | Some (f, fs, rs) => Some (s ++ f, fs, rs)
  | None => None
  end.

(** The tokenizer state [t] with the fields [ts] put in front of it, the last
    of them running into the field in progress of [t]. *)
Fixpoint withFields (ts : list string) (t : option Csv.Tail) : option Csv.Tail :=
  match ts with
  | [] => t
  | [s] => prepend s t
  | s :: ts' => prepend s (Csv.endField (withFields ts' t))
  end.

(** A line of the encoder for the string forms [ts]. *)
Definition line (ts : list string) : string := join "," (map encodeField ts).

(** A text at whose first character a field ends: the end of the input, a
    comma or a line feed. *)
Definition terminal (rest : string) : Prop :=
  match rest with
  | EmptyString => True
  | String a _ => a = comma \/ a = LF
  end.

(** The lines of the encoder for a dataset, as lists of string forms. *)
Definition fieldsOf (data : Api.FileData) : list (list string) :=
  Api.headers data :: map (map stringForm) (Api.rows data).

(** The requests of one call of [analyzeData]. *)
Definition healthRequest (base : string) : Api.Request :=
  {| Api.method := Api.GET; Api.url := base ++ "/health"; Api.body := Api.NoBody |}.

Definition convertRequest (base : string) (data : Api.FileData) : Api.Request :=
  {| Api.method := Api.POST;
     Api.url := base ++ "/convert-to-csv";
     Api.body := Api.JsonBody data |}.

Definition analyzeRequest (base query apiKey fileContent : string) : Api.Request :=
  {| Api.method := Api.POST;
     Api.url := base ++ "/analyze";
     Api.body :=
       Api.FormData [("query", Api.FormText query);
                     ("api_key", Api.FormText apiKey);
                     ("file", Api.FormBlob fileContent "text/csv" "data.csv")] |}.

(** A POST to the [/analyze] endpoint of some base address. *)
Definition isAnalyzePost (request : Api.Request) : Prop :=
  Api.method request = Api.POST /\ endsWith (Api.url request) "/analyze" = true.

(** The arguments pass the three checks made before the [try] block, the
    dataset being [data]. *)
Definition accepted (query : string) (arg : option Api.DataArg) (apiKey : string)
  (data : Api.FileData) : Prop :=
  trim apiKey <> "" /\ trim query <> "" /\
  arg = Some {| Api.arg_headers := Some (Api.headers data);
                Api.arg_rows := Some (Api.rows data) |} /\
  Api.rows data <> [].

(** The ways the analysis send can fail, as the error mapping tells them
    apart: a response with a non-2xx status, whose body may carry a [detail]
    field; a failure of the network layer with no response; the abort of the
    client on its deadline. *)
Inductive SendFailure : Type :=
| HttpFailure (status : Z) (detail : option string)
| NetworkFailure
| DeadlineAbort.

(** The mapping of the error table. *)
Definition classify (f : SendFailure) : string :=
  match f with
  | HttpFailure 400 _ => Api.InvalidRequest
  | HttpFailure 401 _ => Api.InvalidCredential
  | HttpFailure 403 _ => Api.AccessDenied
  | HttpFailure 404 _ => Api.EndpointNotFound
  | HttpFailure 413 _ => Api.PayloadTooLarge
  | HttpFailure 429 _ => Api.RateLimited
  | HttpFailure 500 _ => Api.ServerError
  | HttpFailure 503 _ => Api.ServiceUnavailable
  | HttpFailure _ (Some detail) => Api.ServerMessage detail
  | HttpFailure st None => Api.UnknownFailure (Some st)
  | NetworkFailure => Api.BackendUnreachable
  | DeadlineAbort => Api.Timeout
  end.

(** The mapping of the error table in which a [detail] field counts only
    when it is not the empty string: a response outside the eight statuses
    whose [detail] is empty is an unknown failure, as one without [detail]. *)
Definition classifyNonEmpty (f : SendFailure) : string :=
  match f with
  | HttpFailure 400 _ => Api.InvalidRequest
  | HttpFailure 401 _ => Api.InvalidCredential
  | HttpFailure 403 _ => Api.AccessDenied
  | HttpFailure 404 _ => Api.EndpointNotFound
  | HttpFailure 413 _ => Api.PayloadTooLarge
  | HttpFailure 429 _ => Api.RateLimited
  | HttpFailure 500 _ => Api.ServerError
  | HttpFailure 503 _ => Api.ServiceUnavailable
  | HttpFailure st (Some detail) =>
      if String.eqb detail "" then Api.UnknownFailure (Some st)
      else Api.ServerMessage detail
  | HttpFailure st None => Api.UnknownFailure (Some st)
  | NetworkFailure => Api.BackendUnreachable
  | DeadlineAbort => Api.Timeout
  end.

(** The [AxiosError] objects that stand for a failure: the HTTP client gives
    the code [ERR_NETWORK] to a network failure and [ECONNABORTED] to a
    timeout, both without a response, and another code or none to a response
    with an error status. *)
Definition represents (e : Api.AxiosError) (f : SendFailure) : Prop :=
  match f with
  | HttpFailure st d =>
      Api.statusOf e = Some st /\ Api.detailOf e = d /\
      Api.code e <> Some "ERR_NETWORK" /\ Api.code e <> Some "ECONNABORTED"
  | NetworkFailure => Api.code e = Some "ERR_NETWORK" /\ Api.response e = None
  | DeadlineAbort => Api.code e = Some "ECONNABORTED" /\ Api.response e = None
  end.

(** The text that [convertToCSV] hands over, given how the conversion request
    settled and the local encoding of the dataset. *)
Definition chosenContent (settled : Api.Settled) (local : string) : string :=
  match settled with
  | Api.Resolved (Some d) =>
      match Api.csv d with
      | Some text => if truthy text then text else local
      | None => local
      end
  | _ => local
  end.

(** The requests made by an accepted call and the base address it leaves
    behind, read off the answers to the two health checks. *)
Definition callTrace (env : Api.Env) (query apiKey : string) (data : Api.FileData)
  (w : Api.World) : list Api.Request * string :=
  let c := convertRequest (Api.baseURL w) data in
  let h1 := healthRequest (Api.baseURL w) in
  let h2 := healthRequest Api.fallbackURL in
  let content := chosenContent (Api.respond env (Api.log w) c) (encode data) in
  match Api.respond env (Api.log w ++ [c])%list h1 with
  | Api.Resolved _ =>
      ([c; h1; analyzeRequest (Api.baseURL w) query apiKey content], Api.baseURL w)
  | Api.Rejected _ =>
      match Api.respond env (Api.log w ++ [c; h1])%list h2 with
      | Api.Resolved _ =>
          ([c; h1; h2; analyzeRequest Api.fallbackURL query apiKey content],
           Api.fallbackURL)
      | Api.Rejected _ => ([c; h1; h2], Api.fallbackURL)
      end
  end.

(** One call of [analyzeData]: the back end it meets and its arguments. *)
Record Call : Type := {
  call_env : Api.Env;
  call_query : string;
  call_arg : option Api.DataArg;
  call_apiKey : string
}.

(** The world after a sequence of calls made one after the other. *)
Definition afterCalls (calls : list Call) (w : Api.World) : Api.World :=
  fold_left
    (fun w call =>
       snd (Api.analyzeData (call_env call) (call_query call) (call_arg call)
                            (call_apiKey call) w))
    calls w.

End Vocabulary.

(** ** Sample back ends *)

Definition networkError : Api.AxiosError :=
  {| Api.code := Some "ERR_NETWORK"; Api.response := None |}.

(** The error the HTTP client builds for a response with an error status. *)
Definition httpError (st : Z) (detail : option string) : Api.AxiosError :=
  {| Api.code :=
       if Z.leb 400 st && Z.ltb st 500 then Some "ERR_BAD_REQUEST"
       else if Z.leb 500 st && Z.ltb st 600 then Some "ERR_BAD_RESPONSE"
       else None;
     Api.response :=
       Some {| Api.status := st;
               Api.error_data :=
                 Some {| Api.csv := None; Api.detail := detail;
                         Api.answer := ""; Api.visualization := None |} |} |}.

Definition sampleAnswer : Api.ResponseData :=
  {| Api.csv := None; Api.detail := None;
     Api.answer := "42"; Api.visualization := None |}.

(** A back end that answers the health check on the alternative address, and
    on the primary one when [primaryUp]; [convert] and [analyze] are the ways
    the two POST requests settle on an address that is up. *)
Definition sampleEnv (online primaryUp : bool) (convert analyze : Api.Settled)
  : Api.Env :=
  {| Api.respond := fun _ request =>
       if negb primaryUp && String.prefix Api.primaryURL (Api.url request)
       then Api.Rejected networkError
       else if endsWith (Api.url request) "/health" then Api.Resolved None
       else if endsWith (Api.url request) "/analyze" then analyze
       else convert;
     Api.onLine := online |}.

(** No address answers. *)
Definition envDown : Api.Env :=
  {| Api.respond := fun _ _ => Api.Rejected networkError; Api.onLine := true |}.

(** The back end is up; it has no conversion endpoint. *)
Definition envUp : Api.Env :=
  sampleEnv true true (Api.Rejected (httpError 404 None))
            (Api.Resolved (Some sampleAnswer)).

(** Only the alternative address answers. *)
Definition envFallback : Api.Env :=
  sampleEnv true false (Api.Rejected (httpError 404 None))
            (Api.Resolved (Some sampleAnswer)).

(** The conversion endpoint returns a text of its own. *)
Definition envConvert : Api.Env :=
  sampleEnv true true
            (Api.Resolved (Some {| Api.csv := Some "zzz"; Api.detail := None;
                                   Api.answer := ""; Api.visualization := None |}))
            (Api.Resolved (Some sampleAnswer)).

(** The analysis endpoint rejects the send with the given error. *)
Definition envRejecting (online : bool) (error : Api.AxiosError) : Api.Env :=
  sampleEnv online true (Api.Rejected (httpError 404 None)) (Api.Rejected error).

(** A dataset of one column and one row, as an argument of [analyzeData]. *)
Definition sampleData : Api.FileData :=
  {| Api.headers := ["a"]; Api.rows := [[JsString "x"]] |}.

Definition sampleArg : option Api.DataArg :=
  Some {| Api.arg_headers := Some ["a"]; Api.arg_rows := Some [[JsString "x"]] |}.

(** A spreadsheet whose header row is all-empty and whose data rows are an
    all-empty row, a row with a text and an object, and a row with a number
    and an empty text. *)
Definition sampleBook : Upload.File :=
  {| Upload.name := "book.xlsx";
     Upload.papa_parse := Upload.DecodeFailure;
     Upload.sheet_to_json :=
       Upload.Tokens [[JsNull; JsString ""];
                      [JsString ""; JsUndefined];
                      [JsString "x"; JsObject tt];
                      [JsNumber 7%Z; JsString ""]] |}.

(** A spreadsheet whose only header cell is an invalid date. *)
Definition sampleBookDate : Upload.File :=
  {| Upload.name := "dates.xls";
     Upload.papa_parse := Upload.DecodeFailure;
     Upload.sheet_to_json :=
       Upload.Tokens [[JsDate false]; [JsDate true]] |}.

(** A dataset with a cell that needs quoting, a number, a boolean, and the
    two empty values. *)
Definition sampleTable : Api.FileData :=
  {| Api.headers := ["name"; "note"];
     Api.rows := [[JsString "A"; JsNumber 1%Z];
                  [JsString ("a,b" ++ String dquote "c"); JsNull];
                  [JsBoolean true; JsUndefined]] |}.

(** ** Samples for the further properties *)

(** The application with the sample dataset, a key, and the back end last
    seen on line. *)
Definition sampleApp : App.State :=
  {| App.fileData := Some sampleData; App.apiKey := "k"; App.isLoading := false;
     App.result := None; App.error := None; App.currentQuery := "";
     App.backendStatus := App.online; App.activeTab := App.analytics |}.

Definition sampleAxiosMessage (e : Api.AxiosError) : string := "Network Error".

(** A CSV file in which the parser finds no row at all. *)
Definition emptyCsv : Upload.File :=
  {| Upload.name := "empty.csv";
     Upload.papa_parse := Upload.Tokens [];
     Upload.sheet_to_json := Upload.DecodeFailure |}.

(** A spreadsheet that holds a header row only. *)
Definition headerOnly : Upload.File :=
  {| Upload.name := "header.xlsx";
     Upload.papa_parse := Upload.DecodeFailure;
     Upload.sheet_to_json := Upload.Tokens [[JsString "a"; JsString "b"]] |}.

(** ** Vocabulary of the further properties *)

(** The messages with which a call of the service can fail: the three
    checks, the messages of the outer handler for fixed causes, the message
    built on a non-empty [detail], and the message built on a status. *)
Definition fixedMessages : list string :=
  [Api.MissingCredential; Api.MissingQuery; Api.InvalidDataset;
   Api.BackendUnreachable; Api.Timeout; Api.InvalidRequest;
   Api.InvalidCredential; Api.AccessDenied; Api.EndpointNotFound;
   Api.RateLimited; Api.PayloadTooLarge; Api.ServerError;
   Api.ServiceUnavailable; Api.Unexpected].

Definition surfaced (message : string) : Prop :=
  In message fixedMessages \/
  (exists detail, detail <> "" /\ message = Api.ServerMessage detail) \/
  (exists st, message = Api.UnknownFailure st).

(** The messages that do not quote the back end. *)
Definition plainMessage (message : string) : Prop :=
  In message (Deepseek.MissingCredential :: fixedMessages) \/
  (exists st, message = Api.UnknownFailure st).

(** The header cells of an uploaded dataset when all of them are strings,
    as the type [string[]] of [FileData] has it. *)
Definition stringCells {R : JsRuntime} (cells : list JsValue) : option (list string) :=
  mapM (fun cell => match cell with
                    | JsString s => Some s
                    | _ => None
                    end) cells.





(** A world reached from [w]: more requests, all of them sent to the address
    that was active in [w] or to the alternative address, and an active
    address that is the one of [w] or the alternative one. *)
Definition follows {R : JsRuntime} (w w' : Api.World) : Prop :=
  exists requests,
    Api.log w' = (Api.log w ++ requests)%list /\
    (Api.baseURL w' = Api.baseURL w \/ Api.baseURL w' = Api.fallbackURL) /\
    Forall (fun r => String.prefix (Api.baseURL w) (Api.url r) = true \/
                     String.prefix Api.fallbackURL (Api.url r) = true) requests.

(** What the upload component keeps true of its state. *)
Definition viewInvariant {R : JsRuntime} (s : UploadView.State) : Prop :=
  (UploadView.uploadStatus s = UploadView.success ->
   UploadView.isUploading s = false /\ UploadView.fileStats s <> None) /\
  (UploadView.uploadStatus s = UploadView.error ->
   UploadView.isUploading s = false /\ UploadView.errorMessage s <> None) /\
  (UploadView.isUploading s = true ->
   UploadView.uploadStatus s = UploadView.idle /\ UploadView.errorMessage s = None).

(** Worlds written with [extend] and [switchTo], brought to one record
    whose log is a single list. *)
Ltac flatten_log :=
  unfold extend, switchTo; cbn [Api.baseURL Api.log];
  rewrite <- ?app_assoc; cbn [app].

(** * Properties *)

(** ** Strings *)

Lemma prefix_char (c : ascii) (s : string) :
  String.prefix (String c EmptyString) s = true <->
  exists s', s = String c s'.
Proof.
  destruct s as [|a s']; simpl.
  - split; [discriminate | intros [x H]; discriminate].
  - destruct (ascii_dec c a) as [->|Hne].
    + destruct s'; split; eauto.
    + split; [discriminate | intros [x H]; congruence].
Qed.

Lemma includes_char (c : ascii) (s : string) :
  includes s (String c EmptyString) = true <-> occurs c s.
Proof.
  unfold occurs. induction s as [|a s IH].
  - simpl. split; [discriminate | tauto].
  - cbn [includes list_ascii_of_string In].
    destruct (String.prefix (String c EmptyString) (String a s)) eqn:Hp.
    + apply prefix_char in Hp as [s' Hs]. injection Hs as -> _.
      split; auto.
    + rewrite IH. split; auto.
      intros [->|H]; auto.
      assert (String.prefix (String c EmptyString) (String c s) = true)
        by (apply prefix_char; eauto).
      congruence.
Qed.

Lemma string_of_list_ascii_app (l1 l2 : list ascii) :
  string_of_list_ascii (l1 ++ l2) =
  string_of_list_ascii l1 ++ string_of_list_ascii l2.
Proof.
  induction l1 as [|a l1 IH]; simpl; [reflexivity | now rewrite IH].
Qed.

Lemma replaceAll_doubleQuotes (s : string) :
  replaceAll dquote (Api.quote ++ Api.quote) s = doubleQuotes s.
Proof.
  unfold doubleQuotes. induction s as [|a s IH]; [reflexivity|].
  cbn [replaceAll list_ascii_of_string flat_map].
  rewrite string_of_list_ascii_app, IH.
  destruct (Ascii.eqb a dquote); reflexivity.
Qed.

Lemma append_assoc (s1 s2 s3 : string) :
  (s1 ++ s2) ++ s3 = s1 ++ (s2 ++ s3).
Proof.
  induction s1 as [|a s1 IH]; simpl; [reflexivity | now rewrite IH].
Qed.

Lemma append_nil_r (s : string) : s ++ "" = s.
Proof.
  induction s as [|a s IH]; simpl; [reflexivity | now rewrite IH].
Qed.

Lemma needsQuote_includes (s : string) :
  includes s "," || includes s Api.quote = true <-> needsQuote s.
Proof.
  unfold needsQuote. rewrite orb_true_iff.
  change "," with (String comma EmptyString).
  unfold Api.quote. now rewrite !includes_char.
Qed.

(** ** The encoder of a cell *)

Section Encoder.
Context {R : JsRuntime}.

Lemma encodeCell_stringForm (cell : JsValue) :
  Api.encodeCell cell = Some (encodeField (stringForm cell)).
Proof.
  unfold encodeField, quoted.
  destruct cell; cbn; try reflexivity;
    match goal with
    | |- context [includes ?s "," || includes ?s Api.quote] =>
        destruct (includes s "," || includes s Api.quote); [|reflexivity]
    end;
    rewrite replaceAll_doubleQuotes; reflexivity.
Qed.

End Encoder.

Section EncoderFacts.
Context {R : JsRuntime}.

Lemma encodeField_quoted (s : string) : needsQuote s -> encodeField s = quoted s.
Proof.
  intros H. apply needsQuote_includes in H. unfold encodeField. now rewrite H.
Qed.

Lemma encodeField_plain (s : string) : ~ needsQuote s -> encodeField s = s.
Proof.
  intros H. unfold encodeField.
  destruct (includes s "," || includes s Api.quote) eqn:E; [|reflexivity].
  apply needsQuote_includes in E. contradiction.
Qed.

(** C7.  The encoder writes every cell as a field: the string form of the cell
    (empty for null and undefined, the JSON text for object-shaped values, the
    natural string form otherwise), wrapped in double quotes with every inner
    double quote doubled exactly when that string form holds a comma or a
    double quote, and left as it is otherwise.  The cell made of [a,b], a
    double quote and [c] is written between double quotes with its inner quote
    doubled, and the cell [plain] is written [plain], no quote added. *)
Theorem encodeCell_quoting :
  (forall cell : JsValue,
      exists field,
        Api.encodeCell cell = Some field /\
        (needsQuote (stringForm cell) -> field = quoted (stringForm cell)) /\
        (~ needsQuote (stringForm cell) -> field = stringForm cell)) /\
  Api.encodeCell (JsString ("a,b" ++ String dquote "c")) =
    Some (String dquote ("a,b" ++ String dquote (String dquote ("c" ++ String dquote "")))) /\
  Api.encodeCell (JsString "plain") = Some "plain".
Proof.
  split; [|split; reflexivity].
  intros cell. exists (encodeField (stringForm cell)).
  split; [apply encodeCell_stringForm|].
  split; [apply encodeField_quoted | apply encodeField_plain].
Qed.

End EncoderFacts.

(** ** The sanitizer and the post-processing of tokenized rows *)

Section UploadFacts.
Context {R : JsRuntime}.

Lemma sanitizeCell_date (d : DateObj) :
  Upload.sanitizeCell (JsDate d) = option_map JsString (Date_toISOString d).
Proof. reflexivity. Qed.

Lemma sanitizeCell_object (o : Obj) :
  Upload.sanitizeCell (JsObject o) = Some (JsString (Obj_toJSON o)).
Proof. reflexivity. Qed.

Lemma sanitizeCell_primitive (cell : JsValue) :
  scalar cell -> cell <> JsNull -> Upload.sanitizeCell cell = Some cell.
Proof. destruct cell; simpl; intros H Hn; try reflexivity; tauto. Qed.

(** C5.  On the cell [null] the sanitizer does not return [null]: [typeof null]
    is ['object'], so the cell goes through [JSON.stringify] and comes out as
    the four-letter string [null].  A spreadsheet row holding a text and a
    [null] cell is uploaded with that string in place of the [null] cell. *)
Theorem sanitizeCell_null :
  Upload.sanitizeCell JsNull = Some (JsString "null") /\
  Upload.sanitizeCell JsNull <> Some JsNull /\
  Upload.processFile
    {| Upload.name := "book.xlsx";
       Upload.papa_parse := Upload.DecodeFailure;
       Upload.sheet_to_json :=
         Upload.Tokens [[JsString "name"; JsString "note"];
                        [JsString "x"; JsNull]] |} =
  Upload.Uploaded
    {| Upload.headers := [JsString "name"; JsString "note"];
       Upload.rows := [[JsString "x"; JsString "null"]] |}
    {| Upload.stat_rows := 1; Upload.stat_columns := 2 |}.
Proof.
  split; [reflexivity|]. split; [discriminate | reflexivity].
Qed.

Lemma nonEmptyCell_false (cell : JsValue) :
  Upload.nonEmptyCell cell = false <-> emptyCell cell.
Proof.
  unfold emptyCell, Upload.nonEmptyCell.
  destruct cell as [ | | b | n | s | d | o]; simpl.
  1, 2: split; auto.
  3: destruct s; simpl; [split; auto|].
  all: split; [discriminate | intros [H|[H|H]]; discriminate].
Qed.

Lemma some_nonEmpty_false (row : list JsValue) :
  existsb Upload.nonEmptyCell row = false <-> allEmpty row.
Proof.
  unfold allEmpty. induction row as [|c row IH]; simpl.
  - split; auto.
  - rewrite orb_false_iff, IH, nonEmptyCell_false.
    split.
    + intros [H1 H2]. now constructor.
    + intros H. inversion H; auto.
Qed.

Lemma filterRows_Elided (rows : list (list JsValue)) :
  Elided rows (Upload.filterRows rows).
Proof.
  induction rows as [|row rows IH]; simpl.
  - constructor.
  - destruct (existsb Upload.nonEmptyCell row) eqn:E.
    + apply Elided_keep; [|exact IH].
      intros H. apply some_nonEmpty_false in H. congruence.
    + apply Elided_drop; [|exact IH]. now apply some_nonEmpty_false.
Qed.

Lemma Elided_kept (rows kept : list (list JsValue)) :
  Elided rows kept -> Forall (fun row => ~ allEmpty row) kept.
Proof. induction 1; auto. Qed.

Lemma mapM_Some_inv {A B : Type} (f : A -> option B) x xs ys :
  mapM f (x :: xs) = Some ys ->
  exists y ys', f x = Some y /\ mapM f xs = Some ys' /\ ys = y :: ys'.
Proof.
  simpl. destruct (f x) as [y|]; [|discriminate].
  destruct (mapM f xs) as [ys'|]; [|discriminate].
  intros [= <-]. eauto.
Qed.

Lemma sanitizeCell_emptyCell (L : JsRuntimeLaws R) (cell cell' : JsValue) :
  Upload.sanitizeCell cell = Some cell' -> emptyCell cell' -> emptyCell cell.
Proof.
  unfold emptyCell.
  destruct cell as [ | | b | n | s | d | o]; simpl; intros Hs He.
  6: destruct (Date_toISOString d) as [iso|] eqn:E; [simpl in Hs|discriminate].
  all: injection Hs as <-; auto.
  all: destruct He as [H|[H|H]]; try discriminate; injection H as H.
  - subst iso. now apply (Date_toISOString_nonempty R L) in E.
  - now apply (Obj_toJSON_nonempty R L) in H.
Qed.

Lemma sanitizeRow_allEmpty (L : JsRuntimeLaws R) (row row' : list JsValue) :
  mapM Upload.sanitizeCell row = Some row' -> allEmpty row' -> allEmpty row.
Proof.
  unfold allEmpty. revert row'.
  induction row as [|c row IH]; intros row' Hm He; [constructor|].
  apply mapM_Some_inv in Hm as (c' & cs' & Hc & Hcs & ->).
  inversion He; subst.
  constructor; eauto using sanitizeCell_emptyCell.
Qed.

Lemma sanitizeRows_nonEmpty (L : JsRuntimeLaws R) (kept out : list (list JsValue)) :
  Upload.sanitizeRows kept = Some out ->
  Forall (fun row => ~ allEmpty row) kept ->
  Forall (fun row => ~ allEmpty row) out.
Proof.
  unfold Upload.sanitizeRows. revert out.
  induction kept as [|row kept IH]; intros out Hm Hk.
  - injection Hm as <-. constructor.
  - apply mapM_Some_inv in Hm as (row' & out' & Hr & Hrs & ->).
    inversion Hk; subst.
    constructor; eauto using sanitizeRow_allEmpty.
Qed.

Lemma buildFileData_inv data fileData stats :
  Upload.buildFileData data = Some (fileData, stats) ->
  exists hdr dataRows,
    data = hdr :: dataRows /\
    Upload.headers fileData = hdr /\
    Upload.sanitizeRows (Upload.filterRows dataRows) = Some (Upload.rows fileData) /\
    stats = {| Upload.stat_rows := length (Upload.rows fileData);
               Upload.stat_columns := length hdr |}.
Proof.
  destruct data as [|hdr dataRows]; simpl; [discriminate|].
  destruct (Upload.sanitizeRows (Upload.filterRows dataRows)) as [rs|] eqn:E;
    [|discriminate].
  intros [= <- <-]. exists hdr, dataRows.
  split; [reflexivity|]. split; [reflexivity|]. split; [exact E | reflexivity].
Qed.

Lemma processFile_Uploaded_inv file fileData stats :
  Upload.processFile file = Upload.Uploaded fileData stats ->
  exists data,
    tokenized file data /\ Upload.buildFileData data = Some (fileData, stats).
Proof.
  unfold Upload.processFile, tokenized.
  destruct (endsWith (Upload.name file) ".csv") eqn:Ecsv.
  - destruct (Upload.papa_parse file) as [data|] eqn:Ep; [|discriminate].
    destruct (Upload.buildFileData data) as [[fd st]|] eqn:Eb; [|discriminate].
    intros [= <- <-]. exists data. auto.
  - destruct (endsWith (Upload.name file) ".xlsx" || endsWith (Upload.name file) ".xls")
      eqn:Ex; [|discriminate].
    destruct (Upload.sheet_to_json file) as [data|] eqn:Ep; [|discriminate].
    destruct (Upload.buildFileData data) as [[fd st]|] eqn:Eb; [|discriminate].
    intros [= <- <-]. exists data. apply orb_true_iff in Ex. auto.
Qed.

(** C8.  Whatever the format of the file (CSV or spreadsheet), the rows of the
    uploaded dataset are the sanitized data rows of the file with the all-empty
    ones left out and the others in their original order; no row of the
    dataset is all-empty. *)
Theorem empty_rows_elided (L : JsRuntimeLaws R) file fileData stats :
  Upload.processFile file = Upload.Uploaded fileData stats ->
  exists hdr dataRows kept,
    tokenized file (hdr :: dataRows) /\
    Elided dataRows kept /\
    Upload.sanitizeRows kept = Some (Upload.rows fileData) /\
    Forall (fun row => ~ allEmpty row) (Upload.rows fileData).
Proof.
  intros H.
  apply processFile_Uploaded_inv in H as (data & Htok & Hb).
  apply buildFileData_inv in Hb as (hdr & dataRows & -> & _ & Hs & _).
  exists hdr, dataRows, (Upload.filterRows dataRows).
  pose proof (filterRows_Elided dataRows) as He.
  repeat split; auto.
  eapply sanitizeRows_nonEmpty; eauto using Elided_kept.
Qed.

(** C10.  The headers of the uploaded dataset are the first tokenized row as
    it is: no header cell goes through the sanitizer and the header row is
    never elided, whatever its cells are; the column count is its length. *)
Theorem headers_verbatim file fileData stats :
  Upload.processFile file = Upload.Uploaded fileData stats ->
  exists hdr dataRows,
    tokenized file (hdr :: dataRows) /\
    Upload.headers fileData = hdr /\
    Upload.stat_columns stats = length hdr.
Proof.
  intros H.
  apply processFile_Uploaded_inv in H as (data & Htok & Hb).
  apply buildFileData_inv in Hb as (hdr & dataRows & -> & Hh & _ & ->).
  exists hdr, dataRows. auto.
Qed.

End UploadFacts.

(** ** The service *)

Section ApiFacts.
Context {R : JsRuntime}.

Lemma mapM_total {A B : Type} (f : A -> option B) (g : A -> B) (xs : list A) :
  (forall x, f x = Some (g x)) -> mapM f xs = Some (map g xs).
Proof.
  intros H. induction xs as [|x xs IH]; simpl; [reflexivity|].
  now rewrite H, IH.
Qed.

(** The encoder is total. *)
Lemma convertToCSVLocal_encode (data : Api.FileData) :
  Api.convertToCSVLocal data = Some (encode data).
Proof.
  unfold Api.convertToCSVLocal, encode.
  rewrite (mapM_total Api.encodeRow
             (fun row => join "," (map (fun cell => encodeField (stringForm cell)) row))).
  - reflexivity.
  - intros row. unfold Api.encodeRow.
    now rewrite (mapM_total _ _ row encodeCell_stringForm).
Qed.

Lemma truthy_true (s : string) : s <> "" -> truthy s = true.
Proof. destruct s; [congruence | reflexivity]. Qed.

Variable env : Api.Env.

Lemma testBackendConnection_run (w : Api.World) :
  Api.testBackendConnection env w =
  (Api.Ok match Api.respond env (Api.log w) (healthRequest (Api.baseURL w)) with
          | Api.Resolved _ => true
          | Api.Rejected _ => false
          end,
   extend w [healthRequest (Api.baseURL w)]).
Proof.
  unfold Api.testBackendConnection, Api.tryCatch, Api.bind, Api.api_get, Api.send.
  fold (healthRequest (Api.baseURL w)).
  destruct (Api.respond env (Api.log w) (healthRequest (Api.baseURL w)));
    reflexivity.
Qed.

Lemma convertToCSV_run (data : Api.FileData) (w : Api.World) :
  Api.convertToCSV env data w =
  (Api.Ok (chosenContent
             (Api.respond env (Api.log w) (convertRequest (Api.baseURL w) data))
             (encode data)),
   extend w [convertRequest (Api.baseURL w) data]).
Proof.
  unfold Api.convertToCSV, Api.tryCatch, Api.bind, Api.api_post, Api.send.
  fold (convertRequest (Api.baseURL w) data).
  rewrite convertToCSVLocal_encode.
  destruct (Api.respond env (Api.log w) (convertRequest (Api.baseURL w) data))
    as [[d|]|e]; simpl; try reflexivity.
  destruct (Api.csv d) as [text|]; simpl; try reflexivity.
  destruct (truthy text); reflexivity.
Qed.

(** The probe phase: one probe of the active address and, if it fails, the
    switch to the alternative address and one probe of it. *)
Lemma probeBackend_run (w : Api.World) :
  Api.probeBackend env w =
  let h1 := healthRequest (Api.baseURL w) in
  let h2 := healthRequest Api.fallbackURL in
  match Api.respond env (Api.log w) h1 with
  | Api.Resolved _ => (Api.Ok tt, extend w [h1])
  | Api.Rejected _ =>
      match Api.respond env (Api.log w ++ [h1])%list h2 with
      | Api.Resolved _ => (Api.Ok tt, switchTo Api.fallbackURL (extend w [h1; h2]))
      | Api.Rejected _ =>
          (Api.Thrown (Api.Error Api.ProbesFailed),
           switchTo Api.fallbackURL (extend w [h1; h2]))
      end
  end.
Proof.
  unfold Api.probeBackend, Api.tryCatch, Api.bind.
  rewrite testBackendConnection_run.
  destruct (Api.respond env (Api.log w) (healthRequest (Api.baseURL w))) eqn:E1;
    cbv beta iota delta [negb Api.ret]; [reflexivity|].
  cbv beta iota delta [Api.setBaseURL].
  rewrite testBackendConnection_run.
  unfold extend, switchTo. cbn [Api.baseURL Api.log].
  destruct (Api.respond env (Api.log w ++ [healthRequest (Api.baseURL w)])
                        (healthRequest Api.fallbackURL));
    cbn [negb Api.throw Api.healthCatch]; rewrite <- app_assoc; reflexivity.
Qed.

(** One accepted call, step by step: the conversion request, the probe phase,
    then the send and the translation of its failure. *)
Lemma analyzeData_run query arg apiKey data (w : Api.World) :
  accepted query arg apiKey data ->
  Api.analyzeData env query arg apiKey w =
  let c := convertRequest (Api.baseURL w) data in
  let content := chosenContent (Api.respond env (Api.log w) c) (encode data) in
  match Api.probeBackend env (extend w [c]) with
  | (Api.Thrown e, w2) => Api.analyzeCatch env e w2
  | (Api.Ok _, w2) =>
      let a := analyzeRequest (Api.baseURL w2) query apiKey content in
      match Api.respond env (Api.log w2) a with
      | Api.Resolved (Some d) => (Api.Ok d, extend w2 [a])
      | Api.Resolved None => (Api.Thrown (Api.Error Api.Unexpected), extend w2 [a])
      | Api.Rejected e => Api.analyzeCatch env (Api.AxiosErr e) (extend w2 [a])
      end
  end.
Proof.
  intros (Hk & Hq & -> & Hrows).
  destruct data as [hs rs]. cbn [Api.headers Api.rows] in *.
  unfold Api.analyzeData.
  rewrite (truthy_true _ Hk), (truthy_true _ Hq). cbn [negb].
  destruct rs as [|row rs]; [congruence|]. cbn [length Nat.eqb].
  unfold Api.tryCatch at 1. unfold Api.bind at 1.
  rewrite convertToCSV_run.
  cbv zeta. unfold Api.bind at 1.
  destruct (Api.probeBackend env
              (extend w [convertRequest (Api.baseURL w)
                           {| Api.headers := hs; Api.rows := row :: rs |}]))
    as [[[]|e] w2]; [|reflexivity].
  unfold Api.bind, Api.api_post, Api.send.
  fold (analyzeRequest (Api.baseURL w2) query apiKey
          (chosenContent
             (Api.respond env (Api.log w)
                (convertRequest (Api.baseURL w)
                   {| Api.headers := hs; Api.rows := row :: rs |}))
             (encode {| Api.headers := hs; Api.rows := row :: rs |}))).
  match goal with
  | |- context [Api.respond env (Api.log w2) ?a] =>
      destruct (Api.respond env (Api.log w2) a) as [[d|]|e]; reflexivity
  end.
Qed.

Lemma analyzeCatch_plain {A : Type} (message : string) (w : Api.World) :
  @Api.analyzeCatch R env A (Api.Error message) w =
  (Api.Thrown (Api.Error Api.Unexpected), w).
Proof. reflexivity. Qed.

Lemma analyzeCatch_throws {A : Type} (e : Api.Exn) (w : Api.World) :
  exists message,
    @Api.analyzeCatch R env A e w = (Api.Thrown (Api.Error message), w).
Proof.
  destruct e as [e|m]; [|eexists; reflexivity].
  unfold Api.analyzeCatch.
  destruct (negb (Api.onLine env) || Api.codeIs e "ERR_NETWORK");
    [eexists; reflexivity|].
  destruct (Api.codeIs e "ECONNABORTED"); [eexists; reflexivity|].
  destruct (Api.statusMessage (Api.statusOf e)); [eexists; reflexivity|].
  destruct (Api.detailOf e) as [d|]; [|eexists; reflexivity].
  destruct (truthy d); eexists; reflexivity.
Qed.

End ApiFacts.

(** ** Addresses *)

Lemma prefix_append (s t : string) : String.prefix s (s ++ t) = true.
Proof.
  induction s as [|a s IH]; simpl; [destruct t; reflexivity|].
  destruct (ascii_dec a a); [exact IH | congruence].
Qed.

Lemma length_append (s t : string) :
  String.length (s ++ t) = String.length s + String.length t.
Proof. induction s as [|a s IH]; simpl; [reflexivity | now rewrite IH]. Qed.

Lemma endsWith_suffix (s suffix : string) :
  endsWith s suffix = true -> exists p, s = p ++ suffix.
Proof.
  induction s as [|a s IH]; cbn [endsWith].
  - destruct (String.eqb "" suffix) eqn:E; [|discriminate].
    apply String.eqb_eq in E as <-. now exists "".
  - destruct (String.eqb (String a s) suffix) eqn:E.
    + apply String.eqb_eq in E as <-. now exists "".
    + intros H. destruct (IH H) as [p ->]. now exists (String a p).
Qed.

Lemma convert_not_analyze (base p : string) :
  base ++ "/convert-to-csv" <> p ++ "/analyze".
Proof.
  revert p. induction base as [|a base IH]; intros p H.
  - cbn in H.
    do 16 (destruct p as [|? p]; [discriminate|]).
    apply (f_equal String.length) in H. cbn in H.
    rewrite length_append in H. cbn in H. lia.
  - destruct p as [|a' p].
    + apply (f_equal String.length) in H. cbn in H.
      rewrite length_append in H. cbn in H. lia.
    + cbn in H. injection H as _ H. now apply IH in H.
Qed.

Lemma health_not_analyze (base : string) : ~ isAnalyzePost (healthRequest base).
Proof. intros [H _]. discriminate. Qed.

Lemma convert_not_analyzePost {R : JsRuntime} (base : string) (data : Api.FileData) :
  ~ isAnalyzePost (convertRequest base data).
Proof.
  intros [_ H]. apply endsWith_suffix in H as [p H].
  now apply convert_not_analyze in H.
Qed.

(** ** The checks made before any request *)

Section Preconditions.
Context {R : JsRuntime}.


End Preconditions.

(** ** The probe phase and the send *)

Section Calls.
Context {R : JsRuntime}.

(** C1.  When the probe of the active address fails and the probe of the
    alternative address fails too, no request is made to the analysis
    endpoint, but the call does not fail with the message of an unreachable
    back end: the error thrown for the failed probes is not an error of the
    HTTP client, so the outer handler replaces it by the message of an
    unexpected error. *)
Theorem both_probes_fail (env : Api.Env) query arg apiKey data (w : Api.World)
  (e1 e2 : Api.AxiosError) :
  let c := convertRequest (Api.baseURL w) data in
  let h1 := healthRequest (Api.baseURL w) in
  let h2 := healthRequest Api.fallbackURL in
  accepted query arg apiKey data ->
  Api.respond env (Api.log w ++ [c])%list h1 = Api.Rejected e1 ->
  Api.respond env (Api.log w ++ [c; h1])%list h2 = Api.Rejected e2 ->
  Api.analyzeData env query arg apiKey w =
    (Api.Thrown (Api.Error Api.Unexpected),
     switchTo Api.fallbackURL (extend w [c; h1; h2])) /\
  Api.Unexpected <> Api.BackendUnreachable /\
  Api.Unexpected <> Api.ProbesFailed /\
  Forall (fun request => ~ isAnalyzePost request) [c; h1; h2].
Proof.
  intros c h1 h2 Hacc H1 H2.
  split; [|split; [discriminate | split; [discriminate|]]].
  - rewrite (analyzeData_run env _ _ _ _ _ Hacc). cbv zeta.
    rewrite probeBackend_run. cbv zeta.
    flatten_log. fold c h1 h2.
    rewrite H1, H2. now rewrite analyzeCatch_plain.
  - constructor; [apply convert_not_analyzePost|].
    constructor; [apply health_not_analyze|].
    constructor; [apply health_not_analyze | constructor].
Qed.

(** The error table read as the [switch] of the handler followed by its
    fall-back on the [detail] field when that field is truthy. *)
Lemma classifyNonEmpty_table (st : Z) (d : option string) :
  classifyNonEmpty (HttpFailure st d) =
  match Api.statusMessage (Some st) with
  | Some message => message
  | None =>
      match d with
      | Some detail =>
          if truthy detail then Api.ServerMessage detail
          else Api.UnknownFailure (Some st)
      | None => Api.UnknownFailure (Some st)
      end
  end.
Proof.
  assert (Ht : forall detail : string,
             (if String.eqb detail "" then Api.UnknownFailure (Some st)
              else Api.ServerMessage detail) =
             (if truthy detail then Api.ServerMessage detail
              else Api.UnknownFailure (Some st)))
    by (intros [|a detail]; reflexivity).
  unfold classifyNonEmpty, Api.statusMessage.
  destruct st as [|p|p]; try (destruct d; [apply Ht | reflexivity]).
  repeat (match goal with
          | |- context [match ?q with xI _ => _ | xO _ => _ | xH => _ end] =>
              is_var q; destruct q
          end; try reflexivity; try (destruct d; [apply Ht | reflexivity])).
Qed.

(** What the outer handler makes of an error of the HTTP client. *)
Lemma analyzeCatch_classify {A : Type} (env : Api.Env) (e : Api.AxiosError)
  (f : SendFailure) (w : Api.World) :
  Api.onLine env = true ->
  represents e f ->
  @Api.analyzeCatch R env A (Api.AxiosErr e) w =
  (Api.Thrown (Api.Error (classifyNonEmpty f)), w).
Proof.
  intros Hon Hrep. unfold Api.analyzeCatch. rewrite Hon. cbn [negb orb].
  destruct f as [st d| |]; cbn [represents] in Hrep.
  - destruct Hrep as (Hst & Hd & Hn & Ha).
    assert (En : Api.codeIs e "ERR_NETWORK" = false).
    { unfold Api.codeIs. destruct (Api.code e) as [c|] eqn:Ec; [|reflexivity].
      destruct (String.eqb c "ERR_NETWORK") eqn:E; [|reflexivity].
      apply String.eqb_eq in E. subst c. now elim Hn. }
    assert (Ea : Api.codeIs e "ECONNABORTED" = false).
    { unfold Api.codeIs. destruct (Api.code e) as [c|] eqn:Ec; [|reflexivity].
      destruct (String.eqb c "ECONNABORTED") eqn:E; [|reflexivity].
      apply String.eqb_eq in E. subst c. now elim Ha. }
    rewrite En, Ea, Hst, Hd, classifyNonEmpty_table.
    destruct (Api.statusMessage (Some st)) as [m|] eqn:Em; [reflexivity|].
    destruct d as [detail|]; [|reflexivity].
    destruct (truthy detail); reflexivity.
  - destruct Hrep as [Hc _]. unfold Api.codeIs. rewrite Hc. reflexivity.
  - destruct Hrep as [Hc _]. unfold Api.codeIs. rewrite Hc. reflexivity.
Qed.

Lemma analyzeCatch_world {A : Type} (env : Api.Env) (e : Api.Exn) (w : Api.World) :
  snd (@Api.analyzeCatch R env A e w) = w.
Proof. destruct (@analyzeCatch_throws R env A e w) as [m ->]. reflexivity. Qed.

(** The world after an accepted call. *)
Lemma analyzeData_world (env : Api.Env) query arg apiKey data (w : Api.World) :
  accepted query arg apiKey data ->
  snd (Api.analyzeData env query arg apiKey w) =
  {| Api.baseURL := snd (callTrace env query apiKey data w);
     Api.log := (Api.log w ++ fst (callTrace env query apiKey data w))%list |}.
Proof.
  intros Hacc. rewrite (analyzeData_run env _ _ _ _ _ Hacc). cbv zeta.
  rewrite probeBackend_run. cbv zeta. unfold callTrace.
  flatten_log.
  destruct (Api.respond env (Api.log w ++ [convertRequest (Api.baseURL w) data])
              (healthRequest (Api.baseURL w))) as [r1|e1].
  - cbn [Api.baseURL Api.log fst snd].
    match goal with
    | |- context [Api.respond env ?l ?a] =>
        destruct (Api.respond env l a) as [[d|]|e]
    end; rewrite ?analyzeCatch_world; cbn [snd Api.baseURL Api.log];
      rewrite <- ?app_assoc; reflexivity.
  - destruct (Api.respond env
                (Api.log w ++ [convertRequest (Api.baseURL w) data;
                               healthRequest (Api.baseURL w)])
                (healthRequest Api.fallbackURL)) as [r2|e2].
    + cbn [Api.baseURL Api.log fst snd].
      match goal with
      | |- context [Api.respond env ?l ?a] =>
          destruct (Api.respond env l a) as [[d|]|e]
      end; rewrite ?analyzeCatch_world; cbn [snd Api.baseURL Api.log];
        rewrite <- ?app_assoc; reflexivity.
    + rewrite analyzeCatch_world. reflexivity.
Qed.

(** C2.  When the send is rejected while the browser reports being on line,
    the call fails with the message that the error table gives for the
    failure: the eight listed statuses, the network failure, the timeout, the
    detail of the body for another status when that detail is not empty, the
    unknown failure for every other response (no detail, or an empty one).
    When the browser reports being off line, every rejection of the send
    fails as an unreachable back end. *)
Theorem send_failure_mapping (env : Api.Env) query arg apiKey data
  (w w2 : Api.World) (e : Api.AxiosError) :
  let c := convertRequest (Api.baseURL w) data in
  let content := chosenContent (Api.respond env (Api.log w) c) (encode data) in
  let a := analyzeRequest (Api.baseURL w2) query apiKey content in
  accepted query arg apiKey data ->
  Api.probeBackend env (extend w [c]) = (Api.Ok tt, w2) ->
  Api.respond env (Api.log w2) a = Api.Rejected e ->
  (Api.onLine env = true ->
   forall f : SendFailure,
     represents e f ->
     Api.analyzeData env query arg apiKey w =
     (Api.Thrown (Api.Error (classifyNonEmpty f)), extend w2 [a])) /\
  (Api.onLine env = false ->
   Api.analyzeData env query arg apiKey w =
   (Api.Thrown (Api.Error Api.BackendUnreachable), extend w2 [a])).
Proof.
  intros c content a Hacc Hprobe Hsend.
  rewrite (analyzeData_run env _ _ _ _ _ Hacc). cbv zeta.
  fold c. rewrite Hprobe. fold content a. rewrite Hsend.
  split.
  - intros Hon f Hrep. now apply analyzeCatch_classify.
  - intros Hoff. unfold Api.analyzeCatch. now rewrite Hoff.
Qed.

Lemma In_callTrace_form (env : Api.Env) query apiKey data (w : Api.World) r parts :
  In r (fst (callTrace env query apiKey data w)) ->
  Api.body r = Api.FormData parts ->
  r = analyzeRequest (snd (callTrace env query apiKey data w)) query apiKey
        (chosenContent
           (Api.respond env (Api.log w) (convertRequest (Api.baseURL w) data))
           (encode data)).
Proof.
  unfold callTrace.
  destruct (Api.respond env (Api.log w ++ [convertRequest (Api.baseURL w) data])
              (healthRequest (Api.baseURL w))) as [r1|e1];
    [|destruct (Api.respond env
                  (Api.log w ++ [convertRequest (Api.baseURL w) data;
                                 healthRequest (Api.baseURL w)])
                  (healthRequest Api.fallbackURL)) as [r2|e2]];
    cbn [fst snd In]; intros H Hb;
    repeat (destruct H as [<-|H]; [try discriminate Hb; try reflexivity|]);
    contradiction.
Qed.

Lemma probeBackend_callTrace (env : Api.Env) query apiKey data (w w2 : Api.World) :
  Api.probeBackend env (extend w [convertRequest (Api.baseURL w) data]) =
    (Api.Ok tt, w2) ->
  Api.baseURL w2 = snd (callTrace env query apiKey data w) /\
  In (analyzeRequest (Api.baseURL w2) query apiKey
        (chosenContent
           (Api.respond env (Api.log w) (convertRequest (Api.baseURL w) data))
           (encode data)))
     (fst (callTrace env query apiKey data w)).
Proof.
  rewrite probeBackend_run. cbv zeta. unfold callTrace.
  flatten_log.
  destruct (Api.respond env (Api.log w ++ [convertRequest (Api.baseURL w) data])
              (healthRequest (Api.baseURL w))) as [r1|e1];
    [|destruct (Api.respond env
                  (Api.log w ++ [convertRequest (Api.baseURL w) data;
                                 healthRequest (Api.baseURL w)])
                  (healthRequest Api.fallbackURL)) as [r2|e2]];
    intros [= <-]; cbn [fst snd Api.baseURL In]; auto 6.
Qed.

(** C4.  In an accepted call every multipart request carries the three parts
    [query], [api_key] and [file], the file being named [data.csv]; its text
    is the [csv] field returned by the conversion endpoint when that request
    resolves with a non-empty [csv] field, and the output of the local encoder
    on the dataset in every other case.  The local encoder always returns, and
    the multipart request is made as soon as the probe phase succeeds. *)
Theorem file_part_content (env : Api.Env) query arg apiKey data (w : Api.World) :
  accepted query arg apiKey data ->
  let c := convertRequest (Api.baseURL w) data in
  exists local content requests,
    Api.convertToCSVLocal data = Some local /\
    (forall d text,
        Api.respond env (Api.log w) c = Api.Resolved (Some d) ->
        Api.csv d = Some text -> text <> "" -> content = text) /\
    ((forall d text,
         Api.respond env (Api.log w) c = Api.Resolved (Some d) ->
         Api.csv d = Some text -> text = "") -> content = local) /\
    Api.log (snd (Api.analyzeData env query arg apiKey w)) =
      (Api.log w ++ c :: requests)%list /\
    (forall r parts,
        In r requests -> Api.body r = Api.FormData parts ->
        parts = [("query", Api.FormText query);
                 ("api_key", Api.FormText apiKey);
                 ("file", Api.FormBlob content "text/csv" "data.csv")]) /\
    (forall w2,
        Api.probeBackend env (extend w [c]) = (Api.Ok tt, w2) ->
        In (analyzeRequest (Api.baseURL w2) query apiKey content) requests).
Proof.
  intros Hacc c.
  exists (encode data),
         (chosenContent (Api.respond env (Api.log w) c) (encode data)),
         (tl (fst (callTrace env query apiKey data w))).
  assert (Htl : fst (callTrace env query apiKey data w) =
                c :: tl (fst (callTrace env query apiKey data w))).
  { unfold callTrace. fold c.
    repeat match goal with
           | |- context [match ?x with Api.Resolved _ => _ | Api.Rejected _ => _ end] =>
               destruct x
           end; reflexivity. }
  split; [apply convertToCSVLocal_encode|].
  split; [|split; [|split; [|split]]].
  - intros d text Hr Hc Ht. unfold chosenContent. rewrite Hr, Hc.
    now rewrite truthy_true.
  - intros H. unfold chosenContent.
    destruct (Api.respond env (Api.log w) c) as [[d|]|e]; try reflexivity.
    destruct (Api.csv d) as [text|] eqn:Ec; [|reflexivity].
    now rewrite (H d text eq_refl Ec).
  - rewrite (analyzeData_world env _ _ _ _ _ Hacc). cbn [Api.log].
    now rewrite Htl at 1.
  - intros r parts Hin Hb.
    assert (Hin' : In r (fst (callTrace env query apiKey data w)))
      by (rewrite Htl; now right).
    rewrite (In_callTrace_form env _ _ _ _ _ _ Hin' Hb) in Hb.
    cbn in Hb. now injection Hb as <-.
  - intros w2 Hp.
    destruct (probeBackend_callTrace env query apiKey data w w2 Hp) as [_ Hin].
    rewrite Htl in Hin. destruct Hin as [Hc|Hin]; [|exact Hin].
    exfalso. unfold c in Hc. discriminate Hc.
Qed.

Lemma rejected_or_accepted (env : Api.Env) query arg apiKey (w : Api.World) :
  (exists message,
      Api.analyzeData env query arg apiKey w =
      (Api.Thrown (Api.Error message), w)) \/
  (exists data, accepted query arg apiKey data).
Proof.
  unfold Api.analyzeData, accepted.
  destruct (trim apiKey) as [|a1 k] eqn:Ek; [left; eexists; reflexivity|].
  destruct (trim query) as [|a2 q] eqn:Eq; [left; eexists; reflexivity|].
  cbn [truthy negb].
  destruct arg as [[[hs|] [rs|]]|]; try (left; eexists; reflexivity).
  destruct rs as [|row rs]; [left; eexists; reflexivity|].
  right. exists {| Api.headers := hs; Api.rows := row :: rs |}.
  cbn [Api.headers Api.rows]. repeat split; discriminate.
Qed.

Lemma callTrace_fallback (env : Api.Env) query apiKey data (w : Api.World) :
  Api.baseURL w = Api.fallbackURL ->
  snd (callTrace env query apiKey data w) = Api.fallbackURL /\
  Forall (fun r => String.prefix Api.fallbackURL (Api.url r) = true)
         (fst (callTrace env query apiKey data w)).
Proof.
  intros Hb. unfold callTrace. rewrite Hb.
  repeat match goal with
         | |- context [match ?x with Api.Resolved _ => _ | Api.Rejected _ => _ end] =>
             destruct x
         end;
    cbn [fst snd]; (split; [reflexivity|]);
    repeat constructor; apply prefix_append.
Qed.

(** A call made while the alternative address is active addresses all its
    requests to it and leaves it active. *)
Lemma analyzeData_on_fallback (env : Api.Env) query arg apiKey (w : Api.World) :
  Api.baseURL w = Api.fallbackURL ->
  exists requests,
    snd (Api.analyzeData env query arg apiKey w) =
      {| Api.baseURL := Api.fallbackURL;
         Api.log := (Api.log w ++ requests)%list |} /\
    Forall (fun r => String.prefix Api.fallbackURL (Api.url r) = true)
           requests.
Proof.
  intros Hb.
  destruct (rejected_or_accepted env query arg apiKey w)
    as [[m ->]|[data Hacc]].
  - exists []. cbn [snd]. rewrite app_nil_r. split; [|constructor].
    destruct w as [b l]. cbn in Hb. now subst b.
  - exists (fst (callTrace env query apiKey data w)).
    rewrite (analyzeData_world env _ _ _ _ _ Hacc).
    destruct (callTrace_fallback env query apiKey data w Hb) as [-> HF].
    split; [reflexivity | exact HF].
Qed.

(** C9.  When, in an accepted call, the probe of the active address fails and
    the probe of the alternative address succeeds, the send goes to the
    analysis endpoint of the alternative address, the call returns the body
    that this request resolves with, and the alternative address is left as
    the active one.  From a world whose active address is the alternative
    one, every accepted call makes its conversion request and its first probe
    on the alternative address; when that probe is answered, the call makes
    exactly one more request, the send to the analysis endpoint of the
    alternative address, and returns the body that this request resolves
    with.  Whatever the back end answers, and whatever the arguments, every
    request of such a call is addressed to the alternative address, which is
    left active; so it is still active after any sequence of calls, each of
    which is again such a call. *)
Theorem fallback_persists :
  (forall (env : Api.Env) query arg apiKey data (w : Api.World) e1 r2,
      let c := convertRequest (Api.baseURL w) data in
      let h1 := healthRequest (Api.baseURL w) in
      let h2 := healthRequest Api.fallbackURL in
      let content := chosenContent (Api.respond env (Api.log w) c) (encode data) in
      let a := analyzeRequest Api.fallbackURL query apiKey content in
      accepted query arg apiKey data ->
      Api.respond env (Api.log w ++ [c])%list h1 = Api.Rejected e1 ->
      Api.respond env (Api.log w ++ [c; h1])%list h2 = Api.Resolved r2 ->
      snd (Api.analyzeData env query arg apiKey w) =
        switchTo Api.fallbackURL (extend w [c; h1; h2; a]) /\
      (forall d,
          Api.respond env (Api.log w ++ [c; h1; h2])%list a = Api.Resolved (Some d) ->
          fst (Api.analyzeData env query arg apiKey w) = Api.Ok d)) /\
  (forall (env : Api.Env) query arg apiKey data (w : Api.World),
      let c := convertRequest Api.fallbackURL data in
      let h := healthRequest Api.fallbackURL in
      let content := chosenContent (Api.respond env (Api.log w) c) (encode data) in
      let a := analyzeRequest Api.fallbackURL query apiKey content in
      Api.baseURL w = Api.fallbackURL ->
      accepted query arg apiKey data ->
      (exists rest,
          snd (Api.analyzeData env query arg apiKey w) =
            {| Api.baseURL := Api.fallbackURL;
               Api.log := (Api.log w ++ c :: h :: rest)%list |}) /\
      (forall r,
          Api.respond env (Api.log w ++ [c])%list h = Api.Resolved r ->
          snd (Api.analyzeData env query arg apiKey w) =
            {| Api.baseURL := Api.fallbackURL;
               Api.log := (Api.log w ++ [c; h; a])%list |} /\
          (forall d,
              Api.respond env (Api.log w ++ [c; h])%list a = Api.Resolved (Some d) ->
              fst (Api.analyzeData env query arg apiKey w) = Api.Ok d))) /\
  (forall (env : Api.Env) query arg apiKey (w : Api.World),
      Api.baseURL w = Api.fallbackURL ->
      exists requests,
        snd (Api.analyzeData env query arg apiKey w) =
          {| Api.baseURL := Api.fallbackURL;
             Api.log := (Api.log w ++ requests)%list |} /\
        Forall (fun r => String.prefix Api.fallbackURL (Api.url r) = true)
               requests) /\
  (forall (calls : list Call) (w : Api.World),
      Api.baseURL w = Api.fallbackURL ->
      Api.baseURL (afterCalls calls w) = Api.fallbackURL).
Proof.
  split; [|split; [|split]].
  - intros env query arg apiKey data w e1 r2 c h1 h2 content a Hacc H1 H2.
    split.
    + rewrite (analyzeData_world env _ _ _ _ _ Hacc).
      unfold callTrace. fold c h1 h2. rewrite H1, H2. reflexivity.
    + intros d Ha.
      rewrite (analyzeData_run env _ _ _ _ _ Hacc). cbv zeta.
      rewrite probeBackend_run. cbv zeta.
      flatten_log. fold c h1 h2.
      rewrite H1, H2. cbn [Api.baseURL Api.log]. fold content a.
      now rewrite Ha.
  - intros env query arg apiKey data w c h content a Hb Hacc.
    split.
    + rewrite (analyzeData_world env _ _ _ _ _ Hacc).
      unfold callTrace. rewrite Hb. fold c h.
      destruct (Api.respond env (Api.log w ++ [c]) h) as [r1|e1];
        [|destruct (Api.respond env (Api.log w ++ [c; h]) h) as [r2|e2]];
        cbn [fst snd]; eexists; reflexivity.
    + intros r Hr. split.
      * rewrite (analyzeData_world env _ _ _ _ _ Hacc).
        unfold callTrace. rewrite Hb. fold c h. rewrite Hr. reflexivity.
      * intros d Ha.
        rewrite (analyzeData_run env _ _ _ _ _ Hacc). cbv zeta.
        rewrite probeBackend_run. cbv zeta.
        flatten_log. rewrite Hb. fold c h.
        rewrite Hr. cbn [Api.baseURL Api.log]. fold content a.
        now rewrite Ha.
  - intros env query arg apiKey w Hb.
    now apply analyzeData_on_fallback.
  - intros calls. unfold afterCalls.
    induction calls as [|call calls IH]; intros w Hb; [exact Hb|].
    cbn [fold_left]. apply IH.
    destruct (analyzeData_on_fallback (call_env call) (call_query call)
                (call_arg call) (call_apiKey call) w Hb) as (requests & -> & _).
    reflexivity.
Qed.

End Calls.

(** ** The decoder on the text of the encoder *)

Lemma tokenize_comma (mode : Csv.Mode) (rest : string) :
  mode <> Csv.Quoted ->
  Csv.tokenize mode (String comma rest) = Csv.endField (Csv.tokenize Csv.FieldStart rest).
Proof. destruct mode; intros H; try reflexivity; congruence. Qed.

Lemma tokenize_LF (mode : Csv.Mode) (rest : string) :
  mode <> Csv.Quoted ->
  Csv.tokenize mode (String LF rest) = Csv.endRecord (Csv.tokenize Csv.FieldStart rest).
Proof. destruct mode; intros H; try reflexivity; congruence. Qed.

Lemma tokenize_terminal (mode : Csv.Mode) (rest : string) :
  mode <> Csv.Quoted -> terminal rest ->
  Csv.tokenize mode rest = Csv.tokenize Csv.Unquoted rest.
Proof.
  intros Hm Ht. destruct rest as [|a rest].
  - destruct mode; try reflexivity; congruence.
  - destruct Ht as [->| ->].
    + rewrite !tokenize_comma; [reflexivity | discriminate | exact Hm].
    + rewrite !tokenize_LF; [reflexivity | discriminate | exact Hm].
Qed.

Lemma tokenize_plain (mode : Csv.Mode) (a : ascii) (rest : string) :
  mode = Csv.FieldStart \/ mode = Csv.Unquoted ->
  a <> dquote -> a <> comma -> a <> LF -> a <> CR ->
  Csv.tokenize mode (String a rest) = Csv.pushChar a (Csv.tokenize Csv.Unquoted rest).
Proof.
  intros Hm Hq Hc Hl Hr.
  apply Ascii.eqb_neq in Hq, Hc, Hl, Hr.
  cbn [Csv.tokenize]. rewrite Hq, Hc, Hl, Hr. cbn [andb].
  destruct Hm as [-> | ->]; destruct rest; reflexivity.
Qed.

Lemma tokenize_quoted_char (a : ascii) (rest : string) :
  a <> dquote ->
  Csv.tokenize Csv.Quoted (String a rest) =
  Csv.pushChar a (Csv.tokenize Csv.Quoted rest).
Proof.
  intros Hq. apply Ascii.eqb_neq in Hq. cbn [Csv.tokenize]. now rewrite Hq.
Qed.

Lemma tokenize_quoted_quote (rest : string) :
  Csv.tokenize Csv.Quoted (String dquote (String dquote rest)) =
  Csv.pushChar dquote (Csv.tokenize Csv.Quoted rest).
Proof. reflexivity. Qed.

Lemma prepend_pushChar (a : ascii) (s : string) (t : option Csv.Tail) :
  Csv.pushChar a (prepend s t) = prepend (String a s) t.
Proof. destruct t as [[[f fs] rs]|]; reflexivity. Qed.

Lemma prepend_empty (t : option Csv.Tail) : prepend "" t = t.
Proof. destruct t as [[[f fs] rs]|]; reflexivity. Qed.

(** A field written as it is, when it holds no comma, quote or line break. *)
Lemma tokenize_plain_field (s rest : string) :
  (forall a, occurs a s -> a <> dquote /\ a <> comma /\ a <> LF /\ a <> CR) ->
  terminal rest ->
  Csv.tokenize Csv.FieldStart (s ++ rest) = prepend s (Csv.tokenize Csv.Unquoted rest).
Proof.
  intros Hs Ht.
  assert (Hu : Csv.tokenize Csv.Unquoted (s ++ rest) =
               prepend s (Csv.tokenize Csv.Unquoted rest)).
  { induction s as [|a s IH]; cbn [append].
    - now rewrite prepend_empty.
    - destruct (Hs a) as (Hq & Hc & Hl & Hr); [now left|].
      rewrite tokenize_plain by auto.
      rewrite IH, prepend_pushChar; [reflexivity|].
      intros b Hb. apply Hs. now right. }
  destruct s as [|a s]; cbn [append] in *.
  - rewrite prepend_empty. apply tokenize_terminal; [discriminate | exact Ht].
  - destruct (Hs a) as (Hq & Hc & Hl & Hr); [now left|].
    rewrite tokenize_plain in * by auto. exact Hu.
Qed.

(** A field written between quotes. *)
Lemma tokenize_quoted_field (s rest : string) :
  terminal rest ->
  Csv.tokenize Csv.Quoted (doubleQuotes s ++ String dquote rest) =
  prepend s (Csv.tokenize Csv.Unquoted rest).
Proof.
  intros Ht. rewrite <- replaceAll_doubleQuotes.
  induction s as [|a s IH]; cbn [replaceAll append].
  - rewrite prepend_empty.
    change (Csv.tokenize Csv.Quoted (String dquote rest))
      with (Csv.tokenize Csv.QuoteSeen rest).
    apply tokenize_terminal; [discriminate | exact Ht].
  - destruct (Ascii.eqb a dquote) eqn:E.
    + apply Ascii.eqb_eq in E as ->.
      change ((Api.quote ++ Api.quote) ++ replaceAll dquote (Api.quote ++ Api.quote) s)
        with (String dquote (String dquote (replaceAll dquote (Api.quote ++ Api.quote) s))).
      cbn [append]. rewrite tokenize_quoted_quote, IH.
      apply prepend_pushChar.
    + apply Ascii.eqb_neq in E. cbn [append].
      rewrite tokenize_quoted_char by exact E.
      rewrite IH. apply prepend_pushChar.
Qed.

Lemma tokenize_encodeField (s rest : string) :
  noLineBreak s -> terminal rest ->
  Csv.tokenize Csv.FieldStart (encodeField s ++ rest) =
  prepend s (Csv.tokenize Csv.Unquoted rest).
Proof.
  intros Hs Ht. unfold encodeField.
  destruct (includes s "," || includes s Api.quote) eqn:E.
  - unfold quoted. cbn [append]. rewrite append_assoc. cbn [append].
    change (Csv.tokenize Csv.FieldStart
              (String dquote (doubleQuotes s ++ String dquote rest)))
      with (Csv.tokenize Csv.Quoted (doubleQuotes s ++ String dquote rest)).
    now apply tokenize_quoted_field.
  - apply tokenize_plain_field; [|exact Ht].
    intros a Ha. destruct (Hs a Ha) as [Hl Hr].
    repeat split; auto; intros ->;
      assert (Hn : needsQuote s) by (unfold needsQuote; auto);
      apply needsQuote_includes in Hn; congruence.
Qed.

Lemma tokenize_row (ts : list string) (rest : string) :
  ts <> [] -> Forall noLineBreak ts -> terminal rest ->
  Csv.tokenize Csv.FieldStart (line ts ++ rest) =
  withFields ts (Csv.tokenize Csv.Unquoted rest).
Proof.
  intros Hne Hts Ht. unfold line.
  induction ts as [|t ts IH]; [congruence|].
  inversion Hts as [|? ? Hn Hts']; subst.
  destruct ts as [|t' ts].
  - cbn. now apply tokenize_encodeField.
  - change (join "," (map encodeField (t :: t' :: ts)))
      with (encodeField t ++ "," ++ join "," (map encodeField (t' :: ts))).
    rewrite append_assoc.
    change (("," ++ join "," (map encodeField (t' :: ts))) ++ rest)
      with (String comma (join "," (map encodeField (t' :: ts)) ++ rest)).
    rewrite tokenize_encodeField; [|exact Hn|now left].
    rewrite tokenize_comma by discriminate.
    rewrite IH; [reflexivity | discriminate | exact Hts'].
Qed.

Lemma withFields_done (ts : list string) (rs : list (list string)) :
  ts <> [] ->
  withFields ts (Some (EmptyString, [], rs)) = Some (hd "" ts, tl ts, rs).
Proof.
  induction ts as [|t ts IH]; [congruence|]. intros _.
  destruct ts as [|t' ts].
  - cbn. now rewrite append_nil_r.
  - change (withFields (t :: t' :: ts) (Some (EmptyString, [], rs)))
      with (prepend t (Csv.endField (withFields (t' :: ts) (Some (EmptyString, [], rs))))).
    rewrite IH by discriminate. cbn. now rewrite append_nil_r.
Qed.

Lemma tokenize_lines (ts0 : list string) (lines : list (list string)) :
  ts0 <> [] -> Forall noLineBreak ts0 ->
  Forall (fun ts => ts <> [] /\ Forall noLineBreak ts) lines ->
  Csv.tokenize Csv.FieldStart (join Api.newline (map line (ts0 :: lines))) =
  Some (hd "" ts0, tl ts0, lines).
Proof.
  revert ts0. induction lines as [|ts1 lines IH]; intros ts0 Hne H0 Hl.
  - cbn [map join String.concat].
    rewrite <- (append_nil_r (line ts0)).
    rewrite tokenize_row by (cbn; auto).
    now apply withFields_done.
  - inversion Hl as [|? ? [Hne1 H1] Hl']; subst.
    change (join Api.newline (map line (ts0 :: ts1 :: lines)))
      with (line ts0 ++ Api.newline ++ join Api.newline (map line (ts1 :: lines))).
    change (Api.newline ++ join Api.newline (map line (ts1 :: lines)))
      with (String LF (join Api.newline (map line (ts1 :: lines)))).
    rewrite tokenize_row; [|exact Hne|exact H0|now right].
    rewrite tokenize_LF by discriminate.
    rewrite IH by assumption. cbn [Csv.endRecord].
    rewrite withFields_done by exact Hne.
    destruct ts1; [congruence | reflexivity].
Qed.

Lemma parse_lines (lines : list (list string)) :
  lines <> [] ->
  Forall (fun ts => ts <> [] /\ Forall noLineBreak ts) lines ->
  join Api.newline (map line lines) <> "" ->
  Csv.parse (join Api.newline (map line lines)) = Some lines.
Proof.
  intros Hne Hl Htext. destruct lines as [|ts0 lines]; [congruence|].
  inversion Hl as [|? ? [Hne0 H0] Hl']; subst.
  unfold Csv.parse.
  rewrite tokenize_lines by assumption.
  destruct (join Api.newline (map line (ts0 :: lines))); [congruence|].
  destruct ts0; [congruence | reflexivity].
Qed.

Section RoundTrip.
Context {R : JsRuntime}.

Lemma noControl_noLineBreak (s : string) : noControl s -> noLineBreak s.
Proof.
  intros H a Ha. specialize (H a Ha). unfold controlChar in H.
  split; intros ->; apply H; left; cbn; lia.
Qed.

Lemma stringForm_line (L : JsRuntimeLaws R) (cell : JsValue) :
  scalar cell -> (forall s, cell = JsString s -> noControl s) ->
  noLineBreak (stringForm cell).
Proof.
  destruct cell as [ | | b | n | s | d | o]; cbn; intros Hs Hc;
    try contradiction.
  1, 2: intros a [].
  - destruct b; intros a Ha; cbn in Ha;
      repeat (destruct Ha as [<-|Ha]; [split; discriminate|]); contradiction.
  - apply (Number_toString_line R L).
  - apply noControl_noLineBreak. now apply Hc.
Qed.

Lemma stringForm_nonempty (L : JsRuntimeLaws R) (cell : JsValue) :
  scalar cell -> Upload.nonEmptyCell cell = true -> stringForm cell <> "".
Proof.
  destruct cell as [ | | b | n | s | d | o]; cbn; intros Hs Hn;
    try contradiction; try discriminate.
  - destruct b; discriminate.
  - apply (Number_toString_nonempty R L).
  - destruct s; [discriminate Hn | discriminate].
Qed.

Lemma filterRows_strings (texts : list (list string)) :
  Forall (fun ts => exists t, In t ts /\ t <> "") texts ->
  Upload.filterRows (map (map JsString) texts) = map (map JsString) texts.
Proof.
  induction 1 as [|ts texts (t & Hin & Hne) _ IH]; [reflexivity|].
  cbn [map Upload.filterRows filter].
  assert (E : existsb Upload.nonEmptyCell (map JsString ts) = true).
  { apply existsb_exists. exists (JsString t). split; [now apply in_map|].
    destruct t; [congruence | reflexivity]. }
  rewrite E. f_equal. exact IH.
Qed.

Lemma sanitizeRows_strings (texts : list (list string)) :
  Upload.sanitizeRows (map (map JsString) texts) = Some (map (map JsString) texts).
Proof.
  unfold Upload.sanitizeRows.
  induction texts as [|ts texts IH]; [reflexivity|].
  cbn [map mapM]. rewrite IH.
  assert (E : mapM Upload.sanitizeCell (map JsString ts) = Some (map JsString ts)).
  { induction ts as [|t ts IHt]; [reflexivity|]. cbn [map mapM].
    now rewrite IHt. }
  now rewrite E.
Qed.

Lemma encode_lines (data : Api.FileData) :
  Forall (fun h => ~ needsQuote h) (Api.headers data) ->
  encode data = join Api.newline (map line (fieldsOf data)).
Proof.
  intros Hh. unfold encode, fieldsOf. cbn [map]. f_equal. f_equal.
  - unfold line. f_equal. symmetry.
    induction Hh as [|h hs Hq _ IH]; [reflexivity|].
    cbn [map]. now rewrite IH, encodeField_plain.
  - rewrite map_map. apply map_ext. intros row. unfold line.
    now rewrite map_map.
Qed.

(** C6.  Take a dataset with at least one header, whose headers hold no
    comma, no double quote and no control character, whose cells are scalars
    with no control character in the string cells, in which no row is
    all-empty, and whose encoded text is not empty.  Decoding that text as a
    CSV file yields a dataset with the same headers, as many rows, and in
    every cell the string form of the cell that was encoded. *)
Theorem csv_round_trip (L : JsRuntimeLaws R) (data : Api.FileData) (name : string) :
  endsWith name ".csv" = true ->
  Api.headers data <> [] ->
  Forall (fun h => noControl h /\ ~ needsQuote h) (Api.headers data) ->
  Forall (fun row => ~ allEmpty row) (Api.rows data) ->
  Forall (Forall (fun cell => scalar cell /\
                              forall s, cell = JsString s -> noControl s))
         (Api.rows data) ->
  encode data <> "" ->
  exists text,
    Api.convertToCSVLocal data = Some text /\
    Upload.processFile (Csv.file name text) =
    Upload.Uploaded
      {| Upload.headers := map JsString (Api.headers data);
         Upload.rows :=
           map (map (fun cell => JsString (stringForm cell))) (Api.rows data) |}
      {| Upload.stat_rows := length (Api.rows data);
         Upload.stat_columns := length (Api.headers data) |}.
Proof.
  intros Hname Hne Hh Hrows Hcells Htext.
  exists (encode data). split; [apply convertToCSVLocal_encode|].
  assert (Hplain : Forall (fun h => ~ needsQuote h) (Api.headers data)).
  { eapply Forall_impl; [|exact Hh]. now intros h [_ H]. }
  assert (Hline : Forall noLineBreak (Api.headers data)).
  { eapply Forall_impl; [|exact Hh].
    intros h [H _]. now apply noControl_noLineBreak. }
  assert (Hparse : Csv.parse (encode data) = Some (fieldsOf data)).
  { rewrite (encode_lines data Hplain) in *.
    apply parse_lines; [discriminate| |exact Htext].
    unfold fieldsOf. constructor; [now split|].
    apply Forall_forall. intros ts Hin.
    apply in_map_iff in Hin as (row & <- & Hin).
    rewrite Forall_forall in Hrows, Hcells.
    specialize (Hrows row Hin). specialize (Hcells row Hin).
    split.
    - destruct row; [|discriminate]. exfalso. apply Hrows. constructor.
    - apply Forall_forall. intros t Ht.
      apply in_map_iff in Ht as (cell & <- & Hc).
      rewrite Forall_forall in Hcells.
      destruct (Hcells cell Hc) as [Hs Hn]. now apply stringForm_line. }
  unfold Upload.processFile, Csv.file. cbn [Upload.name Upload.papa_parse].
  rewrite Hname. unfold Csv.decode. rewrite Hparse.
  unfold fieldsOf. cbn [map Upload.buildFileData].
  rewrite filterRows_strings, sanitizeRows_strings.
  - rewrite !map_map, !length_map.
    rewrite (map_ext (fun row => map JsString (map stringForm row))
                     (map (fun cell => JsString (stringForm cell))))
      by (intros row; apply map_map).
    reflexivity.
  - apply Forall_forall. intros ts Hin.
    apply in_map_iff in Hin as (row & <- & Hin).
    rewrite Forall_forall in Hrows, Hcells.
    specialize (Hrows row Hin). specialize (Hcells row Hin).
    destruct (existsb Upload.nonEmptyCell row) eqn:E.
    + apply existsb_exists in E as (cell & Hc & Hn).
      exists (stringForm cell). split; [now apply in_map|].
      rewrite Forall_forall in Hcells.
      apply stringForm_nonempty; [exact L | now apply Hcells | exact Hn].
    + apply some_nonEmpty_false in E. contradiction.
Qed.

End RoundTrip.

(** * Examples *)

(** ** The sample run time obeys the laws *)

Lemma uint_line (d : Decimal.uint) :
  noLineBreak (DecimalString.NilEmpty.string_of_uint d).
Proof.
  induction d; cbn; intros a Ha; try contradiction;
    destruct Ha as [<-|Ha]; auto; split; discriminate.
Qed.

Lemma decimal_line (n : Z) : noLineBreak (Api.decimal n).
Proof.
  unfold Api.decimal, DecimalString.NilZero.string_of_int.
  assert (H : forall d, noLineBreak (DecimalString.NilZero.string_of_uint d)).
  { intros d. destruct d; try apply uint_line.
    intros a [<-|[]]. split; discriminate. }
  destruct (Z.to_int n) as [d|d]; [apply H|].
  intros a [<-|Ha]; [split; discriminate | now apply (H d)].
Qed.

Lemma decimal_nonempty (n : Z) : Api.decimal n <> "".
Proof.
  unfold Api.decimal, DecimalString.NilZero.string_of_int.
  destruct (Z.to_int n) as [d|d]; [|discriminate].
  destruct d; discriminate.
Qed.

Lemma sampleRuntime_laws : JsRuntimeLaws sampleRuntime.
Proof.
  constructor.
  - exact decimal_nonempty.
  - exact decimal_line.
  - intros [|] s; cbn; [intros [= <-]; discriminate | discriminate].
  - intros o. discriminate.
Qed.

(** ** The tokenizer and the encoder on the scenario of the spec *)

Example scenario_parse :
  Upload.processFile
    (Csv.file "data.csv"
       ("name,value" ++ String LF ("A,1" ++ String LF ("B,2" ++ String LF ("," ++ String LF ""))))) =
  Upload.Uploaded
    {| Upload.headers := [JsString "name"; JsString "value"];
       Upload.rows := [[JsString "A"; JsString "1"]; [JsString "B"; JsString "2"]] |}
    {| Upload.stat_rows := 2; Upload.stat_columns := 2 |}.
Proof. reflexivity. Qed.

Example scenario_encode :
  Api.convertToCSVLocal
    {| Api.headers := ["name"; "value"];
       Api.rows := [[JsString "A"; JsString "1"]; [JsString "B"; JsString "2"]] |} =
  Some ("name,value" ++ String LF ("A,1" ++ String LF "B,2")).
Proof. reflexivity. Qed.

Lemma sample_accepted : accepted "q" sampleArg "k" sampleData.
Proof. repeat split; discriminate. Defined.

(** ** C1 *)

Lemma both_probes_fail_witness :
  accepted "q" sampleArg "k" sampleData /\
  Api.analyzeData envDown "q" sampleArg "k" Api.initialWorld =
  (Api.Thrown (Api.Error Api.Unexpected),
   {| Api.baseURL := Api.fallbackURL;
      Api.log := [convertRequest Api.primaryURL sampleData;
                  healthRequest Api.primaryURL;
                  healthRequest Api.fallbackURL] |}).
Proof.
  split; [exact sample_accepted|].
  exact (proj1 (both_probes_fail envDown "q" sampleArg "k" sampleData
                  Api.initialWorld networkError networkError
                  sample_accepted eq_refl eq_refl)).
Defined.

(** ** C3 *)



(** ** C2 *)

Lemma send_failure_mapping_witness :
  Api.analyzeData (envRejecting true (httpError 401 None)) "q" sampleArg "k"
                  Api.initialWorld =
  (Api.Thrown (Api.Error Api.InvalidCredential),
   {| Api.baseURL := Api.primaryURL;
      Api.log := [convertRequest Api.primaryURL sampleData;
                  healthRequest Api.primaryURL;
                  analyzeRequest Api.primaryURL "q" "k" ("a" ++ String LF "x")] |}) /\
  Api.analyzeData (envRejecting false (httpError 401 None)) "q" sampleArg "k"
                  Api.initialWorld =
  (Api.Thrown (Api.Error Api.BackendUnreachable),
   {| Api.baseURL := Api.primaryURL;
      Api.log := [convertRequest Api.primaryURL sampleData;
                  healthRequest Api.primaryURL;
                  analyzeRequest Api.primaryURL "q" "k" ("a" ++ String LF "x")] |}) /\
  Api.analyzeData (envRejecting true (httpError 422 (Some ""))) "q" sampleArg "k"
                  Api.initialWorld =
  (Api.Thrown (Api.Error (Api.UnknownFailure (Some 422%Z))),
   {| Api.baseURL := Api.primaryURL;
      Api.log := [convertRequest Api.primaryURL sampleData;
                  healthRequest Api.primaryURL;
                  analyzeRequest Api.primaryURL "q" "k" ("a" ++ String LF "x")] |}) /\
  Api.analyzeData (envRejecting true (httpError 422 (Some "bad column"))) "q"
                  sampleArg "k" Api.initialWorld =
  (Api.Thrown (Api.Error (Api.ServerMessage "bad column")),
   {| Api.baseURL := Api.primaryURL;
      Api.log := [convertRequest Api.primaryURL sampleData;
                  healthRequest Api.primaryURL;
                  analyzeRequest Api.primaryURL "q" "k" ("a" ++ String LF "x")] |}).
Proof.
  split; [|split; [|split]].
  - refine (proj1 (send_failure_mapping (envRejecting true (httpError 401 None))
                     "q" sampleArg "k" sampleData Api.initialWorld
                     {| Api.baseURL := Api.primaryURL;
                        Api.log := [convertRequest Api.primaryURL sampleData;
                                    healthRequest Api.primaryURL] |}
                     (httpError 401 None) sample_accepted eq_refl eq_refl)
                  eq_refl (HttpFailure 401 None) _).
    cbn. repeat split; discriminate.
  - exact (proj2 (send_failure_mapping (envRejecting false (httpError 401 None))
                    "q" sampleArg "k" sampleData Api.initialWorld
                    {| Api.baseURL := Api.primaryURL;
                       Api.log := [convertRequest Api.primaryURL sampleData;
                                   healthRequest Api.primaryURL] |}
                    (httpError 401 None) sample_accepted eq_refl eq_refl)
                 eq_refl).
  - refine (proj1 (send_failure_mapping
                     (envRejecting true (httpError 422 (Some EmptyString)))
                     "q" sampleArg "k" sampleData Api.initialWorld
                     {| Api.baseURL := Api.primaryURL;
                        Api.log := [convertRequest Api.primaryURL sampleData;
                                    healthRequest Api.primaryURL] |}
                     (httpError 422 (Some EmptyString)) sample_accepted eq_refl eq_refl)
                  eq_refl (HttpFailure 422 (Some EmptyString)) _).
    cbn. repeat split; discriminate.
  - refine (proj1 (send_failure_mapping
                     (envRejecting true (httpError 422 (Some "bad column")))
                     "q" sampleArg "k" sampleData Api.initialWorld
                     {| Api.baseURL := Api.primaryURL;
                        Api.log := [convertRequest Api.primaryURL sampleData;
                                    healthRequest Api.primaryURL] |}
                     (httpError 422 (Some "bad column")) sample_accepted eq_refl eq_refl)
                  eq_refl (HttpFailure 422 (Some "bad column")) _).
    cbn. repeat split; discriminate.
Defined.

(** Off line, a response with status 401 is reported as an unreachable back
    end, not as an invalid credential; on line, a response with status 422
    whose body has an empty [detail] field is reported as an unknown failure,
    not as a server message. *)
Lemma status_mapping_counterexample :
  fst (Api.analyzeData (envRejecting false (httpError 401 None)) "q" sampleArg "k"
                       Api.initialWorld) =
    Api.Thrown (Api.Error Api.BackendUnreachable) /\
  represents (httpError 401 None) (HttpFailure 401 None) /\
  classify (HttpFailure 401 None) = Api.InvalidCredential /\
  Api.BackendUnreachable <> Api.InvalidCredential /\
  fst (Api.analyzeData (envRejecting true (httpError 422 (Some ""))) "q" sampleArg "k"
                       Api.initialWorld) =
    Api.Thrown (Api.Error (Api.UnknownFailure (Some 422%Z))) /\
  represents (httpError 422 (Some "")) (HttpFailure 422 (Some "")) /\
  classify (HttpFailure 422 (Some "")) = Api.ServerMessage "" /\
  Api.UnknownFailure (Some 422%Z) <> Api.ServerMessage "".
Proof.
  repeat split; try reflexivity; discriminate.
Qed.

(** ** C4 *)

Lemma file_part_content_witness :
  accepted "q" sampleArg "k" sampleData /\
  exists content,
    content = "zzz" /\
    In (analyzeRequest Api.primaryURL "q" "k" content)
       (Api.log (snd (Api.analyzeData envConvert "q" sampleArg "k" Api.initialWorld))).
Proof.
  split; [exact sample_accepted|].
  destruct (file_part_content envConvert "q" sampleArg "k" sampleData
              Api.initialWorld sample_accepted)
    as (local & content & requests & _ & Hcsv & _ & Hlog & _ & Hsend).
  exists content. split.
  - exact (Hcsv _ "zzz" eq_refl eq_refl ltac:(discriminate)).
  - rewrite Hlog. apply in_or_app. right. right.
    exact (Hsend {| Api.baseURL := Api.primaryURL;
                    Api.log := [convertRequest Api.primaryURL sampleData;
                                healthRequest Api.primaryURL] |} eq_refl).
Defined.

(** When the conversion endpoint answers with a text of its own, that text is
    the file part of the request, not the output of the local encoder. *)
Lemma file_part_counterexample :
  In (analyzeRequest Api.primaryURL "q" "k" "zzz")
     (Api.log (snd (Api.analyzeData envConvert "q" sampleArg "k" Api.initialWorld))) /\
  Api.convertToCSVLocal sampleData = Some ("a" ++ String LF "x") /\
  "zzz" <> "a" ++ String LF "x".
Proof.
  split; [|split; [reflexivity | discriminate]].
  cbn. right. right. left. reflexivity.
Qed.

(** ** C9 *)

Lemma fallback_persists_witness :
  let first := Api.analyzeData envFallback "q" sampleArg "k" Api.initialWorld in
  let w1 :=
    {| Api.baseURL := Api.fallbackURL;
       Api.log := [convertRequest Api.primaryURL sampleData;
                   healthRequest Api.primaryURL;
                   healthRequest Api.fallbackURL;
                   analyzeRequest Api.fallbackURL "q" "k" ("a" ++ String LF "x")] |} in
  let second := Api.analyzeData envFallback "q" sampleArg "k" w1 in
  fst first = Api.Ok sampleAnswer /\
  snd first = w1 /\
  fst second = Api.Ok sampleAnswer /\
  snd second =
    {| Api.baseURL := Api.fallbackURL;
       Api.log :=
         (Api.log w1 ++
          [convertRequest Api.fallbackURL sampleData;
           healthRequest Api.fallbackURL;
           analyzeRequest Api.fallbackURL "q" "k" ("a" ++ String LF "x")])%list |} /\
  exists requests,
    snd (Api.analyzeData envDown "q" sampleArg "k" w1) =
      {| Api.baseURL := Api.fallbackURL;
         Api.log := (Api.log w1 ++ requests)%list |} /\
    Forall (fun r => String.prefix Api.fallbackURL (Api.url r) = true) requests.
Proof.
  cbv zeta.
  destruct (proj1 fallback_persists envFallback "q" sampleArg "k" sampleData
              Api.initialWorld networkError None sample_accepted eq_refl eq_refl)
    as [Hworld Hresult].
  destruct (proj2 (proj1 (proj2 fallback_persists) envFallback "q" sampleArg "k"
                     sampleData
                     {| Api.baseURL := Api.fallbackURL;
                        Api.log := [convertRequest Api.primaryURL sampleData;
                                    healthRequest Api.primaryURL;
                                    healthRequest Api.fallbackURL;
                                    analyzeRequest Api.fallbackURL "q" "k"
                                      ("a" ++ String LF "x")] |}
                     eq_refl sample_accepted)
                  None eq_refl)
    as [Hworld2 Hresult2].
  split; [exact (Hresult sampleAnswer eq_refl)|].
  split; [exact Hworld|].
  split; [exact (Hresult2 sampleAnswer eq_refl)|].
  split; [exact Hworld2|].
  apply (proj1 (proj2 (proj2 fallback_persists))). reflexivity.
Defined.

(** ** C8 and C10 *)

Lemma empty_rows_elided_witness :
  Upload.processFile sampleBook =
    Upload.Uploaded
      {| Upload.headers := [JsNull; JsString ""];
         Upload.rows := [[JsString "x"; JsString "{}"];
                         [JsNumber 7%Z; JsString ""]] |}
      {| Upload.stat_rows := 2; Upload.stat_columns := 2 |} /\
  exists hdr dataRows kept,
    tokenized sampleBook (hdr :: dataRows) /\
    Elided dataRows kept /\
    Upload.sanitizeRows kept =
      Some [[JsString "x"; JsString "{}"]; [JsNumber 7%Z; JsString ""]] /\
    Forall (fun row => ~ allEmpty row)
           [[JsString "x"; JsString "{}"]; [JsNumber 7%Z; JsString ""]].
Proof.
  split; [reflexivity|].
  exact (empty_rows_elided sampleRuntime_laws sampleBook _ _ eq_refl).
Defined.

Lemma headers_verbatim_witness :
  (exists hdr dataRows,
      tokenized sampleBook (hdr :: dataRows) /\
      [JsNull; JsString ""] = hdr /\ 2 = length hdr) /\
  (exists hdr dataRows,
      tokenized sampleBookDate (hdr :: dataRows) /\
      [JsDate false] = hdr /\ 1 = length hdr).
Proof.
  split.
  - exact (headers_verbatim sampleBook _ _ eq_refl).
  - exact (headers_verbatim sampleBookDate _ _ eq_refl).
Defined.

(** ** C6 *)

Lemma printable (s : string) :
  forallb (fun a => Nat.leb 32 (nat_of_ascii a) &&
                    (Nat.ltb (nat_of_ascii a) 127 || Nat.leb 160 (nat_of_ascii a)))
          (list_ascii_of_string s) = true ->
  noControl s.
Proof.
  intros H a Ha. rewrite forallb_forall in H. specialize (H a Ha).
  apply andb_true_iff in H as [H1 H2]. apply orb_true_iff in H2.
  apply Nat.leb_le in H1. unfold controlChar.
  destruct H2 as [H2|H2]; [apply Nat.ltb_lt in H2 | apply Nat.leb_le in H2]; lia.
Qed.

Lemma plain (s : string) :
  includes s "," || includes s Api.quote = false -> ~ needsQuote s.
Proof. intros H Hn. apply needsQuote_includes in Hn. congruence. Qed.

Lemma nonEmptyRow (row : list JsValue) :
  existsb Upload.nonEmptyCell row = true -> ~ allEmpty row.
Proof. intros H Hn. apply some_nonEmpty_false in Hn. congruence. Qed.

Lemma sampleTable_headers :
  Forall (fun h => noControl h /\ ~ needsQuote h) (Api.headers sampleTable).
Proof. repeat constructor; (now apply printable) || (now apply plain). Qed.

Lemma sampleTable_rows :
  Forall (fun row => ~ allEmpty row) (Api.rows sampleTable).
Proof. repeat constructor; now apply nonEmptyRow. Qed.

Lemma sampleTable_cells :
  Forall (Forall (fun cell => scalar cell /\
                              forall s, cell = JsString s -> noControl s))
         (Api.rows sampleTable).
Proof.
  repeat constructor; intros s [= <-] || intros s [=]; now apply printable.
Qed.

Lemma csv_round_trip_witness :
  exists text,
    Api.convertToCSVLocal sampleTable = Some text /\
    Upload.processFile (Csv.file "data.csv" text) =
    Upload.Uploaded
      {| Upload.headers := [JsString "name"; JsString "note"];
         Upload.rows := [[JsString "A"; JsString "1"];
                         [JsString ("a,b" ++ String dquote "c"); JsString ""];
                         [JsString "true"; JsString ""]] |}
      {| Upload.stat_rows := 3; Upload.stat_columns := 2 |}.
Proof.
  exact (csv_round_trip sampleRuntime_laws sampleTable "data.csv" eq_refl
           ltac:(discriminate) sampleTable_headers sampleTable_rows
           sampleTable_cells ltac:(discriminate)).
Defined.

(** The round trip fails on datasets of scalar cells without control
    characters: a row whose only cell is the empty string is lost; a header
    with a comma comes back as two headers; an empty list of headers comes
    back as one empty header; and the dataset whose text is empty is not
    uploaded at all. *)
Lemma csv_round_trip_counterexample :
  (Api.convertToCSVLocal {| Api.headers := ["a"]; Api.rows := [[JsString ""]] |} =
     Some ("a" ++ String LF "") /\
   Upload.processFile (Csv.file "data.csv" ("a" ++ String LF "")) =
     Upload.Uploaded {| Upload.headers := [JsString "a"]; Upload.rows := [] |}
                     {| Upload.stat_rows := 0; Upload.stat_columns := 1 |}) /\
  (Api.convertToCSVLocal {| Api.headers := ["a,b"]; Api.rows := [[JsString "x"]] |} =
     Some ("a,b" ++ String LF "x") /\
   Upload.processFile (Csv.file "data.csv" ("a,b" ++ String LF "x")) =
     Upload.Uploaded {| Upload.headers := [JsString "a"; JsString "b"];
                        Upload.rows := [[JsString "x"]] |}
                     {| Upload.stat_rows := 1; Upload.stat_columns := 2 |}) /\
  (Api.convertToCSVLocal {| Api.headers := []; Api.rows := [[JsString "x"]] |} =
     Some (String LF "x") /\
   Upload.processFile (Csv.file "data.csv" (String LF "x")) =
     Upload.Uploaded {| Upload.headers := [JsString ""];
                        Upload.rows := [[JsString "x"]] |}
                     {| Upload.stat_rows := 1; Upload.stat_columns := 1 |}) /\
  (Api.convertToCSVLocal {| Api.headers := [""]; Api.rows := [] |} = Some "" /\
   Upload.processFile (Csv.file "data.csv" "") = Upload.UncaughtException).
Proof. repeat split. Qed.

(** * Further properties *)

(** ** The service, beyond the claims *)

Section ServiceFacts.
Context {R : JsRuntime}.

Lemma analyzeCatch_surfaced {A : Type} (env : Api.Env) (e : Api.Exn) (w : Api.World) :
  exists message,
    @Api.analyzeCatch R env A e w = (Api.Thrown (Api.Error message), w) /\
    surfaced message.
Proof.
  unfold surfaced, fixedMessages.
  destruct e as [e|m]; [|eexists; split; [reflexivity|]; left; cbn; tauto].
  unfold Api.analyzeCatch.
  destruct (negb (Api.onLine env) || Api.codeIs e "ERR_NETWORK");
    [eexists; split; [reflexivity|]; left; cbn; tauto|].
  destruct (Api.codeIs e "ECONNABORTED");
    [eexists; split; [reflexivity|]; left; cbn; tauto|].
  destruct (Api.statusMessage (Api.statusOf e)) as [m|] eqn:Em.
  - exists m. split; [reflexivity|]. left.
    unfold Api.statusMessage in Em.
    destruct (Api.statusOf e) as [st|]; [|discriminate].
    destruct st as [|p|p]; try discriminate.
    repeat (match type of Em with
            | context [match ?q with xI _ => _ | xO _ => _ | xH => _ end] =>
                is_var q; destruct q
            end; try discriminate);
      injection Em as <-; cbn; tauto.
  - destruct (Api.detailOf e) as [d|];
      [|eexists; split; [reflexivity|]; right; right; eauto].
    destruct d as [|a d]; cbn [truthy].
    + eexists; split; [reflexivity|]; right; right; eauto.
    + eexists; split; [reflexivity|]. right. left.
      exists (String a d). split; [discriminate | reflexivity].
Qed.

(** X1.  Whatever the back end does, a call of [analyzeData] ends with a
    response body or with a plain error carrying one of the messages of the
    service; an error of the HTTP client never reaches the caller, and neither
    do the messages of the failed probes and of the empty response. *)
Theorem analyzeData_classified (env : Api.Env) query arg apiKey (w : Api.World) :
  (exists d, fst (Api.analyzeData env query arg apiKey w) = Api.Ok d) \/
  (exists message,
      fst (Api.analyzeData env query arg apiKey w) =
        Api.Thrown (Api.Error message) /\
      surfaced message /\
      message <> Api.ProbesFailed /\ message <> Api.EmptyResponse).
Proof.
  assert (Hs : forall m, surfaced m ->
                         m <> Api.ProbesFailed /\ m <> Api.EmptyResponse).
  { intros m [Hin|[(d & _ & ->)|[st ->]]].
    - cbn in Hin.
      repeat (destruct Hin as [<-|Hin]; [split; discriminate|]). contradiction.
    - split; discriminate.
    - split; discriminate. }
  assert (Hfixed : forall m, In m fixedMessages -> surfaced m) by (now left).
  destruct (trim apiKey) as [|a1 k1] eqn:Ek.
  { right. exists Api.MissingCredential. unfold Api.analyzeData. rewrite Ek.
    split; [reflexivity|]. split; [|apply Hs]; apply Hfixed; cbn; tauto. }
  destruct (trim query) as [|a2 q1] eqn:Eq.
  { right. exists Api.MissingQuery. unfold Api.analyzeData. rewrite Ek, Eq.
    split; [reflexivity|]. split; [|apply Hs]; apply Hfixed; cbn; tauto. }
  assert (Hinv : forall arg',
             (arg' = None \/
              exists d, arg' = Some d /\
                        (Api.arg_headers d = None \/ Api.arg_rows d = None \/
                         Api.arg_rows d = Some [])) ->
             fst (Api.analyzeData env query arg' apiKey w) =
             Api.Thrown (Api.Error Api.InvalidDataset)).
  { intros arg' H. unfold Api.analyzeData. rewrite Ek, Eq. cbn [truthy negb].
    destruct H as [->|(d & -> & H)]; [reflexivity|].
    destruct d as [[hs|] [rs|]]; cbn in H; try reflexivity.
    destruct H as [H|[H|H]]; try discriminate. injection H as ->. reflexivity. }
  assert (Hbad : forall arg',
             (arg' = None \/
              exists d, arg' = Some d /\
                        (Api.arg_headers d = None \/ Api.arg_rows d = None \/
                         Api.arg_rows d = Some [])) ->
             exists message,
               fst (Api.analyzeData env query arg' apiKey w) =
                 Api.Thrown (Api.Error message) /\
               surfaced message /\
               message <> Api.ProbesFailed /\ message <> Api.EmptyResponse).
  { intros arg' H. exists Api.InvalidDataset.
    split; [now apply Hinv|]. split; [|apply Hs]; apply Hfixed; cbn; tauto. }
  destruct arg as [[[hs|] [rs|]]|];
    try (right; apply Hbad; (now left) || (right; eexists; split; [reflexivity|]; cbn; tauto)).
  destruct rs as [|row rs].
  { right; apply Hbad. right; eexists; split; [reflexivity|]; cbn; tauto. }
  assert (Hacc : accepted query
                   (Some {| Api.arg_headers := Some hs; Api.arg_rows := Some (row :: rs) |})
                   apiKey {| Api.headers := hs; Api.rows := row :: rs |}).
  { unfold accepted. rewrite Ek, Eq. cbn. repeat split; discriminate. }
  rewrite (analyzeData_run env _ _ _ _ _ Hacc). cbv zeta.
  destruct (Api.probeBackend env _) as [[[]|e] w2] eqn:Ep.
  - match goal with
    | |- context [Api.respond env (Api.log w2) ?a] =>
        destruct (Api.respond env (Api.log w2) a) as [[d|]|e]
    end.
    + left. now exists d.
    + right. exists Api.Unexpected. split; [reflexivity|].
      split; [|apply Hs]; apply Hfixed; cbn; tauto.
    + right. match goal with
             | |- context [Api.analyzeCatch env ?x ?y] =>
                 destruct (@analyzeCatch_surfaced Api.ResponseData env x y)
                   as (m & -> & Hm)
             end.
      exists m. split; [reflexivity|]. split; [exact Hm | now apply Hs].
  - right. destruct (@analyzeCatch_surfaced Api.ResponseData env e w2)
      as (m & -> & Hm).
    exists m. split; [reflexivity|]. split; [exact Hm | now apply Hs].
Qed.

(** X2.  An accepted call makes its requests in a fixed order and never
    repeats the send: the conversion request, one probe of the active address,
    a probe of the alternative address exactly when the first is rejected, and
    one POST to the analysis endpoint exactly when a probe is answered, on
    the address of that probe. *)
Theorem analyzeData_requests (env : Api.Env) query arg apiKey data (w : Api.World) :
  accepted query arg apiKey data ->
  let c := convertRequest (Api.baseURL w) data in
  let h1 := healthRequest (Api.baseURL w) in
  let h2 := healthRequest Api.fallbackURL in
  let first := Api.respond env (Api.log w ++ [c])%list h1 in
  let second := Api.respond env (Api.log w ++ [c; h1])%list h2 in
  exists content requests,
    Api.log (snd (Api.analyzeData env query arg apiKey w)) =
      (Api.log w ++ requests)%list /\
    (((exists r, first = Api.Resolved r) /\
      requests = [c; h1; analyzeRequest (Api.baseURL w) query apiKey content]) \/
     ((exists e, first = Api.Rejected e) /\ (exists r, second = Api.Resolved r) /\
      requests = [c; h1; h2; analyzeRequest Api.fallbackURL query apiKey content]) \/
     ((exists e, first = Api.Rejected e) /\ (exists e, second = Api.Rejected e) /\
      requests = [c; h1; h2])).
Proof.
  intros Hacc c h1 h2 first second.
  exists (chosenContent (Api.respond env (Api.log w) c) (encode data)),
         (fst (callTrace env query apiKey data w)).
  rewrite (analyzeData_world env _ _ _ _ _ Hacc). cbn [Api.log].
  split; [reflexivity|].
  unfold callTrace. fold c h1 h2. fold first second.
  destruct first as [r1|e1]; [left; split; [now exists r1 | reflexivity]|].
  right. destruct second as [r2|e2]; [left | right].
  - split; [now exists e1|]. split; [now exists r2 | reflexivity].
  - split; [now exists e1|]. split; [now exists e2 | reflexivity].
Qed.

(** X3.  After a successful probe phase, a send that resolves with a body
    makes the call return that body, and a send that resolves without a body
    makes the call fail with the message of an unexpected error: the message
    of the empty response is thrown inside the [try] block and replaced by
    its handler. *)
Theorem send_resolved (env : Api.Env) query arg apiKey data (w w2 : Api.World) :
  let c := convertRequest (Api.baseURL w) data in
  let content := chosenContent (Api.respond env (Api.log w) c) (encode data) in
  let a := analyzeRequest (Api.baseURL w2) query apiKey content in
  accepted query arg apiKey data ->
  Api.probeBackend env (extend w [c]) = (Api.Ok tt, w2) ->
  (forall d, Api.respond env (Api.log w2) a = Api.Resolved (Some d) ->
             Api.analyzeData env query arg apiKey w = (Api.Ok d, extend w2 [a])) /\
  (Api.respond env (Api.log w2) a = Api.Resolved None ->
   Api.analyzeData env query arg apiKey w =
   (Api.Thrown (Api.Error Api.Unexpected), extend w2 [a])).
Proof.
  intros c content a Hacc Hprobe.
  rewrite (analyzeData_run env _ _ _ _ _ Hacc). cbv zeta.
  fold c. rewrite Hprobe. fold content a.
  split; [intros d Hr | intros Hr]; now rewrite Hr.
Qed.

Lemma deepseek_nonblank (env : Api.Env) query arg apiKey (w : Api.World) :
  trim apiKey <> "" ->
  Deepseek.analyzeDataWithDeepseek env query arg apiKey w =
  Api.analyzeData env query arg apiKey w.
Proof.
  intros Hk. unfold Deepseek.analyzeDataWithDeepseek.
  unfold Api.analyzeData at 2.
  rewrite (truthy_true _ Hk). cbn [negb].
  destruct (truthy (trim query)) eqn:Eq; cbn [negb]; [|reflexivity].
  destruct arg as [[[hs|] [rs|]]|]; try reflexivity.
  destruct rs as [|row rs]; [reflexivity|]. cbn [length Nat.eqb].
  unfold Api.tryCatch at 1.
  destruct (Api.analyzeData env query
              (Some {| Api.arg_headers := Some hs; Api.arg_rows := Some (row :: rs) |})
              apiKey w) as [[d|e] w'] eqn:E;
    unfold Api.analyzeData in E; rewrite (truthy_true _ Hk), Eq in E;
    cbn [negb length Nat.eqb] in E; now rewrite E.
Qed.

(** X4.  [analyzeDataWithDeepseek] adds nothing to [analyzeData] but the
    wording of the first check: with a blank key it fails with its own
    message before any request, and with any other key it behaves exactly as
    [analyzeData], results, errors and requests alike. *)
Theorem deepseek_wrapper (env : Api.Env) query arg apiKey (w : Api.World) :
  (trim apiKey = "" ->
   Deepseek.analyzeDataWithDeepseek env query arg apiKey w =
   (Api.Thrown (Api.Error Deepseek.MissingCredential), w)) /\
  (trim apiKey <> "" ->
   Deepseek.analyzeDataWithDeepseek env query arg apiKey w =
   Api.analyzeData env query arg apiKey w).
Proof.
  split.
  - intros Hk. unfold Deepseek.analyzeDataWithDeepseek. now rewrite Hk.
  - apply deepseek_nonblank.
Qed.

End ServiceFacts.

(** ** The upload, beyond the claims *)

Section UploadMore.
Context {R : JsRuntime}.

(** X5.  What the sanitizer returns is never object-shaped (no [null], no
    date, no nested structure), and the sanitizer leaves it as it is:
    sanitizing twice is sanitizing once. *)
Theorem sanitizeCell_idempotent (cell cell' : JsValue) :
  Upload.sanitizeCell cell = Some cell' ->
  typeof cell' <> "object" /\ Upload.sanitizeCell cell' = Some cell'.
Proof.
  destruct cell as [ | | b | n | s | d | o]; cbn; intros H.
  6: destruct (Date_toISOString d); cbn in H; [|discriminate].
  all: injection H as <-; split; [discriminate | reflexivity].
Qed.

Lemma mapM_length {A B : Type} (f : A -> option B) (xs : list A) (ys : list B) :
  mapM f xs = Some ys -> length ys = length xs.
Proof.
  revert ys. induction xs as [|x xs IH]; intros ys H.
  - injection H as <-. reflexivity.
  - apply mapM_Some_inv in H as (y & ys' & _ & H & ->).
    cbn. now rewrite (IH ys' H).
Qed.

Lemma sanitizeRows_widths (kept out : list (list JsValue)) :
  Upload.sanitizeRows kept = Some out ->
  Forall2 (fun row row' => length row' = length row) kept out.
Proof.
  unfold Upload.sanitizeRows. revert out.
  induction kept as [|row kept IH]; intros out H.
  - injection H as <-. constructor.
  - apply mapM_Some_inv in H as (row' & out' & Hr & H & ->).
    constructor; [now apply mapM_length in Hr | now apply IH].
Qed.

Lemma Elided_length (rows kept : list (list JsValue)) :
  Elided rows kept -> length kept <= length rows.
Proof. induction 1; cbn; lia. Qed.

(** X6.  The sizes shown for an uploaded dataset are those of the dataset:
    the row count is the number of its rows, which is at most the number of
    data rows of the file, and the column count is the number of header
    cells.  The sanitizer changes no width: every row of the dataset has as
    many cells as the data row it comes from, which may differ from the
    number of headers. *)
Theorem upload_shape file fileData stats :
  Upload.processFile file = Upload.Uploaded fileData stats ->
  Upload.stat_rows stats = length (Upload.rows fileData) /\
  Upload.stat_columns stats = length (Upload.headers fileData) /\
  exists hdr dataRows kept,
    tokenized file (hdr :: dataRows) /\
    Elided dataRows kept /\
    Forall2 (fun row row' => length row' = length row) kept (Upload.rows fileData) /\
    length (Upload.rows fileData) <= length dataRows.
Proof.
  intros H.
  apply processFile_Uploaded_inv in H as (data & Htok & Hb).
  apply buildFileData_inv in Hb as (hdr & dataRows & -> & Hh & Hs & ->).
  cbn [Upload.stat_rows Upload.stat_columns]. rewrite Hh.
  split; [reflexivity|]. split; [reflexivity|].
  exists hdr, dataRows, (Upload.filterRows dataRows).
  pose proof (filterRows_Elided dataRows) as He.
  pose proof (sanitizeRows_widths _ _ Hs) as Hw.
  split; [exact Htok|]. split; [exact He|]. split; [exact Hw|].
  pose proof (Forall2_length Hw) as Hl.
  pose proof (Elided_length _ _ He) as Hle.
  unfold Upload.Row in *. lia.
Qed.

(** X7.  The decoder is chosen by the end of the file name alone, the CSV
    suffix first: a name in [.csv] never consults the spreadsheet reader, a
    name in [.xlsx] or [.xls] never consults the CSV parser, and any other
    name is refused as an unsupported format whatever the file holds. *)
Theorem processFile_dispatch (name : string) (p p' s s' : Upload.Decoded) :
  (endsWith name ".csv" = true ->
   Upload.processFile
     {| Upload.name := name; Upload.papa_parse := p; Upload.sheet_to_json := s |} =
   Upload.processFile
     {| Upload.name := name; Upload.papa_parse := p; Upload.sheet_to_json := s' |}) /\
  (endsWith name ".csv" = false ->
   endsWith name ".xlsx" = true \/ endsWith name ".xls" = true ->
   Upload.processFile
     {| Upload.name := name; Upload.papa_parse := p; Upload.sheet_to_json := s |} =
   Upload.processFile
     {| Upload.name := name; Upload.papa_parse := p'; Upload.sheet_to_json := s |}) /\
  (endsWith name ".csv" = false -> endsWith name ".xlsx" = false ->
   endsWith name ".xls" = false ->
   Upload.processFile
     {| Upload.name := name; Upload.papa_parse := p; Upload.sheet_to_json := s |} =
   Upload.UploadError
     "Unsupported file format. Please upload a CSV, XLSX, or XLS file.").
Proof.
  unfold Upload.processFile. cbn [Upload.name Upload.papa_parse Upload.sheet_to_json].
  split; [|split].
  - intros ->. reflexivity.
  - intros -> H. apply orb_true_iff in H. now rewrite H.
  - intros -> -> ->. reflexivity.
Qed.

Lemma mapM_Some_iff {A B : Type} (f : A -> option B) (xs : list A) :
  (exists ys, mapM f xs = Some ys) <-> Forall (fun x => f x <> None) xs.
Proof.
  induction xs as [|x xs IH]; cbn.
  - split; [constructor | eauto].
  - destruct (f x) as [y|] eqn:E.
    + destruct (mapM f xs) as [ys|].
      * split; [|eauto]. intros _. constructor; [congruence|].
        apply IH. eauto.
      * split; [intros [ys H]; discriminate|].
        intros H. inversion H; subst.
        apply IH in H3 as [ys H']. discriminate.
    + split; [intros [ys H]; discriminate|].
      intros H. inversion H; subst. congruence.
Qed.

Lemma sanitizeCell_throws (cell : JsValue) :
  Upload.sanitizeCell cell <> None <->
  (forall d, cell = JsDate d -> Date_toISOString d <> None).
Proof.
  destruct cell as [ | | b | n | s | d | o]; cbn;
    try (split; [intros _ d' H; discriminate | intros _; discriminate]).
  destruct (Date_toISOString d) eqn:E; cbn.
  - split; [|discriminate]. intros _ d' [= <-]. congruence.
  - split; [congruence|]. intros H. specialize (H d eq_refl). congruence.
Qed.

(** X8.  A file of a supported format is uploaded exactly when its decoder
    returns at least the header row and no data row kept by the empty-row
    filter holds an invalid date; otherwise nothing is handed over: for a
    spreadsheet the Excel error is shown, and for a CSV file the exception
    escapes the callback of the parser. *)
Theorem upload_succeeds_iff file data :
  tokenized file data ->
  ((exists fileData stats, Upload.processFile file = Upload.Uploaded fileData stats) <->
   (exists hdr dataRows,
       data = hdr :: dataRows /\
       Forall (Forall (fun cell => forall d, cell = JsDate d ->
                                             Date_toISOString d <> None))
              (Upload.filterRows dataRows))) /\
  ((forall fileData stats, Upload.processFile file <> Upload.Uploaded fileData stats) ->
   Upload.processFile file =
     (if endsWith (Upload.name file) ".csv" then Upload.UncaughtException
      else Upload.UploadError
             "Error processing Excel file. Please check the file format.")).
Proof.
  intros Htok.
  assert (Hb : (exists fd st, Upload.buildFileData data = Some (fd, st)) <->
               (exists hdr dataRows,
                   data = hdr :: dataRows /\
                   Forall (Forall (fun cell => forall d, cell = JsDate d ->
                                                         Date_toISOString d <> None))
                          (Upload.filterRows dataRows))).
  { destruct data as [|hdr dataRows]; cbn.
    - split; [intros (fd & st & H); discriminate | intros (h & r & H & _); discriminate].
    - assert (Hm : (exists out, Upload.sanitizeRows (Upload.filterRows dataRows) = Some out) <->
                   Forall (Forall (fun cell => forall d, cell = JsDate d ->
                                                         Date_toISOString d <> None))
                          (Upload.filterRows dataRows)).
      { unfold Upload.sanitizeRows. rewrite mapM_Some_iff.
        split; intros H; (eapply Forall_impl; [|exact H]); intros row Hr.
        - cbv beta in Hr.
          assert (He : exists ys, mapM Upload.sanitizeCell row = Some ys)
            by (destruct (mapM Upload.sanitizeCell row) eqn:Er; [eauto | now elim Hr]).
          apply mapM_Some_iff in He.
          eapply Forall_impl; [|exact He]. intros c. apply sanitizeCell_throws.
        - assert (He : Forall (fun c => Upload.sanitizeCell c <> None) row).
          { eapply Forall_impl; [|exact Hr]. intros c. apply sanitizeCell_throws. }
          apply mapM_Some_iff in He as [ys ->]. discriminate. }
      destruct (Upload.sanitizeRows (Upload.filterRows dataRows)) as [out|] eqn:E.
      + split; [|eauto]. intros _. exists hdr, dataRows. split; [reflexivity|].
        apply Hm. eauto.
      + split; [intros (fd & st & H); discriminate|].
        intros (h & r & [= <- <-] & H). apply Hm in H as [out H]. discriminate. }
  unfold Upload.processFile.
  destruct Htok as [[Hcsv Hp]|(Hcsv & Hx & Hp)]; rewrite Hcsv, Hp.
  - destruct (Upload.buildFileData data) as [[fd st]|] eqn:E.
    + split; [|intros H; now elim (H fd st)].
      rewrite <- Hb. split; eauto.
    + split; [|reflexivity]. rewrite <- Hb.
      split; [intros (? & ? & H); discriminate | intros (? & ? & H); discriminate].
  - assert (Ex : endsWith (Upload.name file) ".xlsx" || endsWith (Upload.name file) ".xls" = true)
      by (apply orb_true_iff; exact Hx).
    rewrite Ex.
    destruct (Upload.buildFileData data) as [[fd st]|] eqn:E.
    + split; [|intros H; now elim (H fd st)].
      rewrite <- Hb. split; eauto.
    + split; [|reflexivity]. rewrite <- Hb.
      split; [intros (? & ? & H); discriminate | intros (? & ? & H); discriminate].
Qed.

End UploadMore.

(** ** The application *)

Section AppFacts.
Context {R : JsRuntime}.

Lemma follows_refl (w : Api.World) : follows w w.
Proof. exists []. rewrite app_nil_r. repeat split; auto. Qed.

Lemma testBackendConnection_follows (env : Api.Env) (w : Api.World) :
  follows w (snd (Api.testBackendConnection env w)) /\
  Api.baseURL (snd (Api.testBackendConnection env w)) = Api.baseURL w.
Proof.
  rewrite testBackendConnection_run. cbn [snd]. split; [|reflexivity].
  exists [healthRequest (Api.baseURL w)]. repeat split; auto.
  constructor; [|constructor]. left. apply prefix_append.
Qed.

Lemma analyzeData_follows (env : Api.Env) query arg apiKey (w : Api.World) :
  follows w (snd (Api.analyzeData env query arg apiKey w)).
Proof.
  destruct (rejected_or_accepted env query arg apiKey w) as [[m ->]|[data Hacc]].
  - apply follows_refl.
  - rewrite (analyzeData_world env _ _ _ _ _ Hacc).
    exists (fst (callTrace env query apiKey data w)). cbn [Api.log Api.baseURL].
    split; [reflexivity|].
    unfold callTrace.
    repeat match goal with
           | |- context [match ?x with Api.Resolved _ => _ | Api.Rejected _ => _ end] =>
               destruct x
           end;
      cbn [fst snd]; (split; [auto|]);
      repeat (apply Forall_cons;
              [first [left; apply prefix_append | right; apply prefix_append]|]);
      apply Forall_nil.
Qed.

Lemma deepseek_follows (env : Api.Env) query arg apiKey (w : Api.World) :
  follows w (snd (Deepseek.analyzeDataWithDeepseek env query arg apiKey w)).
Proof.
  destruct (trim apiKey) as [|a k] eqn:Ek.
  - unfold Deepseek.analyzeDataWithDeepseek. rewrite Ek. apply follows_refl.
  - rewrite deepseek_nonblank by (rewrite Ek; discriminate).
    apply analyzeData_follows.
Qed.

Lemma follows_trans (w1 w2 w3 : Api.World) :
  Api.baseURL w2 = Api.baseURL w1 -> follows w1 w2 -> follows w2 w3 -> follows w1 w3.
Proof.
  intros Hb (r1 & Hl1 & _ & Hf1) (r2 & Hl2 & Hb2 & Hf2).
  exists (r1 ++ r2)%list. rewrite Hl2, Hl1, app_assoc.
  rewrite Hb in Hb2, Hf2.
  split; [reflexivity|]. split; [exact Hb2|].
  apply Forall_app. split; [exact Hf1 | exact Hf2].
Qed.

Lemma queryCatch_fields (env : Api.Env) axiosMessage (e : Api.Exn) (s : App.State) :
  let s' := App.queryCatch env axiosMessage e s in
  App.error s' <> None /\ App.isLoading s' = App.isLoading s /\
  App.result s' = App.result s /\ App.fileData s' = App.fileData s /\
  App.apiKey s' = App.apiKey s /\ App.currentQuery s' = App.currentQuery s.
Proof.
  unfold App.queryCatch. cbv zeta.
  repeat match goal with
         | |- context [if ?c then _ else _] => destruct c
         end; cbn; repeat split; discriminate.
Qed.

(** The state and the world after the analysis part of [handleQuery]. *)
Lemma runAnalysis_cases (env : Api.Env) axiosMessage query d key (s1 : App.State)
  (w1 : Api.World) :
  let s' := fst (App.runAnalysis env axiosMessage query d key s1 w1) in
  let w' := snd (App.runAnalysis env axiosMessage query d key s1 w1) in
  follows w1 w' /\
  App.fileData s' = App.fileData s1 /\ App.apiKey s' = App.apiKey s1 /\
  App.isLoading s' = false /\ App.currentQuery s' = query /\
  ((App.error s' <> None /\ App.result s' = App.result s1) \/
   (App.error s' = None /\ exists r, App.result s' = Some r)).
Proof.
  cbv zeta. unfold App.runAnalysis.
  pose proof (deepseek_follows env query (App.argOf d) key w1) as Hw.
  destruct (Deepseek.analyzeDataWithDeepseek env query (App.argOf d) key w1)
    as [[response|e] w2]; cbn [fst snd] in *.
  - split; [exact Hw|]. cbn. repeat split. right. split; eauto.
  - split; [exact Hw|].
    destruct (queryCatch_fields env axiosMessage e
                (App.setCurrentQuery query
                   (App.setError None (App.setIsLoading true s1))))
      as (He & _ & Hres & Hfd & Hkey & Hq).
    cbn [App.setIsLoading App.error App.fileData App.apiKey App.result
         App.isLoading App.currentQuery].
    rewrite Hfd, Hkey, Hres, Hq. cbn. repeat split. left. split; auto.
Qed.

(** The state and the world after [handleQuery], path by path. *)
Lemma handleQuery_cases (env : Api.Env) axiosMessage query (s : App.State)
  (w : Api.World) :
  let s' := fst (App.handleQuery env axiosMessage query s w) in
  let w' := snd (App.handleQuery env axiosMessage query s w) in
  follows w w' /\
  App.fileData s' = App.fileData s /\ App.apiKey s' = App.apiKey s /\
  ((App.error s' <> None /\ App.result s' = App.result s /\
    (App.isLoading s' = App.isLoading s \/ App.isLoading s' = false)) \/
   (App.error s' = None /\ App.isLoading s' = false /\
    App.currentQuery s' = query /\ exists r, App.result s' = Some r)).
Proof.
  cbv zeta.
  assert (Hguard : forall m w1,
             follows w w1 ->
             follows w w1 /\
             App.fileData (App.setError (Some m) s) = App.fileData s /\
             App.apiKey (App.setError (Some m) s) = App.apiKey s /\
             ((App.error (App.setError (Some m) s) <> None /\
               App.result (App.setError (Some m) s) = App.result s /\
               (App.isLoading (App.setError (Some m) s) = App.isLoading s \/
                App.isLoading (App.setError (Some m) s) = false)) \/
              (App.error (App.setError (Some m) s) = None /\
               App.isLoading (App.setError (Some m) s) = false /\
               App.currentQuery (App.setError (Some m) s) = query /\
               exists r, App.result (App.setError (Some m) s) = Some r))).
  { intros m w1 Hf. split; [exact Hf|]. cbn. repeat split. left.
    repeat split; auto. discriminate. }
  assert (Han : forall s1 w1,
             follows w w1 ->
             App.fileData s1 = App.fileData s -> App.apiKey s1 = App.apiKey s ->
             App.result s1 = App.result s -> forall d key,
             let r := App.runAnalysis env axiosMessage query d key s1 w1 in
             follows w (snd r) /\
             App.fileData (fst r) = App.fileData s /\
             App.apiKey (fst r) = App.apiKey s /\
             ((App.error (fst r) <> None /\ App.result (fst r) = App.result s /\
               (App.isLoading (fst r) = App.isLoading s \/
                App.isLoading (fst r) = false)) \/
              (App.error (fst r) = None /\ App.isLoading (fst r) = false /\
               App.currentQuery (fst r) = query /\
               exists x, App.result (fst r) = Some x))).
  { intros s1 w1 Hf Hfd Hk Hr d key. cbv zeta.
    destruct (runAnalysis_cases env axiosMessage query d key s1 w1)
      as (Hw & Hfd' & Hk' & Hl & Hq & Hcase).
    split.
    - destruct Hf as (r1 & Hl1 & Hb1 & Hf1).
      destruct Hw as (r2 & Hl2 & Hb2 & Hf2).
      exists (r1 ++ r2)%list. rewrite Hl2, Hl1, app_assoc.
      split; [reflexivity|]. split.
      + destruct Hb2 as [Hb2|Hb2]; [|now right].
        rewrite Hb2. exact Hb1.
      + apply Forall_app. split; [exact Hf1|].
        eapply Forall_impl; [|exact Hf2]. cbv beta.
        intros a [H|H]; [|now right].
        destruct Hb1 as [Hb1|Hb1]; rewrite Hb1 in H; auto.
    - rewrite Hfd', Hk', Hfd, Hk. repeat split.
      destruct Hcase as [[He Hres]|[He Hres]].
      + left. rewrite Hres, Hr. repeat split; auto.
      + right. repeat split; auto. }
  unfold App.handleQuery.
  destruct (App.fileData s) as [d|] eqn:Ed.
  2: { apply Hguard, follows_refl. }
  destruct (truthy (trim (App.apiKey s))); cbn [negb].
  2: { apply Hguard, follows_refl. }
  destruct (App.backendStatus s);
    try (apply Han; auto using follows_refl).
  destruct (testBackendConnection_follows env w) as [Hfol Hbase].
  destruct (Api.testBackendConnection env w) as [[[|]|e] w1];
    cbn [snd] in *.
  - apply Han; auto.
  - now apply Hguard.
  - now apply Hguard.
Qed.

Lemma uint_chars (d : Decimal.uint) (a : ascii) :
  occurs a (DecimalString.NilEmpty.string_of_uint d) ->
  occurs a "0123456789-".
Proof.
  unfold occurs. induction d; cbn; intros Ha; try contradiction;
    destruct Ha as [<-|Ha]; auto; cbn; tauto.
Qed.

Lemma decimal_chars (n : Z) (a : ascii) :
  occurs a (Api.decimal n) -> occurs a "0123456789-".
Proof.
  unfold Api.decimal, DecimalString.NilZero.string_of_int.
  assert (H : forall d, occurs a (DecimalString.NilZero.string_of_uint d) ->
                        occurs a "0123456789-").
  { intros d. destruct d;
      try (intros Ha; eapply uint_chars; exact Ha).
    intros [<-|[]]. cbn. tauto. }
  destruct (Z.to_int n) as [d|d]; [apply H|].
  intros [<-|Ha]; [cbn; tauto | now apply (H d)].
Qed.

Lemma includes_after (d rest sub' : string) (c : ascii) :
  (forall a, occurs a d -> a <> c) ->
  includes (d ++ rest) (String c sub') = includes rest (String c sub').
Proof.
  intros H. induction d as [|a d IH]; [reflexivity|].
  cbn [append includes String.prefix].
  destruct (ascii_dec c a) as [->|Hne].
  - exfalso. now apply (H a); [left|].
  - apply IH. intros b Hb. apply H. now right.
Qed.

(** None of the words that [handleQuery] looks for occurs in a message of the
    service that does not quote the back end. *)
Lemma plainMessage_keywords (m : string) :
  plainMessage m ->
  includes m "network" = false /\ includes m "ECONNREFUSED" = false /\
  includes m "ENOTFOUND" = false /\ includes m "Connection" = false /\
  includes m "timeout" = false /\
  includes m "maximum context length" = false /\
  includes m "token limit" = false.
Proof.
  intros [Hin|[st ->]].
  - cbn in Hin.
    repeat (destruct Hin as [<-|Hin]; [repeat split; reflexivity|]).
    contradiction.
  - unfold Api.UnknownFailure.
    assert (Hunknown :
              let m := "Request failed (" ++ "unknown status" ++ "). Please try again." in
              includes m "network" = false /\ includes m "ECONNREFUSED" = false /\
              includes m "ENOTFOUND" = false /\ includes m "Connection" = false /\
              includes m "timeout" = false /\
              includes m "maximum context length" = false /\
              includes m "token limit" = false)
      by (repeat split; reflexivity).
    destruct st as [n|]; [|exact Hunknown].
    destruct (Z.eqb n 0); [exact Hunknown|].
    pose proof (decimal_chars n) as Hd.
    generalize dependent (Api.decimal n). intros d Hd.
    assert (Hc : forall c, ~ occurs c "0123456789-" ->
                           forall a, occurs a d -> a <> c).
    { intros c Hc a Ha ->. apply Hc. now apply Hd. }
    assert (Hnot : forall c, 
               (if in_dec ascii_dec c (list_ascii_of_string "0123456789-")
                then true else false) = false ->
               ~ occurs c "0123456789-").
    { intros c H Ho. unfold occurs in Ho.
      destruct (in_dec ascii_dec c (list_ascii_of_string "0123456789-"));
        [discriminate | contradiction]. }
    repeat split; cbn [append includes String.prefix];
      repeat match goal with
             | |- context [ascii_dec ?x ?y] =>
                 let r := eval vm_compute in (if ascii_dec x y then true else false) in
                 match r with
                 | true => destruct (ascii_dec x y) as [_|Hn]; [|now elim Hn]
                 | false => destruct (ascii_dec x y) as [He|_]; [discriminate He|]
                 end
             end;
      (rewrite includes_after by (apply Hc, Hnot; reflexivity));
      reflexivity.
Qed.

(** X9.  A query never leaves the application loading, never touches the
    dataset or the key, and ends in one of two ways: with no error, the
    submitted query recorded and a result set; or with an error message and
    the result of the previous query still in place. *)
Theorem handleQuery_outcome (env : Api.Env) axiosMessage query (s : App.State)
  (w : Api.World) :
  let s' := fst (App.handleQuery env axiosMessage query s w) in
  (App.isLoading s = false -> App.isLoading s' = false) /\
  App.fileData s' = App.fileData s /\ App.apiKey s' = App.apiKey s /\
  (App.error s' = None ->
   App.currentQuery s' = query /\ exists r, App.result s' = Some r) /\
  (App.error s' <> None -> App.result s' = App.result s).
Proof.
  cbv zeta.
  destruct (handleQuery_cases env axiosMessage query s w)
    as (_ & Hfd & Hk & Hcase).
  split; [|split; [exact Hfd|split; [exact Hk|split]]].
  - intros Hl. destruct Hcase as [(_ & _ & [H|H])|(_ & H & _)]; congruence.
  - intros He. destruct Hcase as [(H & _)|(_ & _ & Hq & Hr)]; [contradiction|].
    now split.
  - intros He. destruct Hcase as [(_ & H & _)|(H & _)]; [exact H | contradiction].
Qed.

(** X10.  A query is turned down before any analysis when no dataset has
    been uploaded, when the key is blank, and when the back end was last seen
    off line and does not answer the probe made then: only the error message
    changes, and no request is made but, in the third case, that one probe. *)
Theorem handleQuery_guards (env : Api.Env) axiosMessage query (s : App.State)
  (w : Api.World) :
  (App.fileData s = None ->
   App.handleQuery env axiosMessage query s w =
   (App.setError (Some App.UploadFirst) s, w)) /\
  (App.fileData s <> None -> trim (App.apiKey s) = "" ->
   App.handleQuery env axiosMessage query s w =
   (App.setError (Some App.EnterKey) s, w)) /\
  (App.fileData s <> None -> trim (App.apiKey s) <> "" ->
   App.backendStatus s = App.offline ->
   (exists e, Api.respond env (Api.log w) (healthRequest (Api.baseURL w)) =
              Api.Rejected e) ->
   App.handleQuery env axiosMessage query s w =
   (App.setError (Some App.CannotConnect) s,
    extend w [healthRequest (Api.baseURL w)])).
Proof.
  unfold App.handleQuery. split; [|split].
  - intros ->. reflexivity.
  - intros Hf Hk. destruct (App.fileData s); [|congruence]. now rewrite Hk.
  - intros Hf Hk Hb [e He]. destruct (App.fileData s); [|congruence].
    rewrite (truthy_true _ Hk), Hb. cbn [negb].
    rewrite testBackendConnection_run, He. reflexivity.
Qed.

(** X11.  While the browser reports being on line, a failure of the service
    whose message does not quote the back end is shown word for word and the
    status of the back end is left as it was: none of the words that the
    handler looks for (network, ECONNREFUSED, ENOTFOUND, Connection, timeout,
    maximum context length, token limit) occurs in such a message, so neither
    the unreachable back end nor the timeout of the service is recognised.
    While the browser reports being off line, every failure is shown as a
    connection failure and the back end is marked off line. *)
Theorem handleQuery_failure_display (env : Api.Env) axiosMessage query d
  (s : App.State) (w w' : Api.World) (e : Api.Exn) :
  App.fileData s = Some d ->
  trim (App.apiKey s) <> "" ->
  App.backendStatus s <> App.offline ->
  Deepseek.analyzeDataWithDeepseek env query (App.argOf d) (App.apiKey s) w =
    (Api.Thrown e, w') ->
  let s' := fst (App.handleQuery env axiosMessage query s w) in
  snd (App.handleQuery env axiosMessage query s w) = w' /\
  App.isLoading s' = false /\
  (Api.onLine env = true ->
   forall m, e = Api.Error m -> plainMessage m ->
             App.error s' = Some m /\ App.backendStatus s' = App.backendStatus s) /\
  (Api.onLine env = false ->
   App.error s' = Some App.CannotConnect /\ App.backendStatus s' = App.offline).
Proof.
  intros Hf Hk Hb Hrun. cbv zeta.
  assert (Hq : App.handleQuery env axiosMessage query s w =
               App.runAnalysis env axiosMessage query d (App.apiKey s) s w).
  { unfold App.handleQuery. rewrite Hf, (truthy_true _ Hk). cbn [negb].
    destruct (App.backendStatus s); congruence. }
  rewrite Hq. unfold App.runAnalysis. rewrite Hrun. cbn [fst snd].
  split; [reflexivity|]. split; [reflexivity|]. split.
  - intros Hon m -> Hm.
    destruct (plainMessage_keywords m Hm) as (H1 & H2 & H3 & H4 & H5 & H6 & H7).
    unfold App.queryCatch. cbn [App.messageOf].
    rewrite H1, H2, H3, H4, H5, H6, H7, Hon. cbn. split; reflexivity.
  - intros Hoff. unfold App.queryCatch. rewrite Hoff.
    rewrite !orb_true_r. cbn. split; reflexivity.
Qed.

Lemma checkBackendStatus_world (env : Api.Env) (s : App.State) (w : Api.World) :
  follows w (snd (App.checkBackendStatus env s w)) /\
  Api.baseURL (snd (App.checkBackendStatus env s w)) = Api.baseURL w.
Proof.
  unfold App.checkBackendStatus. rewrite testBackendConnection_run.
  destruct (Api.respond env (Api.log w) (healthRequest (Api.baseURL w))).
  - cbn [snd]. split; [|reflexivity].
    exists [healthRequest (Api.baseURL w)]. repeat split; auto.
    constructor; [|constructor]. left. apply prefix_append.
  - cbn [extend Api.baseURL Api.log].
    match goal with
    | |- context [Api.respond env ?l ?r] => destruct (Api.respond env l r)
    end; cbn [snd Api.baseURL Api.log]; (split; [|reflexivity]);
      exists [healthRequest (Api.baseURL w); healthRequest Api.fallbackURL];
      rewrite <- app_assoc; (split; [reflexivity|]); (split; [now left|]);
      (constructor; [left; apply prefix_append|]);
      (constructor; [right; apply prefix_append | constructor]).
Qed.

(** X12.  The periodic check marks the back end on line exactly when the
    probe of the active address or, failing that, the health check of the
    alternative address is answered, and off line otherwise.  It changes
    nothing else in the state and, unlike a query, never changes the active
    address of the HTTP client. *)
Theorem checkBackendStatus_verdict (env : Api.Env) (s : App.State) (w : Api.World) :
  let h1 := healthRequest (Api.baseURL w) in
  let h2 := healthRequest Api.fallbackURL in
  let answered :=
    match Api.respond env (Api.log w) h1 with
    | Api.Resolved _ => true
    | Api.Rejected _ =>
        match Api.respond env (Api.log w ++ [h1])%list h2 with
        | Api.Resolved _ => true
        | Api.Rejected _ => false
        end
    end in
  fst (App.checkBackendStatus env s w) =
    App.setBackendStatus (if answered then App.online else App.offline) s /\
  Api.baseURL (snd (App.checkBackendStatus env s w)) = Api.baseURL w /\
  length (Api.log (snd (App.checkBackendStatus env s w))) <= length (Api.log w) + 2.
Proof.
  cbv zeta. split; [|split; [apply checkBackendStatus_world|]].
  - unfold App.checkBackendStatus. rewrite testBackendConnection_run.
    destruct (Api.respond env (Api.log w) (healthRequest (Api.baseURL w)));
      [reflexivity|].
    cbn [extend Api.baseURL Api.log].
    change {| Api.method := Api.GET; Api.url := "http://127.0.0.1:8000/api/health";
              Api.body := Api.NoBody |}
      with (healthRequest Api.fallbackURL).
    destruct (Api.respond env (Api.log w ++ [healthRequest (Api.baseURL w)])
                (healthRequest Api.fallbackURL)); reflexivity.
  - unfold App.checkBackendStatus. rewrite testBackendConnection_run.
    destruct (Api.respond env (Api.log w) (healthRequest (Api.baseURL w))).
    + cbn. rewrite length_app. cbn. lia.
    + cbn [extend Api.baseURL Api.log].
      match goal with
      | |- context [Api.respond env ?l ?r] => destruct (Api.respond env l r)
      end; cbn [snd Api.log]; rewrite !length_app; cbn; lia.
Qed.



End AppFacts.

(** ** The stored key *)

Lemma getItem_removeItem_same (k : string) (st : ApiKeyInput.Storage) :
  ApiKeyInput.getItem k (ApiKeyInput.removeItem k st) = None.
Proof.
  induction st as [|[k' v] st IH]; [reflexivity|]. cbn.
  destruct (String.eqb k' k) eqn:E; [exact IH|]. cbn. now rewrite E.
Qed.

Lemma getItem_removeItem_other (k k' : string) (st : ApiKeyInput.Storage) :
  k' <> k ->
  ApiKeyInput.getItem k' (ApiKeyInput.removeItem k st) = ApiKeyInput.getItem k' st.
Proof.
  intros Hne. induction st as [|[k0 v] st IH]; [reflexivity|]. cbn.
  destruct (String.eqb k0 k) eqn:E.
  - apply String.eqb_eq in E as ->.
    destruct (String.eqb k k') eqn:E'; [|exact IH].
    apply String.eqb_eq in E'. congruence.
  - cbn. now rewrite IH.
Qed.

Lemma getItem_setItem_same (k v : string) (st : ApiKeyInput.Storage) :
  ApiKeyInput.getItem k (ApiKeyInput.setItem k v st) = Some v.
Proof. unfold ApiKeyInput.setItem. cbn. now rewrite String.eqb_refl. Qed.

Lemma getItem_setItem_other (k k' v : string) (st : ApiKeyInput.Storage) :
  k' <> k ->
  ApiKeyInput.getItem k' (ApiKeyInput.setItem k v st) = ApiKeyInput.getItem k' st.
Proof.
  intros Hne. unfold ApiKeyInput.setItem. cbn.
  destruct (String.eqb k k') eqn:E.
  - apply String.eqb_eq in E. congruence.
  - now apply getItem_removeItem_other.
Qed.

Lemma trim_nonempty (s : string) : trim s <> "" -> s <> "".
Proof. intros H ->. now apply H. Qed.

Lemma session_snoc (storage : ApiKeyInput.Storage) actions a :
  ApiKeyInput.session storage (actions ++ [a]) =
  ApiKeyInput.act a (ApiKeyInput.session storage actions).
Proof. unfold ApiKeyInput.session. now rewrite fold_left_app. Qed.

(** X14.  At any point of a session, the component shows the key as saved
    exactly when the storage of the browser holds a non-empty value under the
    name of the key; and whatever the user does, the values stored under
    other names are those found on mount. *)
Theorem stored_key_invariant (storage : ApiKeyInput.Storage)
  (actions : list ApiKeyInput.Action) :
  let s := ApiKeyInput.session storage actions in
  (ApiKeyInput.isSaved s = true <->
   exists v, ApiKeyInput.getItem ApiKeyInput.API_KEY_STORAGE_KEY
               (ApiKeyInput.localStorage s) = Some v /\ v <> "") /\
  (forall k, k <> ApiKeyInput.API_KEY_STORAGE_KEY ->
             ApiKeyInput.getItem k (ApiKeyInput.localStorage s) =
             ApiKeyInput.getItem k storage).
Proof.
  cbv zeta. induction actions as [|a actions IH] using rev_ind.
  - unfold ApiKeyInput.session, ApiKeyInput.onMount, ApiKeyInput.fresh.
    cbn [fold_left ApiKeyInput.localStorage].
    destruct (ApiKeyInput.getItem ApiKeyInput.API_KEY_STORAGE_KEY storage)
      as [v|] eqn:E.
    + destruct v as [|c v]; cbn [truthy ApiKeyInput.isSaved ApiKeyInput.localStorage].
      * split; [|reflexivity]. rewrite E. split; [discriminate|].
        intros (v & [= <-] & H). congruence.
      * split; [|reflexivity]. rewrite E. split; [|reflexivity].
        intros _. eexists. split; [reflexivity | discriminate].
    + cbn. split; [|reflexivity]. rewrite E.
      split; [discriminate | intros (v & H & _); discriminate].
  - rewrite session_snoc. destruct IH as [IHs IHo].
    set (s := ApiKeyInput.session storage actions) in *.
    destruct a as [value| | |]; cbn [ApiKeyInput.act].
    + exact (conj IHs IHo).
    + unfold ApiKeyInput.saveApiKey.
      destruct (truthy (trim (ApiKeyInput.apiKey s))) eqn:Et; [|exact (conj IHs IHo)].
      cbn [ApiKeyInput.isSaved ApiKeyInput.localStorage]. split.
      * rewrite getItem_setItem_same. split; [|reflexivity].
        intros _. exists (ApiKeyInput.apiKey s). split; [reflexivity|].
        apply trim_nonempty. destruct (trim (ApiKeyInput.apiKey s)); discriminate.
      * intros k Hk. rewrite getItem_setItem_other by exact Hk. now apply IHo.
    + cbn [ApiKeyInput.clearSavedApiKey ApiKeyInput.isSaved ApiKeyInput.localStorage].
      split.
      * rewrite getItem_removeItem_same.
        split; [discriminate | intros (v & H & _); discriminate].
      * intros k Hk. rewrite getItem_removeItem_other by exact Hk. now apply IHo.
    + exact (conj IHs IHo).
Qed.

(** X15.  A key that is not blank, once saved, is what the next session
    starts with, character for character (it is stored untrimmed); a blank
    key is never written; and after the saved key is cleared the next session
    starts with no key. *)
Theorem stored_key_round_trip (storage : ApiKeyInput.Storage)
  (actions : list ApiKeyInput.Action) (key : string) :
  let typed := ApiKeyInput.session storage (actions ++ [ApiKeyInput.Type_ key]) in
  let saved := ApiKeyInput.saveApiKey typed in
  let cleared := ApiKeyInput.clearSavedApiKey typed in
  (trim key <> "" ->
   ApiKeyInput.apiKey (ApiKeyInput.session (ApiKeyInput.localStorage saved) []) = key /\
   ApiKeyInput.isSaved (ApiKeyInput.session (ApiKeyInput.localStorage saved) []) = true) /\
  (trim key = "" -> saved = typed) /\
  ApiKeyInput.session (ApiKeyInput.localStorage cleared) [] =
    ApiKeyInput.fresh (ApiKeyInput.localStorage cleared).
Proof.
  cbv zeta. rewrite session_snoc. cbn [ApiKeyInput.act].
  set (s := ApiKeyInput.session storage actions).
  unfold ApiKeyInput.saveApiKey. cbn [ApiKeyInput.onChange ApiKeyInput.apiKey].
  split; [|split].
  - intros Hk. rewrite (truthy_true _ Hk).
    cbn [ApiKeyInput.localStorage ApiKeyInput.onChange].
    unfold ApiKeyInput.session, ApiKeyInput.onMount, ApiKeyInput.fresh.
    cbn [fold_left ApiKeyInput.localStorage].
    rewrite getItem_setItem_same.
    rewrite (truthy_true key (trim_nonempty _ Hk)). split; reflexivity.
  - intros Hk. now rewrite Hk.
  - unfold ApiKeyInput.session, ApiKeyInput.onMount.
    cbn [fold_left ApiKeyInput.fresh ApiKeyInput.localStorage
         ApiKeyInput.clearSavedApiKey].
    now rewrite getItem_removeItem_same.
Qed.

(** ** The state of the upload component *)

Section UploadViewFacts.
Context {R : JsRuntime}.

Lemma finish_invariant (outcome : Upload.Outcome) (s : UploadView.State) :
  viewInvariant s -> viewInvariant (fst (UploadView.finish outcome s)).
Proof.
  unfold viewInvariant. intros (Hs & He & Hu).
  destruct outcome; cbn; [| |exact (conj Hs (conj He Hu))];
    (split; [|split]); intros Hx; try discriminate Hx;
    repeat split; discriminate.
Qed.

Lemma step_invariant (e : UploadView.Event) (v : UploadView.View) :
  viewInvariant (UploadView.state v) ->
  viewInvariant (UploadView.state (UploadView.step e v)).
Proof.
  intros Hv. destruct e as [[file|]|n| |]; cbn [UploadView.step].
  - unfold viewInvariant. cbn.
    split; [|split]; intros Hx; try discriminate Hx. split; reflexivity.
  - exact Hv.
  - destruct (nth_error (UploadView.pending v) n); [|exact Hv].
    cbn [UploadView.state]. now apply finish_invariant.
  - destruct (UploadView.uploadStatus (UploadView.state v)) eqn:E; try exact Hv.
    destruct Hv as (Hs & He & Hu). destruct (Hs E) as (Hl & _).
    unfold viewInvariant. cbn.
    split; [|split]; intros Hx; try discriminate Hx. congruence.
  - destruct (UploadView.uploadStatus (UploadView.state v)) eqn:E; try exact Hv.
    destruct Hv as (Hs & He & Hu). destruct (He E) as (Hl & _).
    unfold viewInvariant. cbn.
    split; [|split]; intros Hx; try discriminate Hx. congruence.
Qed.

(** X16.  Whatever files are chosen, in whatever order their readings end
    and whatever buttons are pressed in between, the component shows a success
    only with the sizes of a dataset, shows a failure only with an error
    message, and is not uploading in either case; while it is uploading it
    shows neither, and no error message. *)
Theorem upload_view_invariant (events : list UploadView.Event) :
  let s := UploadView.state (UploadView.run events) in
  (UploadView.uploadStatus s = UploadView.success ->
   UploadView.isUploading s = false /\ UploadView.fileStats s <> None) /\
  (UploadView.uploadStatus s = UploadView.error ->
   UploadView.isUploading s = false /\ UploadView.errorMessage s <> None) /\
  (UploadView.isUploading s = true ->
   UploadView.uploadStatus s = UploadView.idle /\ UploadView.errorMessage s = None).
Proof.
  cbv zeta. change (viewInvariant (UploadView.state (UploadView.run events))).
  unfold UploadView.run.
  assert (H : forall v, viewInvariant (UploadView.state v) ->
                        viewInvariant
                          (UploadView.state
                             (fold_left (fun v e => UploadView.step e v) events v))).
  { induction events as [|e events IH]; intros v Hv; [exact Hv|].
    cbn [fold_left]. apply IH. now apply step_invariant. }
  apply H. unfold viewInvariant. cbn. repeat split; discriminate.
Qed.

(** X17.  When an exception escapes the callback of the CSV parser (the
    file has no header row, or an invalid date in a row that is kept), the
    component is left uploading, with the name of the file, no error message
    and no dataset handed over; neither button exists in that state, which
    only the end of the reading of another file can end, and in which the file
    input stays disabled. *)
Theorem csv_exception_blocks_input (file : Upload.File) (s : UploadView.State)
  (buttons : list UploadView.Event) :
  Upload.processFile file = Upload.UncaughtException ->
  Forall (fun e => e = UploadView.UploadAnother \/ e = UploadView.TryAgain) buttons ->
  let s1 := fst (UploadView.processFile file s) in
  snd (UploadView.processFile file s) = [] /\
  UploadView.isUploading s1 = true /\
  UploadView.uploadStatus s1 = UploadView.idle /\
  UploadView.fileName s1 = Some (Upload.name file) /\
  UploadView.errorMessage s1 = None /\
  fold_left (fun v e => UploadView.step e v) buttons
            {| UploadView.state := s1; UploadView.pending := [] |} =
    {| UploadView.state := s1; UploadView.pending := [] |}.
Proof.
  intros Hout Hb. cbv zeta. unfold UploadView.processFile. rewrite Hout.
  cbn [fst snd UploadView.finish UploadView.start UploadView.isUploading
       UploadView.uploadStatus UploadView.fileName UploadView.errorMessage].
  repeat (split; [reflexivity|]).
  induction Hb as [|e buttons [-> | ->] _ IH]; [reflexivity| |];
    cbn [fold_left]; exact IH.
Qed.

End UploadViewFacts.

(** ** From the upload to the query *)

Section Composition.
Context {R : JsRuntime}.

(** X18.  An uploaded dataset whose header cells are strings passes the
    dataset check of the service exactly when it has at least one row: a file
    with a header row only is uploaded with success and zero rows, and every
    query on it is then refused as an invalid dataset before any request. *)
Theorem uploaded_dataset_query (env : Api.Env) file fileData stats hs query apiKey
  (w : Api.World) :
  Upload.processFile file = Upload.Uploaded fileData stats ->
  stringCells (Upload.headers fileData) = Some hs ->
  trim apiKey <> "" -> trim query <> "" ->
  let arg := Some {| Api.arg_headers := Some hs;
                     Api.arg_rows := Some (Upload.rows fileData) |} in
  (Upload.stat_rows stats = 0 ->
   Api.analyzeData env query arg apiKey w =
   (Api.Thrown (Api.Error Api.InvalidDataset), w)) /\
  (Upload.stat_rows stats <> 0 ->
   accepted query arg apiKey
            {| Api.headers := hs; Api.rows := Upload.rows fileData |}).
Proof.
  intros Hup Hhs Hk Hq. cbv zeta.
  apply processFile_Uploaded_inv in Hup as (data & _ & Hb).
  apply buildFileData_inv in Hb as (hdr & dataRows & _ & _ & _ & ->).
  cbn [Upload.stat_rows]. split.
  - intros Hn. unfold Api.analyzeData.
    rewrite (truthy_true _ Hk), (truthy_true _ Hq). cbn [negb].
    destruct (Upload.rows fileData); [reflexivity | discriminate].
  - intros Hn. unfold accepted. cbn [Api.headers Api.rows].
    repeat split; auto.
    intros H. apply Hn. unfold Upload.Row in *. now rewrite H.
Qed.

End Composition.

(** * Examples of the further properties *)

Lemma analyzeData_requests_witness :
  length (Api.log (snd (Api.analyzeData envDown "q" sampleArg "k" Api.initialWorld))) <= 4.
Proof.
  destruct (analyzeData_requests envDown "q" sampleArg "k" sampleData
              Api.initialWorld sample_accepted)
    as (content & requests & -> & [[_ ->] | [(_ & _ & ->) | (_ & _ & ->)]]);
    cbn; lia.
Defined.

Lemma send_resolved_witness :
  fst (Api.analyzeData envUp "q" sampleArg "k" Api.initialWorld) = Api.Ok sampleAnswer.
Proof.
  exact (f_equal fst
           (proj1 (send_resolved envUp "q" sampleArg "k" sampleData Api.initialWorld
                     {| Api.baseURL := Api.primaryURL;
                        Api.log := [convertRequest Api.primaryURL sampleData;
                                    healthRequest Api.primaryURL] |}
                     sample_accepted eq_refl)
                  sampleAnswer eq_refl)).
Defined.

Lemma deepseek_wrapper_witness :
  Deepseek.analyzeDataWithDeepseek envUp "q" sampleArg " " Api.initialWorld =
    (Api.Thrown (Api.Error Deepseek.MissingCredential), Api.initialWorld) /\
  Deepseek.analyzeDataWithDeepseek envUp "q" sampleArg "k" Api.initialWorld =
    Api.analyzeData envUp "q" sampleArg "k" Api.initialWorld.
Proof.
  split.
  - exact (proj1 (deepseek_wrapper envUp "q" sampleArg " " Api.initialWorld) eq_refl).
  - apply (proj2 (deepseek_wrapper envUp "q" sampleArg "k" Api.initialWorld)).
    discriminate.
Defined.

Lemma sanitizeCell_idempotent_witness :
  typeof (JsString "{}") <> "object" /\
  Upload.sanitizeCell (JsString "{}") = Some (JsString "{}").
Proof.
  exact (sanitizeCell_idempotent (JsObject tt) (JsString "{}") eq_refl).
Defined.

Lemma upload_shape_witness :
  Upload.stat_rows {| Upload.stat_rows := 2; Upload.stat_columns := 2 |} = 2 /\
  exists hdr dataRows,
    tokenized sampleBook (hdr :: dataRows) /\ 2 <= length dataRows.
Proof.
  destruct (upload_shape (R := sampleRuntime) sampleBook
              {| Upload.headers := [JsNull; JsString ""];
                 Upload.rows := [[JsString "x"; JsString "{}"];
                                 [JsNumber (R := sampleRuntime) 7%Z; JsString ""]] |}
              {| Upload.stat_rows := 2; Upload.stat_columns := 2 |} eq_refl)
    as (Hr & _ & hdr & dataRows & kept & Htok & _ & _ & Hle).
  split; [exact Hr|]. exists hdr, dataRows. split; [exact Htok | exact Hle].
Defined.

Lemma processFile_dispatch_witness :
  Upload.processFile
    {| Upload.name := "report.txt";
       Upload.papa_parse := Upload.Tokens [[JsString "a"]];
       Upload.sheet_to_json := Upload.Tokens [[JsString "a"]] |} =
  Upload.UploadError
    "Unsupported file format. Please upload a CSV, XLSX, or XLS file." /\
  Upload.processFile
    {| Upload.name := "a.csv";
       Upload.papa_parse := Upload.Tokens [[JsString "a"]];
       Upload.sheet_to_json := Upload.DecodeFailure |} =
  Upload.processFile
    {| Upload.name := "a.csv";
       Upload.papa_parse := Upload.Tokens [[JsString "a"]];
       Upload.sheet_to_json := Upload.Tokens [] |} /\
  Upload.processFile
    {| Upload.name := "a.xls";
       Upload.papa_parse := Upload.DecodeFailure;
       Upload.sheet_to_json := Upload.Tokens [[JsString "a"]] |} =
  Upload.processFile
    {| Upload.name := "a.xls";
       Upload.papa_parse := Upload.Tokens [];
       Upload.sheet_to_json := Upload.Tokens [[JsString "a"]] |}.
Proof.
  split; [|split].
  - exact (proj2 (proj2 (processFile_dispatch "report.txt"
                           (Upload.Tokens [[JsString "a"]]) Upload.DecodeFailure
                           (Upload.Tokens [[JsString "a"]]) Upload.DecodeFailure))
                 eq_refl eq_refl eq_refl).
  - exact (proj1 (processFile_dispatch "a.csv"
                    (Upload.Tokens [[JsString "a"]]) Upload.DecodeFailure
                    Upload.DecodeFailure (Upload.Tokens []))
                 eq_refl).
  - exact (proj1 (proj2 (processFile_dispatch "a.xls"
                           Upload.DecodeFailure (Upload.Tokens [])
                           (Upload.Tokens [[JsString "a"]]) Upload.DecodeFailure))
                 eq_refl (or_intror eq_refl)).
Defined.

Lemma sampleBookDate_tokenized :
  tokenized sampleBookDate
            [[JsDate (R := sampleRuntime) false]; [JsDate (R := sampleRuntime) true]].
Proof. right. repeat split; auto. Defined.

Lemma emptyCsv_tokenized : tokenized emptyCsv [].
Proof. left. split; reflexivity. Defined.

Lemma upload_succeeds_iff_witness :
  (exists fileData stats,
      Upload.processFile sampleBookDate = Upload.Uploaded fileData stats) /\
  Upload.processFile emptyCsv = Upload.UncaughtException.
Proof.
  split.
  - apply (proj1 (upload_succeeds_iff sampleBookDate _ sampleBookDate_tokenized)).
    exists [JsDate (R := sampleRuntime) false],
           [[JsDate (R := sampleRuntime) true]].
    split; [reflexivity|].
    repeat constructor. intros d [= <-]. discriminate.
  - apply (proj2 (upload_succeeds_iff emptyCsv _ emptyCsv_tokenized)).
    intros fd st H. discriminate H.
Defined.

Lemma handleQuery_outcome_witness :
  App.isLoading (fst (App.handleQuery envDown sampleAxiosMessage "q" sampleApp
                        Api.initialWorld)) = false /\
  App.result (fst (App.handleQuery envDown sampleAxiosMessage "q" sampleApp
                     Api.initialWorld)) = None.
Proof.
  destruct (handleQuery_outcome envDown sampleAxiosMessage "q" sampleApp
              Api.initialWorld) as (Hl & _ & _ & _ & Hr).
  split; [exact (Hl eq_refl)|].
  apply Hr. discriminate.
Defined.

Lemma handleQuery_guards_witness :
  App.handleQuery envUp sampleAxiosMessage "q" App.initialState Api.initialWorld =
    (App.setError (Some App.UploadFirst) App.initialState, Api.initialWorld) /\
  App.handleQuery envUp sampleAxiosMessage "q" (App.setApiKey " " sampleApp)
                  Api.initialWorld =
    (App.setError (Some App.EnterKey) (App.setApiKey " " sampleApp),
     Api.initialWorld) /\
  App.handleQuery envDown sampleAxiosMessage "q"
                  (App.setBackendStatus App.offline sampleApp) Api.initialWorld =
    (App.setError (Some App.CannotConnect)
                  (App.setBackendStatus App.offline sampleApp),
     extend Api.initialWorld [healthRequest Api.primaryURL]).
Proof.
  split; [|split].
  - exact (proj1 (handleQuery_guards envUp sampleAxiosMessage "q" App.initialState
                    Api.initialWorld) eq_refl).
  - apply (proj1 (proj2 (handleQuery_guards envUp sampleAxiosMessage "q"
                           (App.setApiKey " " sampleApp) Api.initialWorld)));
      [discriminate | reflexivity].
  - apply (proj2 (proj2 (handleQuery_guards envDown sampleAxiosMessage "q"
                           (App.setBackendStatus App.offline sampleApp)
                           Api.initialWorld)));
      [discriminate | discriminate | reflexivity | now exists networkError].
Defined.

Lemma unexpected_plain : plainMessage Api.Unexpected.
Proof. left. cbn. tauto. Defined.

Lemma handleQuery_failure_display_witness :
  let s' := fst (App.handleQuery envDown sampleAxiosMessage "q" sampleApp
                   Api.initialWorld) in
  App.error s' = Some Api.Unexpected /\ App.backendStatus s' = App.online.
Proof.
  cbv zeta.
  destruct (handleQuery_failure_display envDown sampleAxiosMessage "q" sampleData
              sampleApp Api.initialWorld
              {| Api.baseURL := Api.fallbackURL;
                 Api.log := [convertRequest Api.primaryURL sampleData;
                             healthRequest Api.primaryURL;
                             healthRequest Api.fallbackURL] |}
              (Api.Error Api.Unexpected)
              eq_refl ltac:(discriminate) ltac:(discriminate) eq_refl)
    as (_ & _ & Hon & _).
  exact (Hon eq_refl Api.Unexpected eq_refl unexpected_plain).
Defined.


Lemma stored_key_invariant_witness :
  let s := ApiKeyInput.session [("theme", "dark")]
             [ApiKeyInput.Type_ "k"; ApiKeyInput.Save] in
  ApiKeyInput.getItem "theme" (ApiKeyInput.localStorage s) = Some "dark" /\
  exists v, ApiKeyInput.getItem ApiKeyInput.API_KEY_STORAGE_KEY
              (ApiKeyInput.localStorage s) = Some v /\ v <> "".
Proof.
  cbv zeta.
  destruct (stored_key_invariant [("theme", "dark")]
              [ApiKeyInput.Type_ "k"; ApiKeyInput.Save]) as [Hs Ho].
  split.
  - exact (Ho "theme" ltac:(discriminate)).
  - exact (proj1 Hs eq_refl).
Defined.

Lemma stored_key_round_trip_witness :
  let saved :=
    ApiKeyInput.saveApiKey (ApiKeyInput.session [] [ApiKeyInput.Type_ " sk-1 "]) in
  ApiKeyInput.apiKey (ApiKeyInput.session (ApiKeyInput.localStorage saved) []) =
    " sk-1 ".
Proof.
  cbv zeta.
  apply (proj1 (stored_key_round_trip [] [] " sk-1 ")). discriminate.
Defined.

Lemma upload_view_invariant_witness :
  let s := UploadView.state
             (UploadView.run [UploadView.Choose (Some emptyCsv);
                              UploadView.Choose (Some sampleBook);
                              UploadView.Settle 1; UploadView.Settle 0]) in
  UploadView.uploadStatus s = UploadView.success /\
  UploadView.isUploading s = false /\ UploadView.fileStats s <> None.
Proof.
  cbv zeta. split; [reflexivity|].
  apply (proj1 (upload_view_invariant
                  [UploadView.Choose (Some emptyCsv);
                   UploadView.Choose (Some sampleBook);
                   UploadView.Settle 1; UploadView.Settle 0])).
  reflexivity.
Defined.

Lemma csv_exception_blocks_input_witness :
  UploadView.isUploading
    (fst (UploadView.processFile emptyCsv UploadView.initialState)) = true /\
  snd (UploadView.processFile emptyCsv UploadView.initialState) = [].
Proof.
  destruct (csv_exception_blocks_input emptyCsv UploadView.initialState
              [UploadView.TryAgain; UploadView.UploadAnother] eq_refl
              (Forall_cons _ (or_intror eq_refl)
                 (Forall_cons _ (or_introl eq_refl) (Forall_nil _))))
    as (Hn & Hu & _).
  split; [exact Hu | exact Hn].
Defined.

Lemma uploaded_dataset_query_witness :
  Upload.processFile headerOnly =
    Upload.Uploaded
      {| Upload.headers := [JsString "a"; JsString "b"]; Upload.rows := [] |}
      {| Upload.stat_rows := 0; Upload.stat_columns := 2 |} /\
  Api.analyzeData envUp "q"
    (Some {| Api.arg_headers := Some ["a"; "b"]; Api.arg_rows := Some [] |})
    "k" Api.initialWorld =
  (Api.Thrown (Api.Error Api.InvalidDataset), Api.initialWorld).
Proof.
  split; [reflexivity|].
  exact (proj1 (uploaded_dataset_query envUp headerOnly
                  {| Upload.headers := [JsString "a"; JsString "b"];
                     Upload.rows := [] |}
                  {| Upload.stat_rows := 0; Upload.stat_columns := 2 |}
                  ["a"; "b"] "q" "k" Api.initialWorld
                  eq_refl eq_refl ltac:(discriminate) ltac:(discriminate))
               eq_refl).
Defined.
